(** * visbug-editor: the change/history subsystem and the drag commit handler

    A shallow embedding of [features/history.js] (the [Change] classes and
    [HistoryManager]) and of [draggable] from [features/position.js],
    followed by the properties of the specification that concern them.
    The embedding then extends to the callers of the history manager in
    [features/position.js] ([positionElement] and its helpers),
    [features/text.js] (the blur handler) and [features/font.js] (the
    alignment and weight keys), with further properties read off the code.

    Conventions of the embedding.
    - A DOM element reference is a natural number; the document is a store
      from references to element objects.  The store keeps, for each style
      property, attribute and text content, the value last assigned to it;
      how a browser parses or normalises an assigned value is not part of
      the repository and is not modelled.
    - The tree operations of the browser ([insertBefore], [appendChild],
      [remove]), its computed styles and its number conversions are not part
      of the repository either: the development is parametric in them
      (classes [TreeApi] and [Browser]), as it is in the helpers imported
      from [utilities/] (class [Utilities]).
    - [Date.now()] is an input: every operation that constructs a [Change]
      takes the clock reading [now] it would obtain.
    - Listener callbacks belong to the host page.  A callback is identified
      by a number; calling it appends the pair of the callback and of its
      argument to the log [delivered].  A callback does not call the manager
      itself.  In [History] and in the tools every callback returns; what
      the manager does when a callback throws is the subject of [Throwing],
      which agrees with [History] as long as none does.
    - JavaScript arrays used as stacks keep their orientation: the most
      recent entry is the last element of the list. *)

From stdpp Require Import gmap strings list pretty.
From Stdlib Require Import ZArith Lia Ascii.

Open Scope Z_scope.

(** ** JavaScript values carried by changes and stored in elements *)

Inductive value :=
| VUndefined
| VNull
| VStr (s : string).

#[global] Instance value_eq_dec : EqDecision value.
Proof. solve_decision. Defined.

(** [a === b] and [a !== b] on such values. *)
Definition strict_eq (a b : value) : bool := bool_decide (a = b).
Definition strict_ne (a b : value) : bool := negb (strict_eq a b).

(** Truthiness: [undefined], [null] and the empty string are falsy. *)
Definition truthy (v : value) : bool :=
  match v with
  | VUndefined | VNull => false
  | VStr s => negb (bool_decide (s = ""%string))
  end.

(** ** The document *)

Record Element := mkElement {
  isSVG : bool;                       (* el instanceof SVGElement *)
  isConnected : bool;
  style : gmap string value;
  attributes : gmap string value;
  textContent : value;
}.

Abbreviation node := nat.
Abbreviation Dom := (gmap nat Element).

(** How a method call on the document ends: it returns, or it throws; in
    both cases the document is left in some state. *)
Inductive Outcome :=
| Returned (d : Dom)
| Raised (d : Dom).

Definition connected (e : node) (d : Dom) : bool :=
  match d !! e with
  | Some x => isConnected x
  | None => false
  end.

(** [el.style[p]]: the value last assigned, the empty string before any. *)
Definition getStyleProp (e : node) (p : string) (d : Dom) : value :=
  match d !! e with
  | Some x => default (VStr "") (style x !! p)
  | None => VUndefined
  end.

(** [el.style[p] = v] *)
Definition setStyleProp (e : node) (p : string) (v : value) (d : Dom) : Dom :=
  alter (fun x => mkElement (isSVG x) (isConnected x) (<[p := v]> (style x))
                            (attributes x) (textContent x)) e d.

(** [el.getAttribute(a)]: [null] when the attribute is absent. *)
Definition getAttribute (e : node) (a : string) (d : Dom) : value :=
  match d !! e with
  | Some x => default VNull (attributes x !! a)
  | None => VUndefined
  end.

(** [String(v)], the conversion [setAttribute] applies to its value. *)
Definition toString (v : value) : string :=
  match v with
  | VStr s => s
  | VNull => "null"
  | VUndefined => "undefined"
  end.

(** [el.setAttribute(a, v)] for a name [a] that the browser accepts: the
    attribute holds the string of [v]. *)
Definition setAttribute (e : node) (a : string) (v : value) (d : Dom) : Dom :=
  alter (fun x => mkElement (isSVG x) (isConnected x) (style x)
                            (<[a := VStr (toString v)]> (attributes x))
                            (textContent x)) e d.

Definition removeAttribute (e : node) (a : string) (d : Dom) : Dom :=
  alter (fun x => mkElement (isSVG x) (isConnected x) (style x)
                            (delete a (attributes x)) (textContent x)) e d.

Definition getTextContent (e : node) (d : Dom) : value :=
  match d !! e with
  | Some x => textContent x
  | None => VUndefined
  end.

(** [el.textContent = v]: the text the element reads as afterwards.  The
    store has no tree: that the setter also removes the children of the
    element is not modelled. *)
Definition setTextContent (e : node) (v : value) (d : Dom) : Dom :=
  alter (fun x => mkElement (isSVG x) (isConnected x) (style x)
                            (attributes x) v) e d.

(** The tree operations of the browser, taken as parameters.
    [insertBefore parent child reference] and [appendChild parent child]
    may throw; [remove] does not.  [setAttribute] throws
    [InvalidCharacterError] on a name that is not a valid attribute name;
    which names are valid is the browser's rule, [attributeName]. *)
Class TreeApi := {
  insertBefore : node -> node -> node -> Dom -> Outcome;
  appendChild : node -> node -> Dom -> Outcome;
  removeNode : node -> Dom -> Dom;
  attributeName : string -> bool;
}.

(** ** history.js: the Change classes *)

#[warnings="-register-all"]
Inductive Change :=
| BaseChange (timestamp : Z)
| StyleChange (timestamp : Z) (element : option node) (property : string)
              (oldValue newValue : value)
| AttributeChange (timestamp : Z) (element : option node) (attribute : string)
                  (oldValue newValue : value)
| DOMChange (timestamp : Z)
            (element oldParent oldNextSibling newParent newNextSibling : option node)
| TextChange (timestamp : Z) (element : option node) (oldText newText : value)
| BatchChange (timestamp : Z) (changes : list Change).

(** [this.element && this.element.isConnected], [this.element?.isConnected] *)
Definition targetConnected (element : option node) (d : Dom) : bool :=
  match element with
  | Some e => connected e d
  | None => false
  end.

Module Changes.

Definition timestamp (c : Change) : Z :=
  match c with
  | BaseChange t | StyleChange t _ _ _ _ | AttributeChange t _ _ _ _
  | DOMChange t _ _ _ _ _ | TextChange t _ _ _ | BatchChange t _ => t
  end.

(** [other.newValue], a plain property read. *)
Definition newValue (c : Change) : value :=
  match c with
  | StyleChange _ _ _ _ v | AttributeChange _ _ _ _ v => v
  | _ => VUndefined
  end.

Fixpoint undo `{TreeApi} (c : Change) (d : Dom) : Outcome :=
  match c with
  | BaseChange _ => Raised d
  | StyleChange _ el p old _ =>
      match el with
      | Some e => if connected e d then Returned (setStyleProp e p old d)
                  else Returned d
      | None => Returned d
      end
  | AttributeChange _ el a old _ =>
      match el with
      | Some e =>
          if negb (connected e d) then Returned d
          else if strict_eq old VNull then Returned (removeAttribute e a d)
          else if attributeName a then Returned (setAttribute e a old d)
          else Raised d
      | None => Returned d
      end
  | DOMChange _ el oldParent oldNext newParent _ =>
      match el with
      | None => Returned d
      | Some e =>
          match oldParent with
          | Some p =>
              match oldNext with
              | Some s => if connected s d then insertBefore p e s d
                          else appendChild p e d
              | None => appendChild p e d
              end
          | None =>
              match newParent with
              | Some _ => if connected e d then Returned (removeNode e d)
                          else Returned d
              | None => Returned d
              end
          end
      end
  | TextChange _ el old _ =>
      match el with
      | Some e => if connected e d then Returned (setTextContent e old d)
                  else Returned d
      | None => Returned d
      end
  | BatchChange _ cs =>
      (* for (i = length - 1; i >= 0; i--) changes[i].undo() *)
      (fix loop (l : list Change) (d : Dom) : Outcome :=
         match l with
         | [] => Returned d
         | c :: rest =>
             match loop rest d with
             | Returned d' => undo c d'
             | Raised d' => Raised d'
             end
         end) cs d
  end.

Fixpoint redo `{TreeApi} (c : Change) (d : Dom) : Outcome :=
  match c with
  | BaseChange _ => Raised d
  | StyleChange _ el p _ new =>
      match el with
      | Some e => if connected e d then Returned (setStyleProp e p new d)
                  else Returned d
      | None => Returned d
      end
  | AttributeChange _ el a _ new =>
      match el with
      | Some e =>
          if negb (connected e d) then Returned d
          else if strict_eq new VNull then Returned (removeAttribute e a d)
          else if attributeName a then Returned (setAttribute e a new d)
          else Raised d
      | None => Returned d
      end
  | DOMChange _ el _ _ newParent newNext =>
      match el with
      | None => Returned d
      | Some e =>
          match newParent with
          | Some p =>
              match newNext with
              | Some s => if connected s d then insertBefore p e s d
                          else appendChild p e d
              | None => appendChild p e d
              end
          | None =>
              if connected e d then Returned (removeNode e d) else Returned d
          end
      end
  | TextChange _ el _ new =>
      match el with
      | Some e => if connected e d then Returned (setTextContent e new d)
                  else Returned d
      | None => Returned d
      end
  | BatchChange _ cs =>
      (* for (i = 0; i < length; i++) changes[i].redo() *)
      (fix loop (l : list Change) (d : Dom) : Outcome :=
         match l with
         | [] => Returned d
         | c :: rest =>
             match redo c d with
             | Returned d' => loop rest d'
             | Raised d' => Raised d'
             end
         end) cs d
  end.

(** Only [StyleChange] overrides [canMerge]; the window is the literal
    of the source. *)
Definition canMerge (this other : Change) : bool :=
  match this with
  | StyleChange ts el p _ _ =>
      match other with
      | StyleChange ts' el' p' _ _ =>
          bool_decide (el' = el) && bool_decide (p' = p)
          && bool_decide (ts' - ts < 1000)
      | _ => false
      end
  | _ => false
  end.

(** [StyleChange.merge] builds a new [StyleChange], whose constructor
    reads the clock; every other class inherits [return this]. *)
Definition merge (this other : Change) (now : Z) : Change :=
  match this with
  | StyleChange _ el p old _ => StyleChange now el p old (newValue other)
  | _ => this
  end.

End Changes.

(** ** history.js: HistoryManager *)

(** The object returned by the [state] getter, which is what listeners of
    the "change" event receive. *)
Record Snapshot := mkSnapshot {
  canUndo : bool;
  canRedo : bool;
  undoSize : nat;
  redoSize : nat;
  snapBatchMode : bool;
}.

#[global] Instance Snapshot_eq_dec : EqDecision Snapshot.
Proof. solve_decision. Defined.

Abbreviation callback := nat.

Record HistoryManager := mkHistoryManager {
  undoStack : list Change;
  redoStack : list Change;
  maxSize : Z;
  batchMode : bool;
  batchedChanges : list Change;
  mergeTimeout : Z;
  listeners : gmap string (list callback);
}.

(** The constructor's [options] object; [None] is an absent key. *)
Record Options := mkOptions {
  optMaxSize : option Z;
  optMergeTimeout : option Z;
}.

(** [x || dflt] for a number-or-undefined [x]: [undefined] and [0] are falsy. *)
Definition or_default (x : option Z) (dflt : Z) : Z :=
  match x with
  | Some z => if Z.eqb z 0 then dflt else z
  | None => dflt
  end.

(** What the history manager acts on: itself, the document its changes
    mutate, and the calls made so far to listener callbacks. *)
Record World := mkWorld {
  manager : HistoryManager;
  document : Dom;
  delivered : list (callback * Snapshot);
}.

(** The argument of [push]: a single [Change] or an array of them. *)
Inductive PushArg :=
| One (change : Change)
| Many (changes : list Change).

(** [Array.prototype.pop] on a non-empty array: the rest and the last. *)
Fixpoint pop {A : Type} (l : list A) : option (list A * A) :=
  match l with
  | [] => None
  | x :: l' =>
      match pop l' with
      | None => Some ([], x)
      | Some (r, y) => Some (x :: r, y)
      end
  end.

Module History.

Definition withStacks (h : HistoryManager) (u r : list Change) : HistoryManager :=
  mkHistoryManager u r (maxSize h) (batchMode h) (batchedChanges h)
                   (mergeTimeout h) (listeners h).

Definition withBatch (h : HistoryManager) (mode : bool) (buf : list Change)
  : HistoryManager :=
  mkHistoryManager (undoStack h) (redoStack h) (maxSize h) mode buf
                   (mergeTimeout h) (listeners h).

Definition withListeners (h : HistoryManager) (ls : gmap string (list callback))
  : HistoryManager :=
  mkHistoryManager (undoStack h) (redoStack h) (maxSize h) (batchMode h)
                   (batchedChanges h) (mergeTimeout h) ls.

Definition withManager (w : World) (h : HistoryManager) : World :=
  mkWorld h (document w) (delivered w).

Definition constructor (options : Options) : HistoryManager :=
  mkHistoryManager [] [] (or_default (optMaxSize options) 50) false []
                   (or_default (optMergeTimeout options) 1000) ∅.

Definition on (event : string) (cb : callback) (h : HistoryManager)
  : HistoryManager :=
  withListeners h (<[event := default [] (listeners h !! event) ++ [cb]]> (listeners h)).

Definition off (event : string) (cb : callback) (h : HistoryManager)
  : HistoryManager :=
  match listeners h !! event with
  | None => h
  | Some cbs =>
      withListeners h
        (<[event := filter (fun c => c ≠ cb) cbs]> (listeners h))
  end.

Definition canUndo (h : HistoryManager) : bool :=
  bool_decide (0 < length (undoStack h))%nat.

Definition canRedo (h : HistoryManager) : bool :=
  bool_decide (0 < length (redoStack h))%nat.

Definition state (h : HistoryManager) : Snapshot :=
  mkSnapshot (canUndo h) (canRedo h) (length (undoStack h))
             (length (redoStack h)) (batchMode h).

Definition getHistory (h : HistoryManager) : list Change := undoStack h.

Definition size (h : HistoryManager) : nat * nat :=
  (length (undoStack h), length (redoStack h)).

(** [emit(event, data)]: every callback registered for [event] is called
    with [data], in registration order.  No callback throws here; see
    [Throwing.emit] for those that do. *)
Definition emit (event : string) (data : Snapshot) (w : World) : World :=
  match listeners (manager w) !! event with
  | None => w
  | Some cbs =>
      mkWorld (manager w) (document w)
              (delivered w ++ map (fun cb => (cb, data)) cbs)
  end.

(** The size limit shared by [push] and [endBatch]:
    [if (undoStack.length > maxSize) undoStack.shift()]. *)
Definition enforceLimit (h : HistoryManager) (st : list Change) : list Change :=
  if Z.ltb (maxSize h) (Z.of_nat (length st)) then tail st else st.

Definition push (arg : PushArg) (now : Z) (w : World) : World :=
  let h := manager w in
  if batchMode h then
    match arg with
    | Many cs => withManager w (withBatch h true (batchedChanges h ++ cs))
    | One c => withManager w (withBatch h true (batchedChanges h ++ [c]))
    end
  else
    let unwrapped :=
      match arg with
      | Many [] => None
      | Many [c] => Some c
      | Many cs => Some (BatchChange now cs)
      | One c => Some c
      end in
    match unwrapped with
    | None => w
    | Some change =>
        let pushed :=
          let h' := withStacks h (enforceLimit h (undoStack h ++ [change])) [] in
          emit "change" (state h') (withManager w h') in
        match last (undoStack h) with
        | Some lastChange =>
            if Changes.canMerge lastChange change then
              let merged := Changes.merge lastChange change now in
              withManager w
                (withStacks h (<[(length (undoStack h) - 1)%nat := merged]> (undoStack h)) [])
            else pushed
        | None => pushed
        end
    end.

Definition beginBatch (w : World) : World :=
  withManager w (withBatch (manager w) true []).

(** [endBatch()] when no listener throws ([Throwing.endBatch] has the
    other case, where the two assignments after [emit] are not made). *)
Definition endBatch (now : Z) (w : World) : World :=
  let h := manager w in
  let w' :=
    if bool_decide (0 < length (batchedChanges h))%nat then
      let batch := BatchChange now (batchedChanges h) in
      let h' := withStacks h (enforceLimit h (undoStack h ++ [batch])) [] in
      emit "change" (state h') (withManager w h')
    else w in
  withManager w' (withBatch (manager w') false []).

(** [undo()] and [redo()] when no listener throws: the [catch] is reached
    by an exception of the change only.  [Throwing.undo] and
    [Throwing.redo] have the case of a listener that throws inside the
    [try]. *)
Definition undo `{TreeApi} (w : World) : bool * World :=
  let h := manager w in
  if negb (canUndo h) then (false, w)
  else
    match pop (undoStack h) with
    | None => (false, w)
    | Some (rest, change) =>
        match Changes.undo change (document w) with
        | Returned d =>
            let h' := withStacks h rest (redoStack h ++ [change]) in
            (true, emit "change" (state h') (mkWorld h' d (delivered w)))
        | Raised d =>
            (false, mkWorld (withStacks h (rest ++ [change]) (redoStack h)) d
                            (delivered w))
        end
    end.

Definition redo `{TreeApi} (w : World) : bool * World :=
  let h := manager w in
  if negb (canRedo h) then (false, w)
  else
    match pop (redoStack h) with
    | None => (false, w)
    | Some (rest, change) =>
        match Changes.redo change (document w) with
        | Returned d =>
            let h' := withStacks h (undoStack h ++ [change]) rest in
            (true, emit "change" (state h') (mkWorld h' d (delivered w)))
        | Raised d =>
            (false, mkWorld (withStacks h (undoStack h) (rest ++ [change])) d
                            (delivered w))
        end
    end.

Definition clear (w : World) : World :=
  let h := manager w in
  let h' := mkHistoryManager [] [] (maxSize h) false [] (mergeTimeout h)
                             (listeners h) in
  emit "change" (state h') (withManager w h').

End History.

(** ** Sequences of calls on a history manager *)

(** One call of the public interface, or a mutation of the document by a
    tool or by the host page between two calls. *)
Inductive Op :=
| OpOn (event : string) (cb : callback)
| OpOff (event : string) (cb : callback)
| OpPush (arg : PushArg) (now : Z)
| OpBeginBatch
| OpEndBatch (now : Z)
| OpUndo
| OpRedo
| OpClear
| OpDocument (d : Dom).

Definition step `{TreeApi} (w : World) (o : Op) : World :=
  match o with
  | OpOn ev cb => History.withManager w (History.on ev cb (manager w))
  | OpOff ev cb => History.withManager w (History.off ev cb (manager w))
  | OpPush arg now => History.push arg now w
  | OpBeginBatch => History.beginBatch w
  | OpEndBatch now => History.endBatch now w
  | OpUndo => snd (History.undo w)
  | OpRedo => snd (History.redo w)
  | OpClear => History.clear w
  | OpDocument d => mkWorld (manager w) d (delivered w)
  end.

Definition run `{TreeApi} (ops : list Op) (w : World) : World :=
  fold_left step ops w.

(** A freshly constructed manager over a document. *)
Definition fresh (options : Options) (d : Dom) : World :=
  mkWorld (History.constructor options) d [].

(** Pushing single changes one after the other, each with the clock
    reading of its call. *)
Definition pushAll (pushes : list (Change * Z)) (w : World) : World :=
  fold_left (fun w p => History.push (One (fst p)) (snd p) w) pushes w.

(** ** history.js: HistoryManager with listeners that may throw

    [History] above is the manager as long as every listener returns.  A
    listener may also throw.  [emit] calls the listeners of an event in
    the order of their registration, inside [forEach]: the first one that
    throws ends the loop and the exception leaves [emit].  In [push],
    [endBatch] and [clear] it then leaves the method, and the statements
    after [emit] are not run; in [undo] and [redo] the call of [emit] is
    inside the [try], so that the exception reaches the [catch] written for
    a change that fails.

    [throws cb data] tells whether the callback [cb] throws when called
    with [data].  A callback does not call the manager itself.

    When [endBatch] is left by an exception, [this.batchedChanges] is not
    replaced: the [BatchChange] just recorded was constructed over that
    very array, so the recorded batch and the buffer are one array until
    [beginBatch], [clear] or a later [endBatch] assigns a new one, and a
    [push] into the buffer in between is a [push] into the recorded batch.
    An entry of a stack is therefore either a change of its own ([Held]) or
    a batch that is the buffer ([Live], with the time it was constructed
    at). *)

Module Throwing.

Inductive Entry :=
| Held (change : Change)
| Live (timestamp : Z).

Record Manager := mkManager {
  undoStack : list Entry;
  redoStack : list Entry;
  maxSize : Z;
  batchMode : bool;
  batchedChanges : list Change;
  mergeTimeout : Z;
  listeners : gmap string (list callback);
}.

Record World := mkWorld {
  manager : Manager;
  document : Dom;
  delivered : list (callback * Snapshot);
}.

(** The change an entry stands for. *)
Definition resolve (h : Manager) (e : Entry) : Change :=
  match e with
  | Held c => c
  | Live t => BatchChange t (batchedChanges h)
  end.

Definition withStacks (h : Manager) (u r : list Entry) : Manager :=
  mkManager u r (maxSize h) (batchMode h) (batchedChanges h)
            (mergeTimeout h) (listeners h).

(** [this.batchedChanges.push(...)]: the array is extended in place. *)
Definition withBuffer (h : Manager) (buf : list Change) : Manager :=
  mkManager (undoStack h) (redoStack h) (maxSize h) (batchMode h) buf
            (mergeTimeout h) (listeners h).

(** [this.batchMode = mode; this.batchedChanges = []]: the buffer is a new
    array, and a batch that was the old one keeps the old one. *)
Definition newBuffer (h : Manager) (mode : bool) : Manager :=
  mkManager ((fun e => Held (resolve h e)) <$> undoStack h)
            ((fun e => Held (resolve h e)) <$> redoStack h)
            (maxSize h) mode [] (mergeTimeout h) (listeners h).

Definition withListeners (h : Manager) (ls : gmap string (list callback)) : Manager :=
  mkManager (undoStack h) (redoStack h) (maxSize h) (batchMode h)
            (batchedChanges h) (mergeTimeout h) ls.

Definition withManager (w : World) (h : Manager) : World :=
  mkWorld h (document w) (delivered w).

Definition constructor (options : Options) : Manager :=
  mkManager [] [] (or_default (optMaxSize options) 50) false []
            (or_default (optMergeTimeout options) 1000) ∅.

Definition on (event : string) (cb : callback) (h : Manager) : Manager :=
  withListeners h (<[event := default [] (listeners h !! event) ++ [cb]]> (listeners h)).

Definition off (event : string) (cb : callback) (h : Manager) : Manager :=
  match listeners h !! event with
  | None => h
  | Some cbs => withListeners h (<[event := filter (fun c => c ≠ cb) cbs]> (listeners h))
  end.

Definition canUndo (h : Manager) : bool :=
  bool_decide (0 < length (undoStack h))%nat.

Definition canRedo (h : Manager) : bool :=
  bool_decide (0 < length (redoStack h))%nat.

Definition state (h : Manager) : Snapshot :=
  mkSnapshot (canUndo h) (canRedo h) (length (undoStack h))
             (length (redoStack h)) (batchMode h).

Definition enforceLimit (h : Manager) (st : list Entry) : list Entry :=
  if Z.ltb (maxSize h) (Z.of_nat (length st)) then tail st else st.

Section Listeners.

Variable throws : callback -> Snapshot -> bool.

(** [cbs.forEach((callback) => callback(data))]: the calls made, and
    whether the loop was left by an exception. *)
Fixpoint forEach (cbs : list callback) (data : Snapshot)
  : list (callback * Snapshot) * bool :=
  match cbs with
  | [] => ([], false)
  | cb :: rest =>
      if throws cb data then ([(cb, data)], true)
      else let r := forEach rest data in ((cb, data) :: fst r, snd r)
  end.

(** [emit(event, data)], and whether it was left by an exception. *)
Definition emit (event : string) (data : Snapshot) (w : World) : World * bool :=
  match listeners (manager w) !! event with
  | None => (w, false)
  | Some cbs =>
      let r := forEach cbs data in
      (mkWorld (manager w) (document w) (delivered w ++ fst r), snd r)
  end.

(** [push(change)], and whether it was left by an exception. *)
Definition push (arg : PushArg) (now : Z) (w : World) : World * bool :=
  let h := manager w in
  if batchMode h then
    match arg with
    | Many cs => (withManager w (withBuffer h (batchedChanges h ++ cs)), false)
    | One c => (withManager w (withBuffer h (batchedChanges h ++ [c])), false)
    end
  else
    let unwrapped :=
      match arg with
      | Many [] => None
      | Many [c] => Some c
      | Many cs => Some (BatchChange now cs)
      | One c => Some c
      end in
    match unwrapped with
    | None => (w, false)
    | Some change =>
        let pushed :=
          let h' := withStacks h (enforceLimit h (undoStack h ++ [Held change])) [] in
          emit "change" (state h') (withManager w h') in
        match last (undoStack h) with
        | Some lastChange =>
            if Changes.canMerge (resolve h lastChange) change then
              let merged := Changes.merge (resolve h lastChange) change now in
              (withManager w
                 (withStacks h
                    (<[(length (undoStack h) - 1)%nat := Held merged]> (undoStack h)) []),
               false)
            else pushed
        | None => pushed
        end
    end.

Definition beginBatch (w : World) : World :=
  withManager w (newBuffer (manager w) true).

(** [endBatch()], and whether it was left by an exception: in that case
    the two assignments after [emit] have not been made. *)
Definition endBatch (now : Z) (w : World) : World * bool :=
  let h := manager w in
  if bool_decide (0 < length (batchedChanges h))%nat then
    let h' := withStacks h (enforceLimit h (undoStack h ++ [Live now])) [] in
    let r := emit "change" (state h') (withManager w h') in
    if snd r then (fst r, true)
    else (withManager (fst r) (newBuffer (manager (fst r)) false), false)
  else (withManager w (newBuffer h false), false).

(** [undo()].  An exception of [change.undo()] and an exception of a
    listener both end in the [catch], which pushes the change on the undo
    stack; by then a listener's exception finds it on the redo stack
    already. *)
Definition undo `{TreeApi} (w : World) : bool * World :=
  let h := manager w in
  if negb (canUndo h) then (false, w)
  else
    match pop (undoStack h) with
    | None => (false, w)
    | Some (rest, change) =>
        match Changes.undo (resolve h change) (document w) with
        | Returned d =>
            let h' := withStacks h rest (redoStack h ++ [change]) in
            let r := emit "change" (state h') (mkWorld h' d (delivered w)) in
            if snd r
            then (false,
                  withManager (fst r)
                    (withStacks h' (undoStack h' ++ [change]) (redoStack h')))
            else (true, fst r)
        | Raised d =>
            (false, mkWorld (withStacks h (rest ++ [change]) (redoStack h)) d
                            (delivered w))
        end
    end.

Definition redo `{TreeApi} (w : World) : bool * World :=
  let h := manager w in
  if negb (canRedo h) then (false, w)
  else
    match pop (redoStack h) with
    | None => (false, w)
    | Some (rest, change) =>
        match Changes.redo (resolve h change) (document w) with
        | Returned d =>
            let h' := withStacks h (undoStack h ++ [change]) rest in
            let r := emit "change" (state h') (mkWorld h' d (delivered w)) in
            if snd r
            then (false,
                  withManager (fst r)
                    (withStacks h' (undoStack h') (redoStack h' ++ [change])))
            else (true, fst r)
        | Raised d =>
            (false, mkWorld (withStacks h (undoStack h) (rest ++ [change])) d
                            (delivered w))
        end
    end.

(** [clear()], and whether it was left by an exception. *)
Definition clear (w : World) : World * bool :=
  let h := manager w in
  let h' := mkManager [] [] (maxSize h) false [] (mergeTimeout h) (listeners h) in
  emit "change" (state h') (withManager w h').

(** One call made by the host page or by a tool, the caller going on
    whether the call returned or threw. *)
Definition step `{TreeApi} (w : World) (o : Op) : World :=
  match o with
  | OpOn ev cb => withManager w (on ev cb (manager w))
  | OpOff ev cb => withManager w (off ev cb (manager w))
  | OpPush arg now => fst (push arg now w)
  | OpBeginBatch => beginBatch w
  | OpEndBatch now => fst (endBatch now w)
  | OpUndo => snd (undo w)
  | OpRedo => snd (redo w)
  | OpClear => fst (clear w)
  | OpDocument d => mkWorld (manager w) d (delivered w)
  end.

Definition run `{TreeApi} (ops : list Op) (w : World) : World :=
  fold_left step ops w.

(** Calls of [push] one after the other, and [n] calls of [undo()], of
    [redo()]. *)
Definition pushArgs (args : list (PushArg * Z)) (w : World) : World :=
  fold_left (fun w a => fst (push (fst a) (snd a) w)) args w.

Definition pushAll (pushes : list (Change * Z)) (w : World) : World :=
  fold_left (fun w p => fst (push (One (fst p)) (snd p) w)) pushes w.

Definition undoTimes `{TreeApi} (n : nat) (w : World) : World :=
  Nat.iter n (fun w => snd (undo w)) w.

Definition redoTimes `{TreeApi} (n : nat) (w : World) : World :=
  Nat.iter n (fun w => snd (redo w)) w.

End Listeners.

End Throwing.

(** A manager of [History], none of whose entries is the buffer, as a
    manager of [Throwing]; and the changes that the stacks of a manager of
    [Throwing] stand for. *)
Definition liftManager (h : HistoryManager) : Throwing.Manager :=
  Throwing.mkManager (Throwing.Held <$> undoStack h) (Throwing.Held <$> redoStack h)
                     (maxSize h) (batchMode h) (batchedChanges h)
                     (mergeTimeout h) (listeners h).

Definition lift (w : World) : Throwing.World :=
  Throwing.mkWorld (liftManager (manager w)) (document w) (delivered w).

Definition changes (h : Throwing.Manager) (st : list Throwing.Entry) : list Change :=
  Throwing.resolve h <$> st.

(** No listener of the "change" event throws, whatever it is called with. *)
Definition quiet (throws : callback -> Snapshot -> bool) (ls : gmap string (list callback))
  : Prop :=
  forall cbs, ls !! "change"%string = Some cbs ->
              Forall (fun cb => forall data, throws cb data = false) cbs.

(** No callback that throws is registered by these calls. *)
Definition registersQuiet (throws : callback -> Snapshot -> bool) (ops : list Op) : Prop :=
  Forall (fun o => match o with
                   | OpOn _ cb => forall data, throws cb data = false
                   | _ => True
                   end) ops.

(** ** A browser for the examples

    A document without nesting: a node is attached or it is not. *)
Definition setConnected (e : node) (b : bool) (d : Dom) : Dom :=
  alter (fun x => mkElement (isSVG x) b (style x) (attributes x) (textContent x)) e d.

(** The valid attribute names of the DOM standard: not empty, and without
    white space, NUL, "/", "=" and ">". *)
Fixpoint nameCharacters (a : string) : bool :=
  match a with
  | EmptyString => true
  | String c rest =>
      negb (bool_decide (nat_of_ascii c ∈ [0; 9; 10; 12; 13; 32; 47; 61; 62]%nat))
      && nameCharacters rest
  end.

Definition flatTree : TreeApi :=
  {| insertBefore p e _ d := Returned (setConnected e (connected p d) d);
     appendChild p e d := Returned (setConnected e (connected p d) d);
     removeNode e d := setConnected e false d;
     attributeName a := negb (bool_decide (a = ""%string)) && nameCharacters a |}.

Definition htmlElement (attached : bool) (st : list (string * value)) : Element :=
  mkElement false attached (list_to_map st) ∅ (VStr "").

(** ** position.js: draggable *)

(** What [draggable] takes from the browser and from [utilities/], neither
    of which is part of the sources at hand: JavaScript numbers with the
    conversions used, [window.getComputedStyle] and the helper [getStyle]. *)
Class Browser := {
  number : Type;
  numOfInt : Z -> number;             (* an integer literal *)
  numUndefined : number;              (* a missing array slot read as a number *)
  numAdd : number -> number -> number;
  numSub : number -> number -> number;
  numToString : number -> string;     (* conversion by [+ "px"] and by templates *)
  numTruthy : number -> bool;         (* false for [0] and [NaN] *)
  parseInt : value -> number;
  parseFloat : string -> number;
  getComputedStyle : node -> string -> Dom -> value;
  getStyle : node -> string -> Dom -> value;
}.

Record MouseEvent `{Browser} := mkMouseEvent {
  evTarget : node;
  clientX : number;
  clientY : number;
}.

Arguments mkMouseEvent {_} _ _ _.

(** The closure of one [draggable] call: its [state] object, the optional
    [clickEvent] argument, and the log of the calls made to it.  The history
    manager is an object shared with the other tools: it lives in the
    [World], and the state only records whether one was passed. *)
Record DragState `{Browser} := mkDragState {
  target : node;
  surface : node;
  mouseDown : bool;
  mouseX : number;
  mouseY : number;
  elementX : number;
  elementY : number;
  travelDistance : nat;
  historyManager : bool;
  initialPosition : option (value * value);     (* {left, top} or null *)
  initialTransform : value;
  zIndex : value;
  clickEvent : option callback;
  clicks : list (callback * MouseEvent);
}.

Arguments mkDragState {_} _ _ _ _ _ _ _ _ _ _ _ _ _ _.

(** [s.indexOf(c)]: [-1] when absent. *)
Definition indexOf (c : string) (s : string) : Z :=
  match String.index 0 c s with
  | Some n => Z.of_nat n
  | None => -1
  end.

(** [s.substring(i, j)]: both indices are clamped to the string, and
    swapped when the first is the larger. *)
Definition substring (i j : Z) (s : string) : string :=
  let len := Z.of_nat (String.length s) in
  let clamp k := Z.max 0 (Z.min k len) in
  let lo := Z.min (clamp i) (clamp j) in
  let hi := Z.max (clamp i) (clamp j) in
  String.substring (Z.to_nat lo) (Z.to_nat (hi - lo)) s.

(** [s.split(",")] *)
Fixpoint splitComma (s : string) : list string :=
  match s with
  | EmptyString => [EmptyString]
  | String c rest =>
      if Ascii.eqb c ","%char then EmptyString :: splitComma rest
      else match splitComma rest with
           | [] => [String c EmptyString]
           | x :: xs => String c x :: xs
           end
  end.

Definition newline : string := String "010"%char EmptyString.

Module Draggable.

Definition extractSVGTranslate `{Browser} (translate : string) : list number :=
  map parseFloat
      (splitComma (substring (indexOf "(" translate + 1) (indexOf ")" translate)
                             translate)).

(** [const [x, y] = translate ? extractSVGTranslate(translate) : [0, 0]] *)
Definition translateXY `{Browser} (translate : value) : number * number :=
  let xy :=
    match translate with
    | VStr s => if truthy translate then extractSVGTranslate s
                else [numOfInt 0; numOfInt 0]
    | _ => [numOfInt 0; numOfInt 0]
    end in
  (nth 0 xy numUndefined, nth 1 xy numUndefined).

Definition instanceofSVGElement (el : node) (d : Dom) : bool :=
  match d !! el with
  | Some x => isSVG x
  | None => false
  end.

(** [v == null] *)
Definition nullish (v : value) : bool :=
  match v with
  | VUndefined | VNull => true
  | VStr _ => false
  end.

(** [draggable({el, surface, cursor, clickEvent, historyManager})]: the
    initial state, and [setup()]. *)
Definition draggable `{Browser} (el surface : node) (cursor : string)
    (clickEvent : option callback) (historyManager : bool) (w : World)
  : DragState * World :=
  let d1 := setStyleProp el "transition" (VStr "none") (document w) in
  let d2 := setStyleProp surface "cursor" (VStr cursor) d1 in
  (mkDragState el surface false (numOfInt 0) (numOfInt 0) (numOfInt 0)
               (numOfInt 0) 0 historyManager None VNull VNull clickEvent [],
   mkWorld (manager w) d2 (delivered w)).

Definition onMouseDown `{Browser} (e : MouseEvent) (s : DragState) (w : World)
  : DragState * World :=
  if negb (bool_decide (evTarget e = surface s)) then (s, w)
  else
    let el := target s in
    let d0 := document w in
    let '(zIndex', d1) :=
      if nullish (zIndex s)
      then (getStyleProp el "zIndex" d0,
            setStyleProp el "zIndex" (VStr "9999999999999") d0)
      else (zIndex s, d0) in
    let d2 :=
      if strict_eq (getComputedStyle el "position" d1) (VStr "static")
      then setStyleProp el "position" (VStr "relative") d1
      else d1 in
    let d3 := setStyleProp el "willChange" (VStr "top,left") d2 in
    let '(x, y, initialPosition', initialTransform') :=
      if instanceofSVGElement el d3 then
        let translate := getAttribute el "transform" d3 in
        let '(x, y) := translateXY translate in
        (x, y, initialPosition s,
         if historyManager s
         then (if truthy translate then translate else VNull)
         else initialTransform s)
      else
        (parseInt (getStyle el "left" d3), parseInt (getStyle el "top" d3),
         (if historyManager s
          then Some (getStyleProp el "left" d3, getStyleProp el "top" d3)
          else initialPosition s),
         initialTransform s) in
    (mkDragState el (surface s) true (clientX e) (clientY e) x y 0
                 (historyManager s) initialPosition' initialTransform' zIndex'
                 (clickEvent s) (clicks s),
     mkWorld (manager w) d3 (delivered w)).

Definition onMouseMove `{Browser} (e : MouseEvent) (s : DragState) (w : World)
  : DragState * World :=
  if negb (mouseDown s) then (s, w)
  else
    let el := target s in
    let d := document w in
    let nx := numSub (numAdd (elementX s) (clientX e)) (mouseX s) in
    let ny := numSub (numAdd (elementY s) (clientY e)) (mouseY s) in
    let d' :=
      if instanceofSVGElement el d then
        setAttribute el "transform"
          (VStr ("translate(" +:+ newline +:+ "        " +:+ numToString nx +:+ ","
                 +:+ newline +:+ "        " +:+ numToString ny
                 +:+ newline +:+ "      )")) d
      else
        setStyleProp el "top" (VStr (numToString ny +:+ "px"))
          (setStyleProp el "left" (VStr (numToString nx +:+ "px")) d) in
    (mkDragState el (surface s) (mouseDown s) (mouseX s) (mouseY s)
                 (elementX s) (elementY s) (travelDistance s + 1)
                 (historyManager s) (initialPosition s) (initialTransform s)
                 (zIndex s) (clickEvent s) (clicks s),
     mkWorld (manager w) d' (delivered w)).

(** The part of [onMouseUp] that records the committed position of an HTML
    element: lines "Record position changes" of the handler. *)
Definition recordPosition (el : node) (initial : value * value) (now : Z)
    (w : World) : World :=
  let currentLeft := getStyleProp el "left" (document w) in
  let currentTop := getStyleProp el "top" (document w) in
  let leftChanged := strict_ne (fst initial) currentLeft in
  let topChanged := strict_ne (snd initial) currentTop in
  if leftChanged || topChanged then
    let w1 := if leftChanged && topChanged then History.beginBatch w else w in
    let w2 :=
      if leftChanged
      then History.push
             (One (StyleChange now (Some el) "left" (fst initial) currentLeft))
             now w1
      else w1 in
    let w3 :=
      if topChanged
      then History.push
             (One (StyleChange now (Some el) "top" (snd initial) currentTop))
             now w2
      else w2 in
    if leftChanged && topChanged then History.endBatch now w3 else w3
  else w.

(** [!state.travelDistance || state.travelDistance < 5] *)
Definition treatAsClick (travelDistance : nat) : bool :=
  bool_decide (travelDistance = 0%nat) || bool_decide (travelDistance < 5)%nat.

Definition onMouseUp `{Browser} (e : MouseEvent) (now : Z) (s : DragState)
    (w : World) : DragState * World :=
  if negb (bool_decide (evTarget e = surface s)) then (s, w)
  else
    let el := target s in
    let d1 :=
      if negb (nullish (zIndex s))
      then setStyleProp el "zIndex" (zIndex s) (document w)
      else document w in
    let zIndex' := if negb (nullish (zIndex s)) then VNull else zIndex s in
    let d2 := setStyleProp el "willChange" VNull d1 in
    let w2 := mkWorld (manager w) d2 (delivered w) in
    let '(x, y, initialPosition', initialTransform', w3) :=
      if instanceofSVGElement el d2 then
        let translate := getAttribute el "transform" d2 in
        let '(x, y) := translateXY translate in
        if historyManager s && strict_ne (initialTransform s) translate
        then (x, y, initialPosition s, VNull,
              History.push
                (One (AttributeChange now (Some el) "transform"
                                      (initialTransform s) translate))
                now w2)
        else (x, y, initialPosition s, initialTransform s, w2)
      else
        let px := parseInt (getStyleProp el "left" d2) in
        let py := parseInt (getStyleProp el "top" d2) in
        let x := if numTruthy px then px else numOfInt 0 in
        let y := if numTruthy py then py else numOfInt 0 in
        match (if historyManager s then initialPosition s else None) with
        | Some initial =>
            (x, y, None, initialTransform s, recordPosition el initial now w2)
        | None => (x, y, initialPosition s, initialTransform s, w2)
        end in
    let clicks' :=
      match clickEvent s with
      | Some cb => if treatAsClick (travelDistance s)
                   then clicks s ++ [(cb, e)] else clicks s
      | None => clicks s
      end in
    (mkDragState el (surface s) false (mouseX s) (mouseY s) x y 0
                 (historyManager s) initialPosition' initialTransform' zIndex'
                 (clickEvent s) clicks',
     w3).

End Draggable.

(** The numbers of the examples: integers, [NaN], and [undefined] where a
    number was expected, read and printed in decimal.  Fractions and
    exponents are not read and the arithmetic is exact: the examples keep
    to integers that JavaScript represents exactly.  Computed styles are the
    inline ones, with [position: static] and [auto] lengths where nothing is
    set. *)
Inductive wholeNumber :=
| NaN
| Undefined
| Whole (z : Z).

Definition digitValue (c : ascii) : option Z :=
  let n := Z.of_nat (nat_of_ascii c) in
  if bool_decide (48 <= n <= 57) then Some (n - 48) else None.

Fixpoint leadingDigits (s : string) (acc : option Z) : option Z :=
  match s with
  | EmptyString => acc
  | String c rest =>
      match digitValue c with
      | Some v => leadingDigits rest (Some (10 * default 0 acc + v))
      | None => acc
      end
  end.

(** The white space that [parseInt] and [parseFloat] skip at the start. *)
Fixpoint skipSpaces (s : string) : string :=
  match s with
  | String c rest =>
      if bool_decide (nat_of_ascii c ∈ [9; 10; 11; 12; 13; 32]%nat)
      then skipSpaces rest else s
  | EmptyString => s
  end.

Definition readWhole (s : string) : wholeNumber :=
  let unsigned t := match leadingDigits t None with
                    | Some z => Whole z
                    | None => NaN
                    end in
  match skipSpaces s with
  | String c rest =>
      if Ascii.eqb c "-"%char
      then match unsigned rest with Whole z => Whole (- z) | _ => NaN end
      else if Ascii.eqb c "+"%char then unsigned rest
      else unsigned (String c rest)
  | EmptyString => NaN
  end.

Definition inlineOr (dflt : string) (el : node) (p : string) (d : Dom) : value :=
  match d !! el with
  | Some x => default (VStr dflt) (style x !! p)
  | None => VUndefined
  end.

Definition wholeBrowser : Browser :=
  {| number := wholeNumber;
     numOfInt := Whole;
     numUndefined := Undefined;
     numAdd a b := match a, b with Whole x, Whole y => Whole (x + y) | _, _ => NaN end;
     numSub a b := match a, b with Whole x, Whole y => Whole (x - y) | _, _ => NaN end;
     numToString a := match a with
                      | Whole x => pretty x
                      | NaN => "NaN"%string
                      | Undefined => "undefined"%string
                      end;
     numTruthy a := match a with Whole x => negb (Z.eqb x 0) | _ => false end;
     parseInt v := match v with VStr s => readWhole s | _ => NaN end;
     parseFloat := readWhole;
     getComputedStyle el p d :=
       inlineOr (if bool_decide (p = "position"%string) then "static" else "auto") el p d;
     getStyle el p d :=
       inlineOr (if bool_decide (p = "position"%string) then "static" else "auto") el p d |}.

(** What one [emit("change", this.state)] delivers when the manager is [h]:
    its snapshot, once to each listener of "change". *)
Definition notification (h : HistoryManager) : list (callback * Snapshot) :=
  map (fun cb => (cb, History.state h)) (default [] (listeners h !! "change"%string)).

(** ** Notions used to state the properties *)

(** The invariant behind the bound: the two stacks together never hold more
    than [maxSize] entries, since [undo] and [redo] only move an entry from
    one to the other and every insertion empties the redo stack. *)
Definition within (m : Z) (h : HistoryManager) : Prop :=
  maxSize h = m
  /\ Z.of_nat (length (undoStack h) + length (redoStack h)) <= m.

(** No earlier change of the list can absorb a later one. *)
Definition nonMergeable (cs : list Change) : Prop :=
  forall (i j : nat) (a b : Change),
    (i < j)%nat -> cs !! i = Some a -> cs !! j = Some b ->
    Changes.canMerge a b = false.

(** The [n] most recent entries of a history. *)
Definition keep {A : Type} (n : nat) (l : list A) : list A :=
  drop (length l - n) l.

(** Whether the change is a [StyleChange] of property [p] of [el]. *)
Definition isStyleOn (el : option node) (p : string) (c : Change) : bool :=
  match c with
  | StyleChange _ el' p' _ _ => bool_decide (el' = el) && bool_decide (p' = p)
  | _ => false
  end.

(** Every change of the burst is created less than 1000 ms after the one
    before it ([tprev] for the first), and pushed no earlier than created. *)
Fixpoint withinWindow (tprev : Z) (pushes : list (Change * Z)) : Prop :=
  match pushes with
  | [] => True
  | (c, now) :: rest =>
      Changes.timestamp c - tprev < 1000
      /\ Changes.timestamp c <= now
      /\ withinWindow (Changes.timestamp c) rest
  end.

(** The changes a mouse-up commits, as the coordination contract words it:
    the captured values are compared with the current ones, and each one
    that differs yields a change. *)
Definition committedChanges `{Browser} (s : DragState) (now : Z) (d : Dom)
  : list Change :=
  let el := target s in
  if negb (historyManager s) then []
  else if Draggable.instanceofSVGElement el d then
    let translate := getAttribute el "transform" d in
    if strict_ne (initialTransform s) translate
    then [AttributeChange now (Some el) "transform" (initialTransform s) translate]
    else []
  else
    match initialPosition s with
    | None => []
    | Some (left0, top0) =>
        (if strict_ne left0 (getStyleProp el "left" d)
         then [StyleChange now (Some el) "left" left0 (getStyleProp el "left" d)]
         else [])
        ++ (if strict_ne top0 (getStyleProp el "top" d)
            then [StyleChange now (Some el) "top" top0 (getStyleProp el "top" d)]
            else [])
    end.

(** Submitting them: nothing for none, a plain push for one, one batch for
    several. *)
Definition submit (cs : list Change) (now : Z) (w : World) : World :=
  match cs with
  | [] => w
  | [c] => History.push (One c) now w
  | _ =>
      History.endBatch now
        (fold_left (fun w c => History.push (One c) now w) cs (History.beginBatch w))
  end.

Definition withTravel `{Browser} (n : nat) (s : DragState) : DragState :=
  mkDragState (target s) (surface s) (mouseDown s) (mouseX s) (mouseY s)
              (elementX s) (elementY s) n (historyManager s) (initialPosition s)
              (initialTransform s) (zIndex s) (clickEvent s) (clicks s).

(** ** Inputs for the examples *)

Definition defaults : Options := mkOptions None None.

(** One element, numbered 1, whose inline [left] is 5px. *)
Definition attachedDoc : Dom := {[ 1%nat := htmlElement true [("left"%string, VStr "5px")] ]}.
Definition detachedDoc : Dom := {[ 1%nat := htmlElement false [("left"%string, VStr "5px")] ]}.

(** Two nudges of [left] of element 1, 100 ms apart, and an unrelated edit. *)
Definition nudgeA : Change := StyleChange 0 (Some 1%nat) "left" (VStr "0px") (VStr "3px").
Definition nudgeB : Change := StyleChange 100 (Some 1%nat) "left" (VStr "3px") (VStr "5px").
Definition retype : Change := TextChange 10 (Some 1%nat) (VStr "old") (VStr "new").

(** Three edits of text, none of which can merge into another. *)
Definition retypes : list (Change * Z) :=
  [(TextChange 0 (Some 1%nat) (VStr "a") (VStr "b"), 0);
   (TextChange 5 (Some 1%nat) (VStr "b") (VStr "c"), 5);
   (TextChange 9 (Some 1%nat) (VStr "c") (VStr "d"), 9)].

(** The drag of the examples: element 1 at [left: 0px; top: 0px], a
    mouse-down at (10, 10) and one mouse-move to (13, 10). *)
Definition dragDoc : Dom :=
  {[ 1%nat := htmlElement true [("left"%string, VStr "0px"); ("top"%string, VStr "0px")] ]}.

Definition mouseAt (x y : Z) : @MouseEvent wholeBrowser :=
  @mkMouseEvent wholeBrowser 1%nat (Whole x) (Whole y).

Definition shortDrag : @DragState wholeBrowser * World :=
  let start := @Draggable.draggable wholeBrowser 1%nat 1%nat "move" (Some 9%nat) true
                 (fresh defaults dragDoc) in
  let down := Draggable.onMouseDown (mouseAt 10 10) (fst start) (snd start) in
  Draggable.onMouseMove (mouseAt 13 10) (fst down) (snd down).

(** ** Notions used for further properties of the history *)

(** Changes whose [undo] and [redo] make no call that can throw: style
    and text changes, attribute changes whose attribute has a valid name,
    and batches of such. *)
Fixpoint neverThrows `{TreeApi} (c : Change) : bool :=
  match c with
  | StyleChange _ _ _ _ _ | TextChange _ _ _ _ => true
  | AttributeChange _ _ a _ _ => attributeName a
  | BatchChange _ cs => forallb neverThrows cs
  | BaseChange _ | DOMChange _ _ _ _ _ _ => false
  end.

Definition isStyleChange (c : Change) : bool :=
  match c with
  | StyleChange _ _ _ _ _ => true
  | _ => false
  end.

(** [n] calls of [undo()], of [redo()]. *)
Definition undoTimes `{TreeApi} (n : nat) (w : World) : World :=
  Nat.iter n (fun w => snd (History.undo w)) w.

Definition redoTimes `{TreeApi} (n : nat) (w : World) : World :=
  Nat.iter n (fun w => snd (History.redo w)) w.

(** The buffer of a batch is empty whenever no batch is open. *)
Definition bufferClosed (h : HistoryManager) : Prop :=
  batchMode h = false -> batchedChanges h = [].

(** The changes an argument of [push] stands for. *)
Definition items (arg : PushArg) : list Change :=
  match arg with
  | One c => [c]
  | Many cs => cs
  end.

(** Every element reads the same in both documents: its connection, its
    kind, each style property, each attribute and its text. *)
Definition sameReads (d d' : Dom) : Prop :=
  forall e : node,
    connected e d' = connected e d
    /\ Draggable.instanceofSVGElement e d' = Draggable.instanceofSVGElement e d
    /\ (forall p, getStyleProp e p d' = getStyleProp e p d)
    /\ (forall a, getAttribute e a d' = getAttribute e a d)
    /\ getTextContent e d' = getTextContent e d.

(** ** Notions used for further properties of draggable *)

(** Mouse-move events handled one after the other. *)
Definition mouseMoves `{Browser} (es : list MouseEvent) (sw : DragState * World)
  : DragState * World :=
  fold_left (fun sw e => Draggable.onMouseMove e (fst sw) (snd sw)) es sw.

(** ** position.js: positionElement *)

(** What [positionElement] takes from [utilities/] and from blingblingjs,
    neither of which is part of the sources at hand: [showHideSelected]
    (which returns its argument; only its effect on the document appears
    here), [getSide], the accessor [el.attr], and [parseInt] with radix 10. *)
Class Utilities `{Browser} := {
  showHideSelected : node -> Dom -> Dom;
  getSide : string -> string;
  attrRead : node -> string -> Dom -> value;             (* el.attr(name) *)
  attrWrite : node -> string -> string -> Dom -> Dom;    (* el.attr(name, value) *)
  parseIntDecimal : value -> number;                     (* parseInt(v, 10) *)
}.

(** [s.includes(needle)] *)
Definition includes (needle s : string) : bool :=
  match String.index 0 needle s with
  | Some _ => true
  | None => false
  end.

(** [s.split(sep)] for a separator of one character. *)
Fixpoint splitOn (sep : ascii) (s : string) : list string :=
  match s with
  | EmptyString => [EmptyString]
  | String c rest =>
      if Ascii.eqb c sep then EmptyString :: splitOn sep rest
      else match splitOn sep rest with
           | [] => [String c EmptyString]
           | x :: xs => String c x :: xs
           end
  end.

(** [s.toLowerCase()] on the letters A to Z. *)
Definition lowerAscii (c : ascii) : ascii :=
  let n := nat_of_ascii c in
  if bool_decide (65 <= n <= 90)%nat then ascii_of_nat (n + 32) else c.

Fixpoint toLowerCase (s : string) : string :=
  match s with
  | EmptyString => EmptyString
  | String c rest => String (lowerAscii c) (toLowerCase rest)
  end.

(** One entry of the array mapped over by [positionElement]: the element,
    the style (or "transform"), and the new position. *)
Record Payload `{Browser} := mkPayload {
  payloadEl : node;
  payloadStyle : string;
  payloadCurrent : number;
  payloadPosition : number;
}.

Arguments mkPayload {_} _ _ _ _.

Module Position.

(** [el instanceof HTMLElement]: the elements of the store are HTML
    elements unless they are SVG elements. *)
Definition instanceofHTMLElement (el : node) (d : Dom) : bool :=
  match d !! el with
  | Some x => negb (isSVG x)
  | None => false
  end.

Definition ensurePositionable (el : node) (d : Dom) : Dom :=
  if instanceofHTMLElement el d then setStyleProp el "position" (VStr "relative") d
  else d.

Definition determineNegativity (direction : string) : bool :=
  includes "right" direction || includes "down" direction.

Definition vertical (direction : string) : bool :=
  includes "down" direction || includes "up" direction.

(** [const [x, y] = translate ? extractSVGTranslate(translate) : [0, 0]] for
    a value read with [el.attr]. *)
Definition attrXY `{Utilities} (el : node) (d : Dom) : number * number :=
  Draggable.translateXY (attrRead el "transform" d).

Definition extractCurrentValueAndSide `{Utilities} (el : node) (direction : string)
    (d : Dom) : string * number :=
  if Draggable.instanceofSVGElement el d then
    let '(x, y) := attrXY el d in
    ("transform"%string, if vertical direction then y else x)
  else
    let side := toLowerCase (getSide direction) in
    let style := if bool_decide (side = "top"%string) || bool_decide (side = "bottom"%string)
                 then "top"%string else "left"%string in
    let current := getStyle el style d in
    (style, if strict_eq current (VStr "auto") then numOfInt 0
            else parseIntDecimal current).

Definition setTranslateOnSVG `{Utilities} (el : node) (direction : string)
    (position : number) (d : Dom) : Dom :=
  let '(x, y) := attrXY el d in
  let pos := if vertical direction
             then numToString x +:+ "," +:+ numToString position
             else numToString position +:+ "," +:+ numToString y in
  attrWrite el "transform" ("translate(" +:+ pos +:+ ")") d.

(** The two [map] calls that build the payload of an element. *)
Definition payload `{Utilities} (direction : string) (d : Dom) (el : node) : Payload :=
  let '(style, current) := extractCurrentValueAndSide el direction d in
  let amount := if bool_decide ("shift"%string ∈ splitOn "+" direction)
                then numOfInt 10 else numOfInt 1 in
  mkPayload el style current
            (if determineNegativity direction then numAdd current amount
             else numSub current amount).

(** The body of the final [forEach]. *)
Definition nudge `{Utilities} (direction : string) (historyManager : bool) (now : Z)
    (w : World) (p : Payload) : World :=
  let el := payloadEl p in
  if Draggable.instanceofSVGElement el (document w) then
    let oldTransform := getAttribute el "transform" (document w) in
    let d' := setTranslateOnSVG el direction (payloadPosition p) (document w) in
    let newTransform := getAttribute el "transform" d' in
    let w' := mkWorld (manager w) d' (delivered w) in
    if historyManager
    then History.push
           (One (AttributeChange now (Some el) "transform" oldTransform newTransform))
           now w'
    else w'
  else
    let oldValue := getStyleProp el (payloadStyle p) (document w) in
    let newValue := VStr (numToString (payloadPosition p) +:+ "px") in
    let w' := if historyManager
              then History.push
                     (One (StyleChange now (Some el) (payloadStyle p) oldValue newValue))
                     now w
              else w in
    mkWorld (manager w') (setStyleProp el (payloadStyle p) newValue (document w'))
            (delivered w').

Definition positionElement `{Utilities} (els : list node) (direction : string)
    (historyManager : bool) (now : Z) (w : World) : World :=
  let batch := bool_decide (1 < length els)%nat && historyManager in
  let w1 := if batch then History.beginBatch w else w in
  let d1 := fold_left (fun d el => ensurePositionable el d) els (document w1) in
  let d2 := fold_left (fun d el => showHideSelected el d) els d1 in
  let payloads := map (payload direction d2) els in
  let w3 := fold_left (nudge direction historyManager now) payloads
                      (mkWorld (manager w1) d2 (delivered w1)) in
  if batch then History.endBatch now w3 else w3.

End Position.

(** The element a change is about. *)
Definition changeElement (c : Change) : option node :=
  match c with
  | StyleChange _ el _ _ _ | AttributeChange _ el _ _ _
  | DOMChange _ el _ _ _ _ | TextChange _ el _ _ => el
  | BaseChange _ | BatchChange _ _ => None
  end.

(** A function on documents that adds and removes no element and leaves
    the kind, the connection and the inline style of every element alone,
    as an update of attributes does. *)
Definition onlyAttributes (f : Dom -> Dom) : Prop :=
  forall (d : Dom) (e : node),
    match f d !! e, d !! e with
    | Some x', Some x =>
        isSVG x' = isSVG x /\ isConnected x' = isConnected x /\ style x' = style x
    | None, None => True
    | _, _ => False
    end.

(** The style an arrow key nudges on an HTML element. *)
Definition sideStyle `{Utilities} (direction : string) : string :=
  let side := toLowerCase (getSide direction) in
  if bool_decide (side = "top"%string) || bool_decide (side = "bottom"%string)
  then "top"%string else "left"%string.

(** Nudges of one element, one per clock reading. *)
Definition nudges `{Utilities} (el : node) (direction : string) (nows : list Z)
    (w : World) : World :=
  fold_left (fun w now => Position.positionElement [el] direction true now w) nows w.

(** Each time is less than 1000 ms after the one before it. *)
Fixpoint closeTimes (prev : Z) (nows : list Z) : Prop :=
  match nows with
  | [] => True
  | t :: rest => t - prev < 1000 /\ closeTimes t rest
  end.

(** ** text.js: the end of an editing session *)

(** The module-level [state] of text.js: whether a history manager is set,
    and the [WeakMap] from elements to the text they had when editing
    began. *)
Record TextState := mkTextState {
  textHistoryManager : bool;
  originalText : gmap node value;
}.

Module Text.

(** [removeEditability({target})], the blur handler.  Its two
    [removeEventListener] calls concern the wiring of events, which is not
    modelled. *)
Definition removeEditability (target : node) (now : Z) (st : TextState) (w : World)
  : TextState * World :=
  let '(st', w1) :=
    match (if textHistoryManager st then originalText st !! target else None) with
    | Some oldText =>
        let newText := getTextContent target (document w) in
        (mkTextState (textHistoryManager st) (delete target (originalText st)),
         if strict_ne oldText newText
         then History.push (One (TextChange now (Some target) oldText newText)) now w
         else w)
    | None => (st, w)
    end in
  (st',
   mkWorld (manager w1)
           (removeAttribute target "spellcheck"
              (removeAttribute target "contenteditable" (document w1)))
           (delivered w1)).

End Text.

(** ** font.js: alignment and weight *)

(** JavaScript numbers as these two functions use them: small whole
    numbers, or [NaN] ([None]) where a key is missing from a table. *)
Abbreviation index := (option Z).

(** [table[i]] for an array and such an index: [undefined] out of range. *)
Definition at_index {A : Type} (table : list A) (i : index) : option A :=
  match i with
  | Some z => if Z.ltb z 0 then None else table !! Z.to_nat z
  | None => None
  end.

(** [table[key]] for an object used as a table; a key that is not a string
    is looked up under its conversion to a string. *)
Definition at_key (table : gmap string Z) (key : value) : index :=
  match key with
  | VStr s => table !! s
  | VNull => table !! "null"%string
  | VUndefined => table !! "undefined"%string
  end.

Module Font.

Definition weightMap : gmap string Z :=
  list_to_map
    [("normal", 2); ("bold", 5); ("light", 0); ("", 2); ("100", 0); ("200", 1);
     ("300", 2); ("400", 3); ("500", 4); ("600", 5); ("700", 6); ("800", 7);
     ("900", 8); ("1000", 9)]%string.

Definition weightOptions : list Z := [100; 200; 300; 400; 500; 600; 700; 800; 900; 1000].

Definition alignMap : gmap string Z :=
  list_to_map [("start", 0); ("left", 0); ("center", 1); ("right", 2)]%string.

Definition alignOptions : list string := ["left"; "center"; "right"]%string.

(** [flag ? table[current] - 1 : table[current] + 1] *)
Definition stepped (table : gmap string Z) (current : value) (flag : bool) : index :=
  match at_key table current with
  | Some z => Some (if flag then z - 1 else z + 1)
  | None => None
  end.

(** [weightOptions[value < 0 ? 0 : value >= weightOptions.length
                                    ? weightOptions.length : value]] *)
Definition finalWeight (value : index) : option Z :=
  at_index weightOptions
    (match value with
     | Some z => if Z.ltb z 0 then Some 0
                 else if Z.leb (Z.of_nat (length weightOptions)) z
                      then Some (Z.of_nat (length weightOptions))
                      else Some z
     | None => None
     end).

(** [alignOptions[value < 0 ? 0 : value >= 2 ? 2 : value]] *)
Definition finalAlignment (value : index) : option string :=
  at_index alignOptions
    (match value with
     | Some z => if Z.ltb z 0 then Some 0 else if Z.leb 2 z then Some 2 else Some z
     | None => None
     end).

(** The body of the [forEach] of [changeFontWeight]: the change records
    [String(finalValue)], the style is assigned [finalValue] itself. *)
Definition applyWeight (historyManager : bool) (now : Z) (w : World)
    (p : node * value * index) : World :=
  let '(el, current, value) := p in
  let finalValue := finalWeight value in
  let oldValue := current in
  let newValue := VStr (match finalValue with
                        | Some z => pretty z
                        | None => "undefined"
                        end) in
  let w' := if historyManager
            then History.push (One (StyleChange now (Some el) "fontWeight" oldValue newValue))
                              now w
            else w in
  mkWorld (manager w')
          (setStyleProp el "fontWeight"
             (match finalValue with Some z => VStr (pretty z) | None => VUndefined end)
             (document w'))
          (delivered w').

Definition changeFontWeight `{Utilities} (els : list node) (direction : string)
    (historyManager : bool) (now : Z) (w : World) : World :=
  let batch := bool_decide (1 < length els)%nat && historyManager in
  let w1 := if batch then History.beginBatch w else w in
  let d1 := fold_left (fun d el => showHideSelected el d) els (document w1) in
  let payloads :=
    map (fun el =>
           let current := getStyle el "fontWeight" d1 in
           (el, current,
            stepped weightMap current (bool_decide ("down"%string ∈ splitOn "+" direction))))
        els in
  let w3 := fold_left (applyWeight historyManager now) payloads
                      (mkWorld (manager w1) d1 (delivered w1)) in
  if batch then History.endBatch now w3 else w3.

(** The body of the [forEach] of [changeAlignment]. *)
Definition applyAlignment (historyManager : bool) (now : Z) (w : World)
    (p : node * value * index) : World :=
  let '(el, current, value) := p in
  let finalValue := match finalAlignment value with
                    | Some s => VStr s
                    | None => VUndefined
                    end in
  let oldValue := current in
  let newValue := finalValue in
  let w' := if historyManager
            then History.push (One (StyleChange now (Some el) "textAlign" oldValue newValue))
                              now w
            else w in
  mkWorld (manager w') (setStyleProp el "textAlign" newValue (document w'))
          (delivered w').

Definition changeAlignment `{Utilities} (els : list node) (direction : string)
    (historyManager : bool) (now : Z) (w : World) : World :=
  let batch := bool_decide (1 < length els)%nat && historyManager in
  let w1 := if batch then History.beginBatch w else w in
  let d1 := fold_left (fun d el => showHideSelected el d) els (document w1) in
  let payloads :=
    map (fun el =>
           let current := getStyle el "textAlign" d1 in
           (el, current,
            stepped alignMap current (bool_decide ("left"%string ∈ splitOn "+" direction))))
        els in
  let w3 := fold_left (applyAlignment historyManager now) payloads
                      (mkWorld (manager w1) d1 (delivered w1)) in
  if batch then History.endBatch now w3 else w3.

End Font.

(** The string holds none of the characters "(", ")" and ",". *)
Fixpoint plain (s : string) : bool :=
  match s with
  | EmptyString => true
  | String c rest =>
      negb (Ascii.eqb c "("%char) && negb (Ascii.eqb c ")"%char)
      && negb (Ascii.eqb c ","%char) && plain rest
  end.

(** [absent c s]: the character [c] does not occur in [s]. *)
Definition absent (c : ascii) (s : string) : Prop :=
  forall n, String.get n s <> Some c.

(** The [transform] a mouse-move writes for the coordinates [x] and [y]. *)
Definition translateTemplate (x y : string) : string :=
  "translate(" +:+ newline +:+ "        " +:+ x +:+ ","
  +:+ newline +:+ "        " +:+ y +:+ newline +:+ "      )".

(** ** Inputs for the examples of the further properties *)

(** Element 1 with an inline [zIndex]. *)
Definition layeredDoc : Dom :=
  {[ 1%nat := htmlElement true [("left"%string, VStr "0px"); ("top"%string, VStr "0px");
                                ("zIndex"%string, VStr "3")] ]}.

(** Two elements, both at [left: 0px; top: 0px]. *)
Definition pairDoc : Dom :=
  <[ 2%nat := htmlElement true [("left"%string, VStr "0px"); ("top"%string, VStr "0px")] ]>
    dragDoc.

(** Element 1 with a computed alignment of [center] and weight of 1000. *)
Definition centredDoc : Dom :=
  {[ 1%nat := htmlElement true [("textAlign"%string, VStr "center");
                                ("fontWeight"%string, VStr "1000")] ]}.

(** The draggable of the examples, just set up. *)
Definition idleDrag (d : Dom) : @DragState wholeBrowser * World :=
  @Draggable.draggable wholeBrowser 1%nat 1%nat "move" (Some 9%nat) true (fresh defaults d).

(** A drag of element 1 from (10, 10) to (13, 14), before the mouse-up. *)
Definition diagonalDrag : @DragState wholeBrowser * World :=
  let start := idleDrag dragDoc in
  mouseMoves [mouseAt 13 10; mouseAt 13 14]
    (Draggable.onMouseDown (mouseAt 10 10) (fst start) (snd start)).

(** Utilities for the examples: [showHideSelected] marks the element with
    the attribute [data-selected-hide], [getSide] names the side of the last
    key of a combination, [attr] reads and writes attributes. *)
Definition exampleSide (direction : string) : string :=
  let key := default ""%string (last (splitOn "+" direction)) in
  if String.eqb key "up" then "Top"%string
  else if String.eqb key "down" then "Bottom"%string
  else if String.eqb key "left" then "Left"%string
  else if String.eqb key "right" then "Right"%string
  else key.

Definition plainUtilities : @Utilities wholeBrowser :=
  {| showHideSelected el d := setAttribute el "data-selected-hide" (VStr "true") d;
     getSide := exampleSide;
     attrRead el a d := getAttribute el a d;
     attrWrite el a v d := setAttribute el a (VStr v) d;
     parseIntDecimal v := @parseInt wholeBrowser v |}.

(** A text-editing session on element 1 that began with the text "old". *)
Definition editing : TextState := mkTextState true {[ 1%nat := VStr "old" ]}.

(** A listener behaviour for the examples: the callback [bad] throws,
    whatever it is called with, and every other callback returns. *)
Definition throwsOnly (bad : callback) : callback -> Snapshot -> bool :=
  fun cb _ => bool_decide (cb = bad).

(** The record of an edit that set [left] of element 1 to the 5px it has in
    [attachedDoc]. *)
Definition edit : Change := StyleChange 0 (Some 1%nat) "left" (VStr "0px") (VStr "5px").

(** * Properties *)

(** ** Arrays used as stacks *)

Lemma pop_snoc {A : Type} (l : list A) (x : A) : pop (l ++ [x]) = Some (l, x).
Proof.
  induction l as [|y l IH]; simpl; [reflexivity|].
  rewrite IH. reflexivity.
Qed.

Lemma pop_None {A : Type} (l : list A) : pop l = None -> l = [].
Proof.
  destruct l as [|x l]; [reflexivity|]. simpl.
  destruct (pop l) as [[r y]|]; discriminate.
Qed.

Lemma pop_Some {A : Type} (l r : list A) (x : A) :
  pop l = Some (r, x) -> l = r ++ [x].
Proof.
  revert r x. induction l as [|y l IH]; intros r x; simpl; [discriminate|].
  destruct (pop l) as [[r' z]|] eqn:E.
  - intros [= <- <-]. simpl. f_equal. apply IH. reflexivity.
  - intros [= <- <-]. apply pop_None in E. subst l. reflexivity.
Qed.

Lemma replace_top {A : Type} (l : list A) (x y : A) :
  <[(length (l ++ [x]) - 1)%nat := y]> (l ++ [x]) = l ++ [y].
Proof.
  rewrite length_app. simpl.
  replace (length l + 1 - 1)%nat with (length l + 0)%nat by lia.
  rewrite insert_app_r. reflexivity.
Qed.

Lemma snoc_cases {A : Type} (l : list A) : l = [] \/ exists r x, l = r ++ [x].
Proof.
  destruct (pop l) as [[r x]|] eqn:E.
  - right. exists r, x. apply pop_Some. exact E.
  - left. apply pop_None. exact E.
Qed.

(** ** The manager's record *)

Lemma withStacks_same (h : HistoryManager) :
  History.withStacks h (undoStack h) (redoStack h) = h.
Proof. destruct h. reflexivity. Qed.

Lemma emit_change (h : HistoryManager) (d : Dom) (log : list (callback * Snapshot))
    (data : Snapshot) :
  History.emit "change" data (mkWorld h d log)
  = mkWorld h d (log ++ map (fun cb => (cb, data))
                            (default [] (listeners h !! "change"%string))).
Proof.
  unfold History.emit. simpl.
  destruct (listeners h !! "change"%string); simpl; [reflexivity|].
  rewrite app_nil_r. reflexivity.
Qed.

Lemma canUndo_snoc (h : HistoryManager) (r : list Change) (c : Change) :
  undoStack h = r ++ [c] -> History.canUndo h = true.
Proof.
  intros E. unfold History.canUndo. rewrite E, length_app. simpl.
  apply bool_decide_eq_true. lia.
Qed.

Lemma canRedo_snoc (h : HistoryManager) (r : list Change) (c : Change) :
  redoStack h = r ++ [c] -> History.canRedo h = true.
Proof.
  intros E. unfold History.canRedo. rewrite E, length_app. simpl.
  apply bool_decide_eq_true. lia.
Qed.

(** ** Changes on detached targets *)

(** C5.  A [StyleChange], an [AttributeChange] or a [TextChange] whose
    target is not connected to the document (or is absent) returns from
    [undo()] and from [redo()] without throwing, and leaves the document
    exactly as it was. *)
Theorem C5_detached_target_untouched `{TreeApi} (el : option node) (d : Dom) :
  targetConnected el d = false ->
  (forall ts p old new,
      Changes.undo (StyleChange ts el p old new) d = Returned d
      /\ Changes.redo (StyleChange ts el p old new) d = Returned d)
  /\ (forall ts a old new,
      Changes.undo (AttributeChange ts el a old new) d = Returned d
      /\ Changes.redo (AttributeChange ts el a old new) d = Returned d)
  /\ (forall ts old new,
      Changes.undo (TextChange ts el old new) d = Returned d
      /\ Changes.redo (TextChange ts el old new) d = Returned d).
Proof.
  intros Hdet. destruct el as [e|]; simpl in *.
  - rewrite Hdet. simpl. repeat split.
  - repeat split.
Qed.

(** ** undo() and redo() *)

Lemma undo_returned `{TreeApi} (w : World) (rest : list Change) (change : Change)
    (d : Dom) :
  undoStack (manager w) = rest ++ [change] ->
  Changes.undo change (document w) = Returned d ->
  let h' := History.withStacks (manager w) rest (redoStack (manager w) ++ [change]) in
  History.undo w = (true, mkWorld h' d (delivered w ++ notification h')).
Proof.
  intros E Hd. unfold History.undo.
  rewrite (canUndo_snoc (manager w) rest change E). simpl.
  rewrite E, pop_snoc, Hd. rewrite emit_change. reflexivity.
Qed.

Lemma undo_raised `{TreeApi} (w : World) (rest : list Change) (change : Change)
    (d : Dom) :
  undoStack (manager w) = rest ++ [change] ->
  Changes.undo change (document w) = Raised d ->
  History.undo w = (false, mkWorld (manager w) d (delivered w)).
Proof.
  intros E Hd. unfold History.undo.
  rewrite (canUndo_snoc (manager w) rest change E). simpl.
  rewrite E, pop_snoc, Hd. rewrite <- E, withStacks_same. reflexivity.
Qed.

Lemma redo_returned `{TreeApi} (w : World) (rest : list Change) (change : Change)
    (d : Dom) :
  redoStack (manager w) = rest ++ [change] ->
  Changes.redo change (document w) = Returned d ->
  let h' := History.withStacks (manager w) (undoStack (manager w) ++ [change]) rest in
  History.redo w = (true, mkWorld h' d (delivered w ++ notification h')).
Proof.
  intros E Hd. unfold History.redo.
  rewrite (canRedo_snoc (manager w) rest change E). simpl.
  rewrite E, pop_snoc, Hd. rewrite emit_change. reflexivity.
Qed.

Lemma redo_raised `{TreeApi} (w : World) (rest : list Change) (change : Change)
    (d : Dom) :
  redoStack (manager w) = rest ++ [change] ->
  Changes.redo change (document w) = Raised d ->
  History.redo w = (false, mkWorld (manager w) d (delivered w)).
Proof.
  intros E Hd. unfold History.redo.
  rewrite (canRedo_snoc (manager w) rest change E). simpl.
  rewrite E, pop_snoc, Hd. rewrite <- E, withStacks_same. reflexivity.
Qed.

(** ** push, endBatch and the redo stack *)

Lemma manager_emit (ev : string) (data : Snapshot) (w : World) :
  manager (History.emit ev data w) = manager w.
Proof. unfold History.emit. destruct (listeners (manager w) !! ev); reflexivity. Qed.

Lemma document_emit (ev : string) (data : Snapshot) (w : World) :
  document (History.emit ev data w) = document w.
Proof. unfold History.emit. destruct (listeners (manager w) !! ev); reflexivity. Qed.

(** What a call of [push] outside batch mode does with a change once the
    array, if any, has been unwrapped. *)
Lemma push_unwrapped (w : World) (arg : PushArg) (now : Z) (change : Change) :
  batchMode (manager w) = false ->
  match arg with
  | Many [] => None
  | Many [c] => Some c
  | Many cs => Some (BatchChange now cs)
  | One c => Some c
  end = Some change ->
  let h := manager w in
  History.push arg now w =
  match last (undoStack h) with
  | Some lastChange =>
      if Changes.canMerge lastChange change then
        History.withManager w
          (History.withStacks h
             (<[(length (undoStack h) - 1)%nat := Changes.merge lastChange change now]>
                (undoStack h)) [])
      else
        let h' := History.withStacks h (History.enforceLimit h (undoStack h ++ [change])) [] in
        History.emit "change" (History.state h') (History.withManager w h')
  | None =>
      let h' := History.withStacks h (History.enforceLimit h (undoStack h ++ [change])) [] in
      History.emit "change" (History.state h') (History.withManager w h')
  end.
Proof.
  intros Hb Hu h. subst h. unfold History.push. rewrite Hb, Hu. reflexivity.
Qed.

Lemma unwrap_nonempty (arg : PushArg) (now : Z) :
  arg <> Many [] ->
  exists change,
    match arg with
    | Many [] => None
    | Many [c] => Some c
    | Many cs => Some (BatchChange now cs)
    | One c => Some c
    end = Some change.
Proof.
  intros Hne. destruct arg as [c|[|c [|c' cs]]]; eauto. congruence.
Qed.

(** C3 (as amended).  Outside batch mode, a [push] of a single change or of
    a non-empty array leaves the redo stack empty, whether the change became
    a new top or was merged into the top; a [push] of an empty array returns
    at once and leaves everything, the redo stack included, as it was.
    [endBatch] with at least one accumulated change leaves the redo stack
    empty. *)
Theorem C3_push_clears_redo (w : World) (now : Z) :
  (forall arg, batchMode (manager w) = false -> arg <> Many [] ->
      redoStack (manager (History.push arg now w)) = [])
  /\ (batchMode (manager w) = false -> History.push (Many []) now w = w)
  /\ (batchedChanges (manager w) <> [] ->
      redoStack (manager (History.endBatch now w)) = []).
Proof.
  repeat split.
  - intros arg Hb Hne.
    destruct (unwrap_nonempty arg now Hne) as [change Hu].
    rewrite (push_unwrapped w arg now change Hb Hu). cbv zeta.
    destruct (last (undoStack (manager w))) as [lastChange|].
    + destruct (Changes.canMerge lastChange change).
      * reflexivity.
      * rewrite manager_emit. reflexivity.
    + rewrite manager_emit. reflexivity.
  - intros Hb. unfold History.push. rewrite Hb. reflexivity.
  - intros Hne. unfold History.endBatch.
    destruct (batchedChanges (manager w)) as [|c cs] eqn:E; [congruence|].
    simpl. rewrite manager_emit. reflexivity.
Qed.

(** ** The size bound *)

Lemma enforceLimit_length (h : HistoryManager) (st : list Change) (c : Change) :
  0 < maxSize h ->
  Z.of_nat (length st) <= maxSize h ->
  Z.of_nat (length (History.enforceLimit h (st ++ [c]))) <= maxSize h.
Proof.
  intros Hpos Hle. unfold History.enforceLimit.
  destruct (Z.ltb_spec (maxSize h) (Z.of_nat (length (st ++ [c])))) as [Hlt|Hge].
  - destruct st as [|x st]; simpl in *; [lia|].
    rewrite length_app. simpl. rewrite length_app in Hlt. simpl in Hlt. lia.
  - exact Hge.
Qed.

Lemma within_push (m : Z) (w : World) (arg : PushArg) (now : Z) :
  0 < m -> within m (manager w) -> within m (manager (History.push arg now w)).
Proof.
  intros Hpos [Hm Hle].
  destruct (batchMode (manager w)) eqn:Hb.
  - unfold History.push. rewrite Hb. destruct arg; split; simpl; assumption.
  - assert (Hcase : arg = Many [] \/ arg <> Many [])
      by (destruct arg as [c|[|c cs]]; [right|left|right]; congruence).
    destruct Hcase as [->|Hne].
    + unfold History.push. rewrite Hb. split; assumption.
    + destruct (unwrap_nonempty arg now Hne) as [change Hu].
      rewrite (push_unwrapped w arg now change Hb Hu). cbv zeta.
      assert (Hfresh : within m
                (History.withStacks (manager w)
                   (History.enforceLimit (manager w) (undoStack (manager w) ++ [change])) [])).
      { split; simpl; [exact Hm|]. rewrite Nat.add_0_r.
        rewrite <- Hm. apply enforceLimit_length; lia. }
      destruct (last (undoStack (manager w))) as [lastChange|].
      * destruct (Changes.canMerge lastChange change).
        -- split; simpl; [exact Hm|]. rewrite length_insert. lia.
        -- rewrite manager_emit. exact Hfresh.
      * rewrite manager_emit. exact Hfresh.
Qed.

Lemma within_endBatch (m : Z) (w : World) (now : Z) :
  0 < m -> within m (manager w) -> within m (manager (History.endBatch now w)).
Proof.
  intros Hpos [Hm Hle]. unfold History.endBatch.
  destruct (bool_decide (0 < length (batchedChanges (manager w)))%nat).
  - cbn [manager History.withManager]. rewrite manager_emit.
    split; simpl; [exact Hm|]. rewrite Nat.add_0_r.
    rewrite <- Hm. apply enforceLimit_length; lia.
  - split; simpl; assumption.
Qed.

Lemma within_undo `{TreeApi} (m : Z) (w : World) :
  within m (manager w) -> within m (manager (snd (History.undo w))).
Proof.
  intros [Hm Hle]. unfold History.undo.
  destruct (negb (History.canUndo (manager w))); [split; assumption|].
  destruct (pop (undoStack (manager w))) as [[rest change]|] eqn:E;
    [|split; assumption].
  apply pop_Some in E.
  destruct (Changes.undo change (document w)) as [d|d]; simpl.
  - rewrite manager_emit. split; simpl; [exact Hm|].
    rewrite E in Hle. rewrite !length_app in *. simpl in *. lia.
  - split; simpl; [exact Hm|]. rewrite <- E. exact Hle.
Qed.

Lemma within_redo `{TreeApi} (m : Z) (w : World) :
  within m (manager w) -> within m (manager (snd (History.redo w))).
Proof.
  intros [Hm Hle]. unfold History.redo.
  destruct (negb (History.canRedo (manager w))); [split; assumption|].
  destruct (pop (redoStack (manager w))) as [[rest change]|] eqn:E;
    [|split; assumption].
  apply pop_Some in E.
  destruct (Changes.redo change (document w)) as [d|d]; simpl.
  - rewrite manager_emit. split; simpl; [exact Hm|].
    rewrite E in Hle. rewrite !length_app in *. simpl in *. lia.
  - split; simpl; [exact Hm|]. rewrite <- E. exact Hle.
Qed.

Lemma within_step `{TreeApi} (m : Z) (w : World) (o : Op) :
  0 < m -> within m (manager w) -> within m (manager (step w o)).
Proof.
  intros Hpos Hw. destruct o; simpl.
  - destruct Hw. split; assumption.
  - unfold History.off. destruct (listeners (manager w) !! event);
      destruct Hw; split; assumption.
  - apply within_push; assumption.
  - destruct Hw. split; assumption.
  - apply within_endBatch; assumption.
  - apply within_undo; assumption.
  - apply within_redo; assumption.
  - unfold History.clear. rewrite manager_emit. destruct Hw as [Hm _].
    split; simpl; lia.
  - exact Hw.
Qed.

Lemma within_run `{TreeApi} (m : Z) (ops : list Op) (w : World) :
  0 < m -> within m (manager w) -> within m (manager (run ops w)).
Proof.
  intros Hpos. revert w. induction ops as [|o ops IH]; intros w Hw; simpl.
  - exact Hw.
  - apply IH. apply within_step; assumption.
Qed.

Lemma within_fresh (options : Options) (m : Z) (d : Dom) :
  optMaxSize options = Some m -> 0 < m -> within m (manager (fresh options d)).
Proof.
  intros E Hpos. split; simpl.
  - rewrite E. simpl. destruct (Z.eqb_spec m 0); [lia|reflexivity].
  - lia.
Qed.

Lemma keep_limit (h : HistoryManager) (n : nat) (cs : list Change) (c : Change) :
  (1 <= n)%nat -> maxSize h = Z.of_nat n ->
  History.enforceLimit h (keep n cs ++ [c]) = keep n (cs ++ [c]).
Proof.
  intros Hn Hm. unfold History.enforceLimit, keep. rewrite Hm.
  rewrite !length_app, length_drop. simpl.
  destruct (Z.ltb_spec (Z.of_nat n) (Z.of_nat (length cs - (length cs - n) + 1))) as [Hlt|Hge].
  - assert (Hlen : (n <= length cs)%nat) by lia.
    replace (length cs + 1 - n)%nat with (S (length cs - n)) by lia.
    rewrite (drop_app_le cs [c] (S (length cs - n))) by lia.
    destruct (drop (length cs - n) cs) as [|x rest] eqn:E.
    + apply (f_equal length) in E. rewrite length_drop in E. simpl in E. lia.
    + simpl. f_equal.
      change rest with (drop 1 (x :: rest)). rewrite <- E, drop_drop.
      f_equal. lia.
  - replace (length cs - n)%nat with 0%nat by lia.
    replace (length cs + 1 - n)%nat with 0%nat by lia.
    reflexivity.
Qed.

Lemma last_keep {A : Type} (n : nat) (l : list A) (x : A) :
  (1 <= n)%nat -> last (keep n (l ++ [x])) = Some x.
Proof.
  intros Hn. unfold keep. rewrite length_app. simpl.
  rewrite drop_app_le by lia. apply last_snoc.
Qed.

Lemma pushAll_snoc (pushes : list (Change * Z)) (p : Change * Z) (w : World) :
  pushAll (pushes ++ [p]) w = History.push (One (fst p)) (snd p) (pushAll pushes w).
Proof. unfold pushAll. rewrite fold_left_app. reflexivity. Qed.

Lemma nonMergeable_prefix (cs : list Change) (c : Change) :
  nonMergeable (cs ++ [c]) -> nonMergeable cs.
Proof.
  intros Hnm i j a b Hij Ha Hb.
  apply (Hnm i j a b Hij); apply lookup_app_l_Some; assumption.
Qed.

Lemma nonMergeable_last (cs : list Change) (a c : Change) :
  nonMergeable ((cs ++ [a]) ++ [c]) -> Changes.canMerge a c = false.
Proof.
  intros Hnm. apply (Hnm (length cs) (S (length cs)) a c); [lia| |].
  - apply lookup_app_l_Some. apply list_lookup_middle. reflexivity.
  - replace (S (length cs)) with (length (cs ++ [a])) by (rewrite length_app; simpl; lia).
    apply list_lookup_middle. reflexivity.
Qed.

(** Pushing changes none of which merges into its predecessor keeps the
    most recent [maxSize] of them, oldest first. *)
Lemma pushAll_keep (n : nat) (w0 : World) (pushes : list (Change * Z)) :
  (1 <= n)%nat ->
  maxSize (manager w0) = Z.of_nat n ->
  batchMode (manager w0) = false ->
  undoStack (manager w0) = [] ->
  nonMergeable (fst <$> pushes) ->
  let w := pushAll pushes w0 in
  maxSize (manager w) = Z.of_nat n
  /\ batchMode (manager w) = false
  /\ undoStack (manager w) = keep n (fst <$> pushes).
Proof.
  intros Hn Hm Hb Hu. induction pushes as [|[c now] pushes IH] using rev_ind.
  - intros _. simpl. repeat split; assumption.
  - rewrite fmap_app. simpl. intros Hnm.
    destruct (IH (nonMergeable_prefix _ _ Hnm)) as (IHm & IHb & IHu).
    cbv zeta. rewrite pushAll_snoc. simpl.
    set (w := pushAll pushes w0) in *.
    rewrite (push_unwrapped w (One c) now c IHb eq_refl). cbv zeta.
    assert (Hpushed :
      let h' := History.withStacks (manager w)
                  (History.enforceLimit (manager w) (undoStack (manager w) ++ [c])) [] in
      let w' := History.emit "change" (History.state h') (History.withManager w h') in
      maxSize (manager w') = Z.of_nat n /\ batchMode (manager w') = false
      /\ undoStack (manager w') = keep n ((fst <$> pushes) ++ [c])).
    { cbv zeta. rewrite manager_emit. simpl. repeat split; try assumption.
      rewrite IHu. apply keep_limit; assumption. }
    destruct (last (undoStack (manager w))) as [top|] eqn:Etop; [|exact Hpushed].
    assert (Hcm : Changes.canMerge top c = false).
    { rewrite IHu in Etop.
      destruct (snoc_cases (fst <$> pushes)) as [E|(cs & a & E)].
      - rewrite E in Etop. discriminate.
      - rewrite E in Etop, Hnm. rewrite last_keep in Etop by assumption.
        injection Etop as <-. exact (nonMergeable_last cs a c Hnm). }
    rewrite Hcm. exact Hpushed.
Qed.

(** ** Coalescing of style changes *)

Lemma getStyleProp_set (e : node) (p : string) (v : value) (d : Dom) :
  connected e d = true -> getStyleProp e p (setStyleProp e p v d) = v.
Proof.
  unfold connected, getStyleProp, setStyleProp. intros Hc.
  rewrite lookup_alter_eq.
  destruct (d !! e) as [x|]; [|discriminate]. simpl.
  rewrite lookup_insert_eq. reflexivity.
Qed.

Lemma canMerge_style (ta tb : Z) (el : option node) (p : string)
    (oldA newA oldB newB : value) :
  tb - ta < 1000 ->
  Changes.canMerge (StyleChange ta el p oldA newA) (StyleChange tb el p oldB newB) = true.
Proof.
  intros Hlt. simpl. rewrite !bool_decide_eq_true_2 by (reflexivity || assumption).
  reflexivity.
Qed.

(** A mergeable [StyleChange] pushed outside batch mode replaces the top. *)
Lemma push_merges (w : World) (st : list Change) (ta tb now : Z)
    (el : option node) (p : string) (oldA newA oldB newB : value) :
  batchMode (manager w) = false ->
  undoStack (manager w) = st ++ [StyleChange ta el p oldA newA] ->
  tb - ta < 1000 ->
  History.push (One (StyleChange tb el p oldB newB)) now w
  = History.withManager w
      (History.withStacks (manager w) (st ++ [StyleChange now el p oldA newB]) []).
Proof.
  intros Hb Hst Hlt.
  rewrite (push_unwrapped w (One (StyleChange tb el p oldB newB)) now
             (StyleChange tb el p oldB newB) Hb eq_refl). cbv zeta.
  rewrite Hst, last_snoc, (canMerge_style ta tb el p oldA newA oldB newB Hlt).
  rewrite replace_top. reflexivity.
Qed.


Lemma isStyleOn_inv (el : option node) (p : string) (c : Change) :
  isStyleOn el p c = true -> exists ts old new, c = StyleChange ts el p old new.
Proof.
  destruct c; try discriminate. simpl.
  intros Hc. apply andb_true_iff in Hc as [He Hp].
  apply bool_decide_eq_true in He, Hp. subst. eauto.
Qed.

Lemma burst_collapses (el : option node) (p : string) (pushes : list (Change * Z)) :
  forall (w : World) (st : list Change) (tprev t : Z) (old new : value),
    batchMode (manager w) = false ->
    undoStack (manager w) = st ++ [StyleChange t el p old new] ->
    tprev <= t ->
    Forall (fun c => isStyleOn el p c = true) (fst <$> pushes) ->
    withinWindow tprev pushes ->
    undoStack (manager (pushAll pushes w))
    = st ++ [StyleChange (default t (snd <$> last pushes)) el p old
                         (default new (Changes.newValue <$> (fst <$> last pushes)))].
Proof.
  induction pushes as [|[c now] rest IH]; intros w st tprev t old new Hb Hst Ht Hall Hwin.
  - simpl. exact Hst.
  - apply Forall_cons in Hall as [Hc Hall].
    destruct (isStyleOn_inv el p c Hc) as (tc & oldC & newC & ->).
    destruct Hwin as (Hlt & Hnow & Hwin). simpl in Hlt, Hnow, Hwin.
    change (pushAll ((StyleChange tc el p oldC newC, now) :: rest) w)
      with (pushAll rest (History.push (One (StyleChange tc el p oldC newC)) now w)).
    rewrite (push_merges w st t tc now el p old new oldC newC Hb Hst) by lia.
    rewrite (IH _ st tc now old newC); try assumption; try reflexivity.
    destruct rest as [|q rest]; [reflexivity|].
    change (last ((StyleChange tc el p oldC newC, now) :: q :: rest))
      with (last (q :: rest)).
    destruct (last (q :: rest)) as [[c' now']|] eqn:E; [reflexivity|].
    apply last_None in E. discriminate.
Qed.

(** C10.  The entry that replaces the top in a merge is a new
    [StyleChange] stamped with the time of the merge.  Hence a burst of
    [StyleChange]s of one property of one element, the first of them on top
    of the undo stack and each of the others created less than 1000 ms
    after the one before it (and pushed no earlier than created), ends as a
    single undo entry in the place of the first, however long the whole
    burst lasts: it carries the old value of the first change, the new value
    of the last, and the time of the last merge. *)
Theorem C10_sliding_window (w : World) (st : list Change) (el : option node)
    (p : string) (t0 : Z) (old0 new0 : value) (rest : list (Change * Z)) :
  batchMode (manager w) = false ->
  undoStack (manager w) = st ++ [StyleChange t0 el p old0 new0] ->
  Forall (fun c => isStyleOn el p c = true) (fst <$> rest) ->
  withinWindow t0 rest ->
  (forall other now,
      Changes.timestamp (Changes.merge (StyleChange t0 el p old0 new0) other now) = now)
  /\ undoStack (manager (pushAll rest w))
     = st ++ [StyleChange (default t0 (snd <$> last rest)) el p old0
                          (default new0 (Changes.newValue <$> (fst <$> last rest)))]
  /\ length (undoStack (manager (pushAll rest w))) = length (undoStack (manager w)).
Proof.
  intros Hb Hst Hall Hwin. split; [reflexivity|].
  rewrite (burst_collapses el p rest w st t0 t0 old0 new0 Hb Hst); try assumption; try lia.
  split; [reflexivity|]. rewrite Hst, !length_app. reflexivity.
Qed.

(** ** The commit handler of draggable *)

Lemma getStyleProp_set_ne (e e' : node) (p q : string) (v : value) (d : Dom) :
  p <> q -> getStyleProp e p (setStyleProp e' q v d) = getStyleProp e p d.
Proof.
  intros Hne. unfold getStyleProp, setStyleProp.
  destruct (decide (e' = e)) as [->|Hee].
  - rewrite lookup_alter_eq. destruct (d !! e) as [x|]; [|reflexivity]. simpl.
    rewrite lookup_insert_ne by congruence. reflexivity.
  - rewrite lookup_alter_ne by assumption. reflexivity.
Qed.

Lemma getAttribute_setStyleProp (e e' : node) (a q : string) (v : value) (d : Dom) :
  getAttribute e a (setStyleProp e' q v d) = getAttribute e a d.
Proof.
  unfold getAttribute, setStyleProp.
  destruct (decide (e' = e)) as [->|Hee].
  - rewrite lookup_alter_eq. destruct (d !! e) as [x|]; reflexivity.
  - rewrite lookup_alter_ne by assumption. reflexivity.
Qed.

Lemma instanceofSVGElement_setStyleProp (e e' : node) (q : string) (v : value)
    (d : Dom) :
  Draggable.instanceofSVGElement e (setStyleProp e' q v d)
  = Draggable.instanceofSVGElement e d.
Proof.
  unfold Draggable.instanceofSVGElement, setStyleProp.
  destruct (decide (e' = e)) as [->|Hee].
  - rewrite lookup_alter_eq. destruct (d !! e) as [x|]; reflexivity.
  - rewrite lookup_alter_ne by assumption. reflexivity.
Qed.

(** The manager after [push], [beginBatch] or [endBatch] is determined by
    the manager before: none of them looks at the document. *)
Lemma push_manager (arg : PushArg) (now : Z) (w w' : World) :
  manager w = manager w' ->
  manager (History.push arg now w) = manager (History.push arg now w').
Proof.
  intros E. unfold History.push. rewrite <- E.
  destruct (batchMode (manager w)).
  - destruct arg; reflexivity.
  - destruct (match arg with
              | Many [] => None
              | Many [c] => Some c
              | Many cs => Some (BatchChange now cs)
              | One c => Some c
              end) as [change|]; [|exact E].
    destruct (last (undoStack (manager w))) as [lastChange|].
    + destruct (Changes.canMerge lastChange change);
        [reflexivity | rewrite !manager_emit; reflexivity].
    + rewrite !manager_emit. reflexivity.
Qed.

Lemma beginBatch_manager (w w' : World) :
  manager w = manager w' ->
  manager (History.beginBatch w) = manager (History.beginBatch w').
Proof. intros E. unfold History.beginBatch. simpl. rewrite E. reflexivity. Qed.

Lemma endBatch_manager (now : Z) (w w' : World) :
  manager w = manager w' ->
  manager (History.endBatch now w) = manager (History.endBatch now w').
Proof.
  intros E. unfold History.endBatch. rewrite <- E.
  destruct (bool_decide (0 < length (batchedChanges (manager w)))%nat).
  - cbn [manager History.withManager]. rewrite !manager_emit. reflexivity.
  - simpl. rewrite E. reflexivity.
Qed.

Lemma recordPosition_submit `{Browser} (s : DragState) (left0 top0 : value)
    (now : Z) (w w2 : World) :
  manager w2 = manager w ->
  getStyleProp (target s) "left" (document w2) = getStyleProp (target s) "left" (document w) ->
  getStyleProp (target s) "top" (document w2) = getStyleProp (target s) "top" (document w) ->
  manager (Draggable.recordPosition (target s) (left0, top0) now w2)
  = manager (submit
               ((if strict_ne left0 (getStyleProp (target s) "left" (document w))
                 then [StyleChange now (Some (target s)) "left" left0
                                   (getStyleProp (target s) "left" (document w))]
                 else [])
                ++ (if strict_ne top0 (getStyleProp (target s) "top" (document w))
                    then [StyleChange now (Some (target s)) "top" top0
                                      (getStyleProp (target s) "top" (document w))]
                    else []))
               now w).
Proof.
  intros Hm Hl Ht. unfold Draggable.recordPosition. cbn [fst snd].
  rewrite Hl, Ht.
  destruct (strict_ne left0 _), (strict_ne top0 _); cbn [orb andb app submit fold_left].
  - apply endBatch_manager, push_manager, push_manager, beginBatch_manager, Hm.
  - apply push_manager, Hm.
  - apply push_manager, Hm.
  - exact Hm.
Qed.


(** * The properties at concrete inputs *)



(** C3, counterexample.  After a push and an undo the redo stack holds one
    entry; pushing an empty array outside batch mode leaves it there. *)
Lemma C3_counterexample_empty_array :
  let w := @run flatTree [OpPush (One nudgeA) 0; OpUndo] (fresh defaults attachedDoc) in
  batchMode (manager w) = false
  /\ redoStack (manager w) = [nudgeA]
  /\ redoStack (manager (History.push (Many []) 100 w)) = [nudgeA]
  /\ redoStack (manager (History.push (Many []) 100 w)) <> [].
Proof. vm_compute. repeat split; discriminate. Qed.

(** C3, witness: from the same state, a single change, an array of two and
    a closing batch each empty the redo stack. *)
Lemma C3_push_clears_redo_witness :
  let w := @run flatTree [OpPush (One nudgeA) 0; OpUndo] (fresh defaults attachedDoc) in
  let b := History.push (One retype) 10 (History.beginBatch w) in
  (batchMode (manager w) = false /\ One nudgeB <> Many []
   /\ Many [retype; nudgeB] <> Many [] /\ batchedChanges (manager b) <> [])
  /\ redoStack (manager (History.push (One nudgeB) 100 w)) = []
  /\ redoStack (manager (History.push (Many [retype; nudgeB]) 100 w)) = []
  /\ History.push (Many []) 100 w = w
  /\ redoStack (manager (History.endBatch 100 b)) = [].
Proof.
  intros w b.
  assert (Hb : batchMode (manager w) = false) by reflexivity.
  assert (H1 : One nudgeB <> Many []) by discriminate.
  assert (H2 : Many [retype; nudgeB] <> Many []) by discriminate.
  assert (H3 : batchedChanges (manager b) <> []) by discriminate.
  destruct (C3_push_clears_redo w 100) as (Hpush & Hempty & _).
  destruct (C3_push_clears_redo b 100) as (_ & _ & Hend).
  split; [exact (conj Hb (conj H1 (conj H2 H3)))|].
  split; [exact (Hpush _ Hb H1)|].
  split; [exact (Hpush _ Hb H2)|].
  split; [exact (Hempty Hb) | exact (Hend H3)].
Defined.

Lemma retypes_nonMergeable : nonMergeable (fst <$> retypes).
Proof.
  intros i j a b _ Ha _.
  destruct i as [|[|[|i]]]; simpl in Ha; try discriminate;
    injection Ha as <-; reflexivity.
Defined.

(** C5, witness: the three kinds of change on the detached element. *)
Lemma C5_detached_target_witness :
  targetConnected (Some 1%nat) detachedDoc = false
  /\ @Changes.undo flatTree nudgeA detachedDoc = Returned detachedDoc
  /\ @Changes.redo flatTree nudgeA detachedDoc = Returned detachedDoc
  /\ @Changes.undo flatTree
       (AttributeChange 0 (Some 1%nat) "src" VNull (VStr "a.png")) detachedDoc
     = Returned detachedDoc
  /\ @Changes.redo flatTree retype detachedDoc = Returned detachedDoc.
Proof.
  assert (Hdet : targetConnected (Some 1%nat) detachedDoc = false) by reflexivity.
  destruct (@C5_detached_target_untouched flatTree (Some 1%nat) detachedDoc Hdet)
    as (Hstyle & Hattr & Htext).
  split; [exact Hdet|].
  split; [exact (proj1 (Hstyle 0 "left"%string (VStr "0px") (VStr "3px")))|].
  split; [exact (proj2 (Hstyle 0 "left"%string (VStr "0px") (VStr "3px")))|].
  split; [exact (proj1 (Hattr 0 "src"%string VNull (VStr "a.png")))|].
  exact (proj2 (Htext 10 (VStr "old") (VStr "new"))).
Defined.

(** C6.  A listener is registered; [nudgeA] is on top of the undo stack
    and [retype] on the redo stack.  Pushing [nudgeB] replaces the top and
    empties the redo stack, so the snapshot changes, and the listener is
    not called. *)
Lemma C6_merged_push_not_notified :
  let w := @run flatTree [OpOn "change" 7%nat; OpPush (One nudgeA) 0;
                          OpPush (One retype) 10; OpUndo]
                (fresh defaults attachedDoc) in
  let w' := History.push (One nudgeB) 100 w in
  (undoStack (manager w) = [nudgeA] /\ redoStack (manager w) = [retype])
  /\ undoStack (manager w')
     = [StyleChange 100 (Some 1%nat) "left" (VStr "0px") (VStr "5px")]
  /\ redoStack (manager w') = []
  /\ History.state (manager w') <> History.state (manager w)
  /\ listeners (manager w') !! "change"%string = Some [7%nat]
  /\ delivered w' = delivered w.
Proof. vm_compute. repeat split; discriminate. Qed.

(** C7.  The manager stores the configured window and [canMerge] does not
    read it: with a window of 5000 ms two nudges 3000 ms apart are not
    merged, and with a window of 100 ms two nudges 500 ms apart are. *)
Lemma C7_configured_window_ignored :
  let late := StyleChange 3000 (Some 1%nat) "left" (VStr "3px") (VStr "5px") in
  let soon := StyleChange 500 (Some 1%nat) "left" (VStr "3px") (VStr "5px") in
  let wide := fresh (mkOptions None (Some 5000)) attachedDoc in
  let narrow := fresh (mkOptions None (Some 100)) attachedDoc in
  (mergeTimeout (manager wide) = 5000 /\ mergeTimeout (manager narrow) = 100)
  /\ undoStack (manager (pushAll [(nudgeA, 0); (late, 3000)] wide)) = [nudgeA; late]
  /\ undoStack (manager (pushAll [(nudgeA, 0); (soon, 500)] narrow))
     = [StyleChange 500 (Some 1%nat) "left" (VStr "0px") (VStr "5px")].
Proof. vm_compute. repeat split. Qed.

(** C8.  A second [beginBatch] while the batch is open empties the buffer:
    the change pushed before it is in neither the buffer nor the batch that
    [endBatch] records. *)
Lemma C8_redundant_beginBatch_drops_buffer :
  let w1 := History.push (One nudgeA) 0 (History.beginBatch (fresh defaults attachedDoc)) in
  let w2 := History.beginBatch w1 in
  let w3 := History.endBatch 20 (History.push (One retype) 10 w2) in
  (batchMode (manager w1) = true /\ batchedChanges (manager w1) = [nudgeA])
  /\ batchedChanges (manager w2) = []
  /\ undoStack (manager w3) = [BatchChange 20 [retype]].
Proof. vm_compute. repeat split. Qed.



(** C10, witness: nudges created at 0, 800 and 1600 ms end as one entry,
    although the last comes 1600 ms after the first. *)
Lemma C10_sliding_window_witness :
  let w := History.push (One nudgeA) 0 (fresh defaults attachedDoc) in
  let burst := [(StyleChange 800 (Some 1%nat) "left" (VStr "3px") (VStr "4px"), 800);
                (StyleChange 1600 (Some 1%nat) "left" (VStr "4px") (VStr "5px"), 1600)] in
  (batchMode (manager w) = false /\ undoStack (manager w) = [] ++ [nudgeA]
   /\ withinWindow 0 burst)
  /\ undoStack (manager (pushAll burst w))
     = [StyleChange 1600 (Some 1%nat) "left" (VStr "0px") (VStr "5px")].
Proof.
  intros w burst.
  assert (Hb : batchMode (manager w) = false) by reflexivity.
  assert (Hst : undoStack (manager w) = [] ++ [nudgeA]) by reflexivity.
  assert (Hall : Forall (fun c => isStyleOn (Some 1%nat) "left" c = true) (fst <$> burst)).
  { repeat constructor. }
  assert (Hwin : withinWindow 0 burst).
  { simpl. lia. }
  destruct (C10_sliding_window w [] (Some 1%nat) "left" 0 (VStr "0px") (VStr "3px")
              burst Hb Hst Hall Hwin) as (_ & Hone & _).
  split; [exact (conj Hb (conj Hst Hwin))|].
  exact Hone.
Defined.

(** * Further properties of history.js *)

(** ** Batches *)

Lemma batch_undo_app `{TreeApi} (t : Z) (cs1 cs2 : list Change) (d : Dom) :
  Changes.undo (BatchChange t (cs1 ++ cs2)) d
  = match Changes.undo (BatchChange t cs2) d with
    | Returned d' => Changes.undo (BatchChange t cs1) d'
    | Raised d' => Raised d'
    end.
Proof.
  simpl. induction cs1 as [|c cs1 IH]; simpl.
  - destruct ((fix loop (l : list Change) (d0 : Dom) {struct l} : Outcome :=
                match l with
                | [] => Returned d0
                | c :: rest =>
                    match loop rest d0 with
                    | Returned d' => Changes.undo c d'
                    | Raised d' => Raised d'
                    end
                end) cs2 d); reflexivity.
  - rewrite IH.
    destruct ((fix loop (l : list Change) (d0 : Dom) {struct l} : Outcome :=
                match l with
                | [] => Returned d0
                | c :: rest =>
                    match loop rest d0 with
                    | Returned d' => Changes.undo c d'
                    | Raised d' => Raised d'
                    end
                end) cs2 d); reflexivity.
Qed.

Lemma batch_redo_app `{TreeApi} (t : Z) (cs1 cs2 : list Change) (d : Dom) :
  Changes.redo (BatchChange t (cs1 ++ cs2)) d
  = match Changes.redo (BatchChange t cs1) d with
    | Returned d' => Changes.redo (BatchChange t cs2) d'
    | Raised d' => Raised d'
    end.
Proof.
  simpl. revert d. induction cs1 as [|c cs1 IH]; intros d; simpl.
  - reflexivity.
  - destruct (Changes.redo c d) as [d'|d']; [apply IH | reflexivity].
Qed.

(** X1.  A [BatchChange] undoes its members from the last to the first and
    redoes them from the first to the last: over a concatenation, [undo]
    runs the second part and then the first, [redo] the first and then the
    second, and as soon as a member throws the rest is not run.  A batch of
    one change behaves as that change. *)
Theorem X1_batch_order `{TreeApi} (t : Z) (cs1 cs2 : list Change) (d : Dom) :
  Changes.undo (BatchChange t (cs1 ++ cs2)) d
  = match Changes.undo (BatchChange t cs2) d with
    | Returned d' => Changes.undo (BatchChange t cs1) d'
    | Raised d' => Raised d'
    end
  /\ Changes.redo (BatchChange t (cs1 ++ cs2)) d
     = match Changes.redo (BatchChange t cs1) d with
       | Returned d' => Changes.redo (BatchChange t cs2) d'
       | Raised d' => Raised d'
       end
  /\ forall c, Changes.undo (BatchChange t [c]) d = Changes.undo c d
               /\ Changes.redo (BatchChange t [c]) d = Changes.redo c d.
Proof.
  split; [apply batch_undo_app|]. split; [apply batch_redo_app|].
  intros c. split; [reflexivity|]. simpl.
  destruct (Changes.redo c d); reflexivity.
Qed.

(** X2.  Undoing a batch is not atomic.  When the members after [c] undo
    normally and [c] then throws, the manager's [undo()] returns [false]
    and leaves both stacks as they were, and nothing is delivered, but the
    document stays where the throw left it: the members after [c] have been
    undone and those before it have not. *)
Theorem X2_failed_batch_undo_is_partial `{TreeApi} (w : World) (rest : list Change)
    (t : Z) (cs1 cs2 : list Change) (c : Change) (d2 d3 : Dom) :
  undoStack (manager w) = rest ++ [BatchChange t (cs1 ++ c :: cs2)] ->
  Changes.undo (BatchChange t cs2) (document w) = Returned d2 ->
  Changes.undo c d2 = Raised d3 ->
  History.undo w = (false, mkWorld (manager w) d3 (delivered w)).
Proof.
  intros Hst H2 Hc.
  apply (undo_raised w rest (BatchChange t (cs1 ++ c :: cs2)) d3 Hst).
  rewrite batch_undo_app.
  change (c :: cs2) with ([c] ++ cs2). rewrite batch_undo_app, H2.
  simpl. rewrite Hc. reflexivity.
Qed.

(** ** Changes that cannot throw *)

Lemma Change_induction (P : Change -> Prop) :
  (forall t, P (BaseChange t)) ->
  (forall t el p old new, P (StyleChange t el p old new)) ->
  (forall t el a old new, P (AttributeChange t el a old new)) ->
  (forall t el op on np nn, P (DOMChange t el op on np nn)) ->
  (forall t el old new, P (TextChange t el old new)) ->
  (forall t cs, Forall P cs -> P (BatchChange t cs)) ->
  forall c, P c.
Proof.
  intros Hbase Hstyle Hattr Hdom Htext Hbatch.
  fix IH 1. intros [t|t el p old new|t el a old new|t el op on np nn|t el old new|t cs].
  - apply Hbase.
  - apply Hstyle.
  - apply Hattr.
  - apply Hdom.
  - apply Htext.
  - apply Hbatch. induction cs as [|c cs IHcs]; constructor; [apply IH | exact IHcs].
Qed.

Lemma neverThrows_returns `{TreeApi} (c : Change) :
  neverThrows c = true ->
  forall d, (exists d', Changes.undo c d = Returned d')
            /\ (exists d', Changes.redo c d = Returned d').
Proof.
  induction c as [t|t el p old new|t el a old new|t el op on np nn|t el old new|t cs IH]
    using Change_induction; intros Hsafe d; try discriminate.
  - destruct el as [e|]; simpl; [destruct (connected e d)|]; eauto.
  - destruct el as [e|]; simpl; [|eauto]. simpl in Hsafe. rewrite Hsafe.
    destruct (connected e d); simpl; [|eauto].
    destruct (strict_eq old VNull), (strict_eq new VNull); eauto.
  - destruct el as [e|]; simpl; [destruct (connected e d)|]; eauto.
  - simpl in Hsafe. revert d.
    induction cs as [|c cs IHcs]; intros d.
    + simpl. eauto.
    + apply andb_true_iff in Hsafe as [Hc Hcs].
      apply Forall_cons in IH as [IHc IHrest].
      specialize (IHcs IHrest Hcs). split.
      * change (c :: cs) with ([c] ++ cs). rewrite batch_undo_app.
        destruct (IHcs d) as [[d1 H1] _]. rewrite H1.
        destruct (IHc Hc d1) as [[d2 H2] _]. exists d2. simpl. exact H2.
      * change (c :: cs) with ([c] ++ cs). rewrite batch_redo_app.
        destruct (IHc Hc d) as [_ [d1 H1]].
        assert (Hone : Changes.redo (BatchChange t [c]) d = Returned d1)
          by (simpl; rewrite H1; reflexivity).
        rewrite Hone. apply IHcs.
Qed.

(** ** Forward then inverse *)

Lemma connected_alter (e e' : node) (f : Element -> Element) (d : Dom) :
  (forall x, isConnected (f x) = isConnected x) ->
  connected e' (alter f e d) = connected e' d.
Proof.
  intros Hf. unfold connected.
  destruct (decide (e = e')) as [<-|Hne].
  - rewrite lookup_alter_eq. destruct (d !! e); simpl; [apply Hf | reflexivity].
  - rewrite lookup_alter_ne by assumption. reflexivity.
Qed.

Lemma sameReads_alter (f : Element -> Element) (e : node) (d : Dom) :
  (forall x, d !! e = Some x ->
     isSVG (f x) = isSVG x /\ isConnected (f x) = isConnected x
     /\ textContent (f x) = textContent x
     /\ (forall p, default (VStr "") (style (f x) !! p) = default (VStr "") (style x !! p))
     /\ (forall a, default VNull (attributes (f x) !! a)
                   = default VNull (attributes x !! a))) ->
  sameReads d (alter f e d).
Proof.
  intros Hf e'.
  unfold connected, Draggable.instanceofSVGElement, getStyleProp, getAttribute,
    getTextContent.
  destruct (decide (e = e')) as [<-|Hne].
  - rewrite lookup_alter_eq. destruct (d !! e) as [x|] eqn:Hx; simpl.
    + destruct (Hf x eq_refl) as (Hs & Hc & Ht & Hst & Hat).
      split; [exact Hc|]. split; [exact Hs|]. split; [exact Hst|].
      split; [exact Hat | exact Ht].
    + repeat split.
  - rewrite lookup_alter_ne by assumption. repeat split.
Qed.

(** X4.  In the values assigned (the store keeps, for each style property
    and attribute, the value last assigned, and a style property reads as
    the empty string before any), [redo()] followed by [undo()] leaves no
    trace.  On a connected target whose style property reads as the
    recorded old value, also when it was never assigned and the old value
    is the empty string, after both calls every element reads as before:
    its connection, its kind, each style property, each attribute and its
    text.  The same holds of an [AttributeChange] with a valid attribute
    name whose old value is what [getAttribute] gives, [null] for an absent
    attribute.  With a name that is not valid, [redo()] of a new value other
    than [null] throws and changes nothing. *)
Theorem X4_redo_then_undo_restores `{TreeApi} (e : node) (d : Dom) :
  connected e d = true ->
  (forall t p old new,
      getStyleProp e p d = old ->
      exists d1 d2,
        Changes.redo (StyleChange t (Some e) p old new) d = Returned d1
        /\ Changes.undo (StyleChange t (Some e) p old new) d1 = Returned d2
        /\ sameReads d d2)
  /\ (forall t a old new,
        attributeName a = true ->
        getAttribute e a d = old ->
        (old = VNull \/ exists s, old = VStr s) ->
        exists d1 d2,
          Changes.redo (AttributeChange t (Some e) a old new) d = Returned d1
          /\ Changes.undo (AttributeChange t (Some e) a old new) d1 = Returned d2
          /\ sameReads d d2)
  /\ (forall t a old new,
        attributeName a = false -> new <> VNull ->
        Changes.redo (AttributeChange t (Some e) a old new) d = Raised d).
Proof.
  intros Hcd. split; [|split].
  - intros t p old new Hold. do 2 eexists. simpl. rewrite Hcd.
    split; [reflexivity|]. unfold setStyleProp.
    rewrite connected_alter by reflexivity. rewrite Hcd.
    split; [reflexivity|].
    rewrite alter_alter_eq. apply sameReads_alter.
    intros x Hx. simpl. repeat split.
    intros q. destruct (decide (p = q)) as [<-|Hne].
    + rewrite lookup_insert_eq. simpl.
      unfold getStyleProp in Hold. rewrite Hx in Hold. symmetry. exact Hold.
    + rewrite !lookup_insert_ne by assumption. reflexivity.
  - intros t a old new Hname Hold Hkind. simpl. rewrite Hcd, Hname. simpl.
    assert (Hread : forall x, d !! e = Some x -> default VNull (attributes x !! a) = old).
    { intros x Hx. unfold getAttribute in Hold. rewrite Hx in Hold. exact Hold. }
    assert (Hnull : strict_eq VNull VNull = true)
      by (unfold strict_eq; apply bool_decide_eq_true_2; reflexivity).
    assert (Hstr : forall s, strict_eq (VStr s) VNull = false)
      by (intros s; unfold strict_eq; apply bool_decide_eq_false_2; discriminate).
    unfold removeAttribute, setAttribute.
    destruct Hkind as [->|[s ->]]; rewrite ?Hnull, ?Hstr;
      destruct (strict_eq new VNull); do 2 eexists; (split; [reflexivity|]);
      rewrite connected_alter by reflexivity; rewrite Hcd; simpl;
      (split; [reflexivity|]);
      rewrite alter_alter_eq; apply sameReads_alter;
      intros x Hx; simpl; repeat split;
      intros b; (destruct (decide (a = b)) as [<-|Hne];
                 [ rewrite ?lookup_delete_eq, ?lookup_insert_eq; simpl;
                   symmetry; exact (Hread x Hx)
                 | repeat first [ rewrite lookup_delete_ne by assumption
                                | rewrite lookup_insert_ne by assumption ];
                   reflexivity ]).
  - intros t a old new Hname Hnew. simpl. rewrite Hcd, Hname. simpl.
    unfold strict_eq. rewrite bool_decide_eq_false_2 by exact Hnew. reflexivity.
Qed.

(** ** Batch mode *)

Lemma emit_world (data : Snapshot) (w : World) :
  History.emit "change" data w
  = mkWorld (manager w) (document w)
            (delivered w ++ map (fun cb => (cb, data))
                                (default [] (listeners (manager w) !! "change"%string))).
Proof. destruct w as [h d l]. apply emit_change. Qed.

Lemma bufferClosed_step `{TreeApi} (w : World) (o : Op) :
  bufferClosed (manager w) -> bufferClosed (manager (step w o)).
Proof.
  unfold bufferClosed. intros Hw. destruct o; simpl.
  - exact Hw.
  - unfold History.off. destruct (listeners (manager w) !! event); exact Hw.
  - unfold History.push. destruct (batchMode (manager w)) eqn:Hb.
    + destruct arg; simpl; discriminate.
    + destruct (match arg with
                | Many [] => None
                | Many [c] => Some c
                | Many cs => Some (BatchChange now cs)
                | One c => Some c
                end) as [change|]; [|rewrite Hb; exact Hw].
      destruct (last (undoStack (manager w))) as [lastChange|];
        [destruct (Changes.canMerge lastChange change)|];
        rewrite ?manager_emit; simpl; intros _; apply Hw; reflexivity.
  - discriminate.
  - unfold History.endBatch. reflexivity.
  - unfold History.undo. destruct (negb (History.canUndo (manager w))); [exact Hw|].
    destruct (pop (undoStack (manager w))) as [[rest change]|]; [|exact Hw].
    destruct (Changes.undo change (document w)); simpl; rewrite ?manager_emit; exact Hw.
  - unfold History.redo. destruct (negb (History.canRedo (manager w))); [exact Hw|].
    destruct (pop (redoStack (manager w))) as [[rest change]|]; [|exact Hw].
    destruct (Changes.redo change (document w)); simpl; rewrite ?manager_emit; exact Hw.
  - unfold History.clear. rewrite manager_emit. reflexivity.
  - exact Hw.
Qed.

(** X5.  Whatever calls are made on a manager since its construction,
    when no batch is open its accumulation buffer is empty. *)
Theorem X5_buffer_empty_outside_batch `{TreeApi} (options : Options) (d : Dom)
    (ops : list Op) :
  let h := manager (run ops (fresh options d)) in
  batchMode h = false -> batchedChanges h = [].
Proof.
  assert (Hgen : forall w, bufferClosed (manager w) -> bufferClosed (manager (run ops w))).
  { induction ops as [|o ops IH]; intros w Hw; simpl; [exact Hw|].
    apply IH, bufferClosed_step, Hw. }
  apply Hgen. intros _. reflexivity.
Qed.


(** ** Undo and redo as inverses *)

Lemma undo_plain `{TreeApi} (w : World) (rest : list Change) (c : Change) :
  neverThrows c = true ->
  undoStack (manager w) = rest ++ [c] ->
  fst (History.undo w) = true
  /\ undoStack (manager (snd (History.undo w))) = rest
  /\ redoStack (manager (snd (History.undo w))) = redoStack (manager w) ++ [c].
Proof.
  intros Hsafe Hst.
  destruct (neverThrows_returns c Hsafe (document w)) as [[d Hd] _].
  rewrite (undo_returned w rest c d Hst Hd). repeat split.
Qed.

Lemma redo_plain `{TreeApi} (w : World) (rest : list Change) (c : Change) :
  neverThrows c = true ->
  redoStack (manager w) = rest ++ [c] ->
  fst (History.redo w) = true
  /\ redoStack (manager (snd (History.redo w))) = rest
  /\ undoStack (manager (snd (History.redo w))) = undoStack (manager w) ++ [c].
Proof.
  intros Hsafe Hst.
  destruct (neverThrows_returns c Hsafe (document w)) as [_ [d Hd]].
  rewrite (redo_returned w rest c d Hst Hd). repeat split.
Qed.

Lemma undoTimes_pops `{TreeApi} (cs : list Change) :
  Forall (fun c => neverThrows c = true) cs ->
  forall (w : World) (st : list Change),
    undoStack (manager w) = st ++ cs ->
    undoStack (manager (undoTimes (length cs) w)) = st
    /\ redoStack (manager (undoTimes (length cs) w)) = redoStack (manager w) ++ rev cs.
Proof.
  induction cs as [|c cs IH]; intros Hsafe w st Hst.
  - simpl. rewrite !app_nil_r in *. split; [exact Hst | reflexivity].
  - apply Forall_cons in Hsafe as [Hc Hcs].
    change (undoTimes (length (c :: cs)) w)
      with (snd (History.undo (undoTimes (length cs) w))).
    destruct (IH Hcs w (st ++ [c])) as [Hu Hr].
    { rewrite <- app_assoc. exact Hst. }
    destruct (undo_plain _ st c Hc Hu) as (_ & Hu' & Hr').
    split; [exact Hu'|]. rewrite Hr', Hr. simpl. rewrite app_assoc. reflexivity.
Qed.

Lemma redoTimes_pops `{TreeApi} (cs : list Change) :
  Forall (fun c => neverThrows c = true) cs ->
  forall (w : World) (st : list Change),
    redoStack (manager w) = st ++ cs ->
    redoStack (manager (redoTimes (length cs) w)) = st
    /\ undoStack (manager (redoTimes (length cs) w)) = undoStack (manager w) ++ rev cs.
Proof.
  induction cs as [|c cs IH]; intros Hsafe w st Hst.
  - simpl. rewrite !app_nil_r in *. split; [exact Hst | reflexivity].
  - apply Forall_cons in Hsafe as [Hc Hcs].
    change (redoTimes (length (c :: cs)) w)
      with (snd (History.redo (redoTimes (length cs) w))).
    destruct (IH Hcs w (st ++ [c])) as [Hr Hu].
    { rewrite <- app_assoc. exact Hst. }
    destruct (redo_plain _ st c Hc Hr) as (_ & Hr' & Hu').
    split; [exact Hr'|]. rewrite Hu', Hu. simpl. rewrite app_assoc. reflexivity.
Qed.

(** ** Listeners *)

Lemma map_filter_callbacks (s : Snapshot) (cb : callback) (cbs : list callback) :
  map (fun c => (c, s)) (filter (fun c => c <> cb) cbs)
  = filter (fun p : callback * Snapshot => fst p <> cb) (map (fun c => (c, s)) cbs).
Proof.
  induction cbs as [|c cbs IH]; [reflexivity|]. simpl.
  rewrite !filter_cons. simpl.
  destruct (decide (c <> cb)); simpl; rewrite IH; reflexivity.
Qed.

(** X9.  [on] registers a callback after those already registered, as
    often as it is called; [off] removes every registration of the callback
    and keeps the others in their order; registrations for other events do
    not affect who is told of a change. *)
Theorem X9_listeners (h : HistoryManager) (cb : callback) :
  notification (History.on "change" cb h) = notification h ++ [(cb, History.state h)]
  /\ notification (History.off "change" cb h)
     = filter (fun p => fst p <> cb) (notification h)
  /\ (forall ev : string, ev <> "change"%string ->
        notification (History.on ev cb h) = notification h
        /\ notification (History.off ev cb h) = notification h).
Proof.
  unfold notification. repeat split.
  - unfold History.on. simpl. rewrite lookup_insert_eq. simpl.
    rewrite map_app. reflexivity.
  - unfold History.off.
    destruct (listeners h !! "change"%string) as [cbs|] eqn:E; simpl.
    + rewrite lookup_insert_eq. simpl.
      apply (map_filter_callbacks (History.state h) cb cbs).
    + rewrite E. reflexivity.
  - unfold History.on. simpl. rewrite lookup_insert_ne by assumption. reflexivity.
  - unfold History.off. destruct (listeners h !! ev) as [cbs|]; simpl; [|reflexivity].
    rewrite lookup_insert_ne by assumption. reflexivity.
Qed.

(** ** What push never merges *)


(** ** The configured size *)

Lemma or_default_falsy (x : option Z) (dflt : Z) :
  x = None \/ x = Some 0 -> or_default x dflt = dflt.
Proof. intros [->| ->]; reflexivity. Qed.

(** * Further properties of draggable *)

Lemma onMouseDown_history `{Browser} (e : MouseEvent) (s : DragState) (w : World) :
  manager (snd (Draggable.onMouseDown e s w)) = manager w
  /\ delivered (snd (Draggable.onMouseDown e s w)) = delivered w.
Proof.
  unfold Draggable.onMouseDown.
  destruct (negb (bool_decide (evTarget e = surface s))); [split; reflexivity|].
  repeat match goal with
         | |- context [let '(_, _) := ?x in _] => destruct x
         end.
  split; reflexivity.
Qed.

Lemma onMouseMove_history `{Browser} (e : MouseEvent) (s : DragState) (w : World) :
  manager (snd (Draggable.onMouseMove e s w)) = manager w
  /\ delivered (snd (Draggable.onMouseMove e s w)) = delivered w.
Proof.
  unfold Draggable.onMouseMove. destruct (negb (mouseDown s)); split; reflexivity.
Qed.

Lemma mouseMoves_facts `{Browser} (es : list MouseEvent) (s : DragState) (w : World) :
  mouseDown s = true ->
  let r := mouseMoves es (s, w) in
  travelDistance (fst r) = (travelDistance s + length es)%nat
  /\ mouseDown (fst r) = true
  /\ initialPosition (fst r) = initialPosition s
  /\ initialTransform (fst r) = initialTransform s
  /\ manager (snd r) = manager w
  /\ delivered (snd r) = delivered w.
Proof.
  revert s w. induction es as [|e es IH]; intros s w Hdown.
  - simpl. rewrite Nat.add_0_r. repeat split; assumption || reflexivity.
  - change (mouseMoves (e :: es) (s, w))
      with (mouseMoves es (Draggable.onMouseMove e s w)).
    destruct (Draggable.onMouseMove e s w) as [s1 w1] eqn:E.
    assert (Hs1 : mouseDown s1 = true /\ travelDistance s1 = (travelDistance s + 1)%nat
                  /\ initialPosition s1 = initialPosition s
                  /\ initialTransform s1 = initialTransform s
                  /\ manager w1 = manager w /\ delivered w1 = delivered w).
    { unfold Draggable.onMouseMove in E. rewrite Hdown in E. simpl in E.
      injection E as <- <-. repeat split; assumption || reflexivity. }
    destruct Hs1 as (Hd1 & Ht1 & Hp1 & Hr1 & Hm1 & Hl1).
    destruct (IH s1 w1 Hd1) as (Ht & Hd & Hp & Hr & Hm & Hl).
    cbv zeta. rewrite Ht, Ht1, Hp, Hp1, Hr, Hr1, Hm, Hm1, Hl, Hl1. simpl.
    repeat split; try assumption. lia.
Qed.

(** X12.  Until the mouse is released a drag writes nothing to the
    history: setting up the draggable, the mouse-down and every mouse-move
    leave the manager and the listeners' log as they were.  After a
    mouse-down on the surface, the travel distance is the number of
    mouse-move events handled since, whatever their coordinates. *)
Theorem X12_no_history_before_mouse_up `{Browser} (e : MouseEvent)
    (es : list MouseEvent) (s : DragState) (w : World) :
  (forall el surf cursor click hm,
      manager (snd (Draggable.draggable el surf cursor click hm w)) = manager w
      /\ delivered (snd (Draggable.draggable el surf cursor click hm w)) = delivered w)
  /\ (let r := mouseMoves es (Draggable.onMouseDown e s w) in
      manager (snd r) = manager w /\ delivered (snd r) = delivered w)
  /\ (evTarget e = surface s ->
      travelDistance (fst (mouseMoves es (Draggable.onMouseDown e s w))) = length es).
Proof.
  split; [intros; split; reflexivity|].
  destruct (onMouseDown_history e s w) as [Hm Hl].
  destruct (Draggable.onMouseDown e s w) as [s1 w1] eqn:E. simpl in Hm, Hl.
  split.
  - cbv zeta.
    assert (Hgen : forall es s w, manager (snd (mouseMoves es (s, w))) = manager w
                                  /\ delivered (snd (mouseMoves es (s, w))) = delivered w).
    { clear. intros es. induction es as [|e es IH]; intros s w; [split; reflexivity|].
      change (mouseMoves (e :: es) (s, w))
        with (mouseMoves es (Draggable.onMouseMove e s w)).
      destruct (onMouseMove_history e s w) as [Hm Hl].
      destruct (Draggable.onMouseMove e s w) as [s1 w1]. simpl in Hm, Hl.
      destruct (IH s1 w1) as [Hm' Hl']. rewrite Hm', Hl', Hm, Hl. split; reflexivity. }
    destruct (Hgen es s1 w1) as [Hm' Hl']. rewrite Hm', Hl', Hm, Hl. split; reflexivity.
  - intros Ht.
    assert (Hs1 : mouseDown s1 = true /\ travelDistance s1 = 0%nat).
    { unfold Draggable.onMouseDown in E. rewrite Ht in E.
      rewrite bool_decide_eq_true_2 in E by reflexivity. simpl in E.
      repeat match type of E with
             | context [let '(_, _) := ?x in _] => destruct x
             end.
      injection E as <- <-. split; reflexivity. }
    destruct Hs1 as [Hd Ht0].
    destruct (mouseMoves_facts es s1 w1 Hd) as (Htd & _). rewrite Htd, Ht0. reflexivity.
Qed.

Lemma release_reads (el : node) (z : value) (d : Dom) :
  let d2 := setStyleProp el "willChange" VNull
              (if negb (Draggable.nullish z) then setStyleProp el "zIndex" z d else d) in
  Draggable.instanceofSVGElement el d2 = Draggable.instanceofSVGElement el d
  /\ getAttribute el "transform" d2 = getAttribute el "transform" d
  /\ forall p : string, p <> "willChange"%string -> p <> "zIndex"%string ->
       getStyleProp el p d2 = getStyleProp el p d.
Proof.
  cbv zeta. repeat split.
  - rewrite instanceofSVGElement_setStyleProp.
    destruct (negb (Draggable.nullish z));
      [apply instanceofSVGElement_setStyleProp | reflexivity].
  - rewrite getAttribute_setStyleProp.
    destruct (negb (Draggable.nullish z)); [apply getAttribute_setStyleProp | reflexivity].
  - intros p Hp1 Hp2. rewrite getStyleProp_set_ne by assumption.
    destruct (negb (Draggable.nullish z));
      [apply getStyleProp_set_ne; assumption | reflexivity].
Qed.

(** A mouse-up that finds nothing to commit leaves the history alone. *)
Lemma onMouseUp_nothing `{Browser} (e : MouseEvent) (now : Z) (s : DragState)
    (w : World) :
  committedChanges s now (document w) = [] ->
  manager (snd (Draggable.onMouseUp e now s w)) = manager w
  /\ delivered (snd (Draggable.onMouseUp e now s w)) = delivered w.
Proof.
  intros Hnone. unfold Draggable.onMouseUp.
  destruct (negb (bool_decide (evTarget e = surface s))); [split; reflexivity|].
  destruct (release_reads (target s) (zIndex s) (document w)) as (Hsvg & Hattr & Hprop).
  cbv zeta in Hsvg, Hattr, Hprop.
  unfold committedChanges in Hnone.
  rewrite Hsvg, Hattr.
  destruct (historyManager s); cbn [negb andb] in *.
  - destruct (Draggable.instanceofSVGElement (target s) (document w)).
    + destruct (Draggable.translateXY _) as [x y].
      destruct (strict_ne (initialTransform s) _); [discriminate|]. split; reflexivity.
    + destruct (initialPosition s) as [[left0 top0]|]; [|split; reflexivity].
      cbn [snd]. unfold Draggable.recordPosition. cbn [fst snd document].
      rewrite !Hprop by discriminate.
      destruct (strict_ne left0 _); [discriminate|].
      destruct (strict_ne top0 _); [discriminate|]. split; reflexivity.
  - destruct (Draggable.instanceofSVGElement (target s) (document w)).
    + destruct (Draggable.translateXY _) as [x y]. split; reflexivity.
    + split; reflexivity.
Qed.

(** The state and the document after a mouse-down on the surface. *)
Lemma onMouseDown_captures `{Browser} (e : MouseEvent) (s : DragState) (w : World) :
  evTarget e = surface s ->
  let s1 := fst (Draggable.onMouseDown e s w) in
  let d1 := document (snd (Draggable.onMouseDown e s w)) in
  let el := target s in
  target s1 = el /\ surface s1 = surface s /\ historyManager s1 = historyManager s
  /\ clickEvent s1 = clickEvent s /\ clicks s1 = clicks s /\ travelDistance s1 = 0%nat
  /\ zIndex s1 = (if Draggable.nullish (zIndex s)
                  then getStyleProp el "zIndex" (document w) else zIndex s)
  /\ Draggable.instanceofSVGElement el d1 = Draggable.instanceofSVGElement el (document w)
  /\ getAttribute el "transform" d1 = getAttribute el "transform" (document w)
  /\ (forall p : string, p <> "willChange"%string -> p <> "zIndex"%string ->
        p <> "position"%string -> getStyleProp el p d1 = getStyleProp el p (document w))
  /\ getStyleProp el "zIndex" d1
     = (if Draggable.nullish (zIndex s)
        then getStyleProp el "zIndex" (setStyleProp el "zIndex" (VStr "9999999999999") (document w))
        else getStyleProp el "zIndex" (document w))
  /\ (historyManager s = true ->
      if Draggable.instanceofSVGElement el (document w)
      then initialTransform s1
           = (if truthy (getAttribute el "transform" (document w))
              then getAttribute el "transform" (document w) else VNull)
      else initialPosition s1
           = Some (getStyleProp el "left" (document w), getStyleProp el "top" (document w)))
  /\ (historyManager s = false ->
      initialTransform s1 = initialTransform s /\ initialPosition s1 = initialPosition s).
Proof.
  intros Ht. unfold Draggable.onMouseDown. rewrite Ht.
  rewrite bool_decide_eq_true_2 by reflexivity. cbn [negb].
  set (d0 := document w).
  set (z := if Draggable.nullish (zIndex s)
            then (getStyleProp (target s) "zIndex" d0,
                  setStyleProp (target s) "zIndex" (VStr "9999999999999") d0)
            else (zIndex s, d0)).
  assert (Hz : fst z = (if Draggable.nullish (zIndex s)
                        then getStyleProp (target s) "zIndex" d0 else zIndex s)
               /\ snd z = (if Draggable.nullish (zIndex s)
                           then setStyleProp (target s) "zIndex" (VStr "9999999999999") d0
                           else d0)).
  { subst z. destruct (Draggable.nullish (zIndex s)); split; reflexivity. }
  destruct z as [zIndex' d1]. simpl in Hz. destruct Hz as [Hz1 Hz2].
  set (d2 := if strict_eq (getComputedStyle (target s) "position" d1) (VStr "static")
             then setStyleProp (target s) "position" (VStr "relative") d1 else d1).
  set (d3 := setStyleProp (target s) "willChange" (VStr "top,left") d2).
  assert (Hsvg : Draggable.instanceofSVGElement (target s) d3
                 = Draggable.instanceofSVGElement (target s) d0).
  { subst d3 d2. rewrite instanceofSVGElement_setStyleProp.
    destruct (strict_eq _ _); rewrite ?instanceofSVGElement_setStyleProp;
      rewrite Hz2; destruct (Draggable.nullish (zIndex s));
      rewrite ?instanceofSVGElement_setStyleProp; reflexivity. }
  assert (Hattr : getAttribute (target s) "transform" d3
                  = getAttribute (target s) "transform" d0).
  { subst d3 d2. rewrite getAttribute_setStyleProp.
    destruct (strict_eq _ _); rewrite ?getAttribute_setStyleProp;
      rewrite Hz2; destruct (Draggable.nullish (zIndex s));
      rewrite ?getAttribute_setStyleProp; reflexivity. }
  assert (Hprop : forall p : string, p <> "willChange"%string -> p <> "position"%string ->
                    getStyleProp (target s) p d3 = getStyleProp (target s) p d1).
  { intros p Hp1 Hp3. subst d3 d2. rewrite getStyleProp_set_ne by assumption.
    destruct (strict_eq _ _); rewrite ?getStyleProp_set_ne by assumption; reflexivity. }
  rewrite Hsvg, Hattr.
  destruct (Draggable.instanceofSVGElement (target s) d0) eqn:Esvg.
  - destruct (Draggable.translateXY _) as [x y]. cbn [fst snd document].
    rewrite Hsvg, Hattr.
    repeat split; try reflexivity; try assumption.
    + intros p Hp1 Hp2 Hp3. rewrite (Hprop p Hp1 Hp3), Hz2.
      destruct (Draggable.nullish (zIndex s)); rewrite ?getStyleProp_set_ne by assumption;
        reflexivity.
    + rewrite (Hprop "zIndex"%string) by discriminate. rewrite Hz2.
      destruct (Draggable.nullish (zIndex s)); reflexivity.
    + intros ->. reflexivity.
    + match goal with Hf : historyManager s = false |- _ => rewrite Hf end. reflexivity.
  - cbn [fst snd document]. rewrite Hsvg, Hattr.
    repeat split; try reflexivity; try assumption.
    + intros p Hp1 Hp2 Hp3. rewrite (Hprop p Hp1 Hp3), Hz2.
      destruct (Draggable.nullish (zIndex s)); rewrite ?getStyleProp_set_ne by assumption;
        reflexivity.
    + rewrite (Hprop "zIndex"%string) by discriminate. rewrite Hz2.
      destruct (Draggable.nullish (zIndex s)); reflexivity.
    + intros ->. rewrite !Hprop by discriminate. rewrite Hz2.
      destruct (Draggable.nullish (zIndex s));
        rewrite ?getStyleProp_set_ne by discriminate; reflexivity.
    + match goal with Hf : historyManager s = false |- _ => rewrite Hf end. reflexivity.
Qed.

Lemma onMouseUp_commits `{Browser} (e : MouseEvent) (now : Z) (s : DragState)
    (w : World) :
  evTarget e = surface s ->
  manager (snd (Draggable.onMouseUp e now s w))
  = manager (submit (committedChanges s now (document w)) now w).
Proof.
  intros Ht. unfold Draggable.onMouseUp, committedChanges.
  rewrite Ht. rewrite bool_decide_eq_true_2 by reflexivity. cbn [negb].
  destruct (release_reads (target s) (zIndex s) (document w)) as (Hsvg & Hattr & Hprop).
  cbv zeta in Hsvg, Hattr, Hprop.
  rewrite Hsvg, Hattr.
  destruct (Draggable.instanceofSVGElement (target s) (document w)).
  - destruct (Draggable.translateXY _) as [x y].
    destruct (historyManager s); cbn [negb andb]; [|reflexivity].
    destruct (strict_ne (initialTransform s) _); cbn [snd submit]; [|reflexivity].
    apply push_manager. reflexivity.
  - destruct (historyManager s); cbn [negb]; [|reflexivity].
    destruct (initialPosition s) as [[left0 top0]|]; cbn [snd]; [|reflexivity].
    apply recordPosition_submit; [reflexivity | |]; apply Hprop; discriminate.
Qed.

Lemma push_document (arg : PushArg) (now : Z) (w : World) :
  document (History.push arg now w) = document w.
Proof.
  unfold History.push. destruct (batchMode (manager w)).
  - destruct arg; reflexivity.
  - destruct (match arg with
              | Many [] => None
              | Many [c] => Some c
              | Many cs => Some (BatchChange now cs)
              | One c => Some c
              end) as [change|]; [|reflexivity].
    destruct (last (undoStack (manager w))) as [lastChange|];
      [destruct (Changes.canMerge lastChange change)|];
      rewrite ?document_emit; reflexivity.
Qed.

Lemma endBatch_document (now : Z) (w : World) :
  document (History.endBatch now w) = document w.
Proof.
  unfold History.endBatch.
  destruct (bool_decide (0 < length (batchedChanges (manager w)))%nat);
    cbn [document History.withManager]; rewrite ?document_emit; reflexivity.
Qed.

Lemma onMouseUp_document `{Browser} (e : MouseEvent) (now : Z) (s : DragState)
    (w : World) :
  evTarget e = surface s ->
  document (snd (Draggable.onMouseUp e now s w))
  = setStyleProp (target s) "willChange" VNull
      (if negb (Draggable.nullish (zIndex s))
       then setStyleProp (target s) "zIndex" (zIndex s) (document w)
       else document w).
Proof.
  intros Ht. unfold Draggable.onMouseUp.
  rewrite Ht. rewrite bool_decide_eq_true_2 by reflexivity. cbn [negb].
  destruct (Draggable.instanceofSVGElement (target s) _).
  - destruct (Draggable.translateXY _) as [x y].
    destruct (historyManager s && strict_ne (initialTransform s) _); cbn [snd];
      rewrite ?push_document; reflexivity.
  - destruct (if historyManager s then initialPosition s else None) as [initial|];
      cbn [snd]; [|reflexivity].
    unfold Draggable.recordPosition.
    destruct (strict_ne (fst initial) _), (strict_ne (snd initial) _); cbn [orb andb];
      rewrite ?endBatch_document, ?push_document; reflexivity.
Qed.

Lemma onMouseUp_clicks `{Browser} (e : MouseEvent) (now : Z) (s : DragState)
    (w : World) :
  evTarget e = surface s ->
  clicks (fst (Draggable.onMouseUp e now s w))
  = clicks s ++ match clickEvent s with
                | Some cb => if Draggable.treatAsClick (travelDistance s)
                             then [(cb, e)] else []
                | None => []
                end
  /\ zIndex (fst (Draggable.onMouseUp e now s w))
     = (if negb (Draggable.nullish (zIndex s)) then VNull else zIndex s).
Proof.
  intros Ht. unfold Draggable.onMouseUp.
  rewrite Ht. rewrite bool_decide_eq_true_2 by reflexivity. cbn [negb].
  repeat match goal with
         | |- context [let '(_, _) := ?x in _] => destruct x
         end.
  cbn [fst clicks zIndex]. split; [|reflexivity].
  destruct (clickEvent s) as [cb|]; [|rewrite app_nil_r; reflexivity].
  destruct (Draggable.treatAsClick (travelDistance s));
    [reflexivity | rewrite app_nil_r; reflexivity].
Qed.

(** X13.  A click, that is a mouse-down and a mouse-up on the surface with
    no mouse-move in between, records nothing as long as the [transform]
    attribute of an SVG target is absent or a non-empty string: the manager
    and the listeners' log are as before, and the click callback is called.
    An SVG target whose [transform] attribute is the empty string does get
    an [AttributeChange] from [null] to the empty string pushed. *)
Theorem X13_click_records_nothing `{Browser} (e e' : MouseEvent) (now : Z)
    (s : DragState) (w : World) :
  evTarget e = surface s -> evTarget e' = surface s ->
  let down := Draggable.onMouseDown e s w in
  let up := Draggable.onMouseUp e' now (fst down) (snd down) in
  let el := target s in
  let transform := getAttribute el "transform" (document w) in
  (transform = VNull \/ truthy transform = true ->
   manager (snd up) = manager w /\ delivered (snd up) = delivered w)
  /\ (historyManager s = true ->
      Draggable.instanceofSVGElement el (document w) = true ->
      transform = VStr "" ->
      manager (snd up)
      = manager (History.push
                   (One (AttributeChange now (Some el) "transform" VNull (VStr "")))
                   now w))
  /\ clicks (fst up) = clicks s ++ match clickEvent s with
                                   | Some cb => [(cb, e')]
                                   | None => []
                                   end.
Proof.
  intros Ht Ht' down up el transform.
  destruct (onMouseDown_captures e s w Ht)
    as (Htar & Hsur & Hhm & Hce & Hcl & Htd & _ & Hsvg & Hattr & Hprop & _ & Hcap & Hkeep).
  destruct (onMouseDown_history e s w) as [Hm Hl].
  fold down in Htar, Hsur, Hhm, Hce, Hcl, Htd, Hsvg, Hattr, Hprop, Hcap, Hkeep, Hm, Hl.
  assert (Ht1 : evTarget e' = surface (fst down)) by (rewrite Hsur; exact Ht').
  split; [|split].
  - intros Hwell.
    assert (Hnone : committedChanges (fst down) now (document (snd down)) = []).
    { unfold committedChanges. rewrite Htar, Hhm, Hsvg, Hattr.
      destruct (historyManager s) eqn:Ehm; [|reflexivity]. cbn [negb].
      specialize (Hcap eq_refl). fold el in Hcap |- *. fold transform in Hcap |- *.
      destruct (Draggable.instanceofSVGElement el (document w)).
      - rewrite Hcap. unfold strict_ne, strict_eq.
        destruct Hwell as [Hnull|Htruthy].
        + rewrite Hnull. reflexivity.
        + rewrite Htruthy. rewrite bool_decide_eq_true_2 by reflexivity. reflexivity.
      - rewrite Hcap. rewrite !Hprop by discriminate.
        unfold strict_ne, strict_eq. rewrite !bool_decide_eq_true_2 by reflexivity.
        reflexivity. }
    destruct (onMouseUp_nothing e' now (fst down) (snd down) Hnone) as [Hm' Hl'].
    subst up. rewrite Hm', Hl', Hm, Hl. split; reflexivity.
  - intros Ehm Esvg Eempty. subst up.
    rewrite (onMouseUp_commits e' now (fst down) (snd down) Ht1).
    unfold committedChanges. rewrite Htar, Hhm, Hsvg, Hattr, Ehm.
    specialize (Hcap Ehm). fold el in Hcap |- *. fold transform in Hcap |- *.
    rewrite Esvg in Hcap |- *. rewrite Hcap, Eempty. cbn [negb truthy].
    rewrite bool_decide_eq_true_2 by reflexivity. cbn [negb]. unfold strict_ne, strict_eq.
    rewrite bool_decide_eq_false_2 by discriminate. cbn [negb submit].
    apply push_manager. exact Hm.
  - subst up. destruct (onMouseUp_clicks e' now (fst down) (snd down) Ht1) as [Hc _].
    rewrite Hc, Hcl, Hce, Htd. reflexivity.
Qed.

Lemma getStyleProp_set_present (e : node) (p : string) (v : value) (d : Dom) :
  is_Some (d !! e) -> getStyleProp e p (setStyleProp e p v d) = v.
Proof.
  intros [x Hx]. unfold getStyleProp, setStyleProp.
  rewrite lookup_alter_eq, Hx. simpl. rewrite lookup_insert_eq. reflexivity.
Qed.

Lemma setStyleProp_present (e e' : node) (q : string) (v : value) (d : Dom) :
  is_Some (setStyleProp e' q v d !! e) <-> is_Some (d !! e).
Proof.
  unfold setStyleProp. destruct (decide (e' = e)) as [->|Hne].
  - rewrite lookup_alter_eq. rewrite fmap_is_Some. reflexivity.
  - rewrite lookup_alter_ne by assumption. reflexivity.
Qed.

Lemma connected_setStyleProp (e e' : node) (q : string) (v : value) (d : Dom) :
  connected e (setStyleProp e' q v d) = connected e d.
Proof. unfold setStyleProp. apply connected_alter. reflexivity. Qed.

Lemma onMouseDown_willChange `{Browser} (e : MouseEvent) (s : DragState) (w : World) :
  evTarget e = surface s ->
  exists d2, document (snd (Draggable.onMouseDown e s w))
             = setStyleProp (target s) "willChange" (VStr "top,left") d2.
Proof.
  intros Ht. unfold Draggable.onMouseDown. rewrite Ht.
  rewrite bool_decide_eq_true_2 by reflexivity. cbn [negb].
  destruct (if Draggable.nullish (zIndex s)
            then (getStyleProp (target s) "zIndex" (document w),
                  setStyleProp (target s) "zIndex" (VStr "9999999999999") (document w))
            else (zIndex s, document w)) as [zIndex' d1].
  destruct (Draggable.instanceofSVGElement (target s) _).
  - destruct (Draggable.translateXY _) as [x y]. eexists. reflexivity.
  - eexists. reflexivity.
Qed.

(** X14.  The z-index is borrowed for the drag and given back.  When no
    z-index is being held, a mouse-down on the surface raises the inline
    [zIndex] of the element to 9999999999999 and sets [willChange]; the
    mouse-up puts back the inline [zIndex] the element had, sets
    [willChange] to [null] and holds no z-index any more.  A second
    mouse-down before the mouse-up keeps the z-index first saved. *)
Theorem X14_zIndex_round_trip `{Browser} (e e' e2 : MouseEvent) (now : Z)
    (s : DragState) (w : World) (z : string) :
  evTarget e = surface s -> evTarget e' = surface s -> evTarget e2 = surface s ->
  Draggable.nullish (zIndex s) = true ->
  getStyleProp (target s) "zIndex" (document w) = VStr z ->
  let el := target s in
  let down := Draggable.onMouseDown e s w in
  let up := Draggable.onMouseUp e' now (fst down) (snd down) in
  (getStyleProp el "zIndex" (document (snd down)) = VStr "9999999999999"
   /\ getStyleProp el "willChange" (document (snd down)) = VStr "top,left"
   /\ zIndex (fst down) = VStr z)
  /\ (getStyleProp el "zIndex" (document (snd up)) = VStr z
      /\ getStyleProp el "willChange" (document (snd up)) = VNull
      /\ zIndex (fst up) = VNull)
  /\ zIndex (fst (Draggable.onMouseDown e2 (fst down) (snd down))) = VStr z.
Proof.
  intros Ht Ht' Ht2 Hnull Hz el down up.
  assert (Hpresent : is_Some (document w !! el)).
  { unfold getStyleProp in Hz. fold el in Hz. destruct (document w !! el); [eauto|discriminate]. }
  destruct (onMouseDown_captures e s w Ht)
    as (Htar & Hsur & _ & _ & _ & _ & Hzs & _ & _ & _ & Hzd & _ & _).
  fold down el in Htar, Hsur, Hzs, Hzd.
  rewrite Hnull in Hzs, Hzd. fold el in Hz. rewrite Hz in Hzs.
  rewrite (getStyleProp_set_present el "zIndex" _ _ Hpresent) in Hzd.
  assert (Hpresent1 : is_Some (document (snd down) !! el)).
  { unfold getStyleProp in Hzd. destruct (document (snd down) !! el); [eauto|discriminate]. }
  assert (Hwill : getStyleProp el "willChange" (document (snd down)) = VStr "top,left").
  { destruct (onMouseDown_willChange e s w Ht) as [d2 Hd2]. fold down el in Hd2.
    rewrite Hd2 in Hpresent1 |- *. apply getStyleProp_set_present.
    apply setStyleProp_present in Hpresent1. exact Hpresent1. }
  assert (Ht1 : evTarget e' = surface (fst down)) by (rewrite Hsur; exact Ht').
  split; [split; [exact Hzd | split; [exact Hwill | exact Hzs]]|].
  split.
  - subst up. rewrite (onMouseUp_document e' now (fst down) (snd down) Ht1).
    destruct (onMouseUp_clicks e' now (fst down) (snd down) Ht1) as [_ Hzu].
    rewrite Hzu, Htar, Hzs. cbn [Draggable.nullish negb].
    split; [|split; [|reflexivity]].
    + rewrite getStyleProp_set_ne by discriminate.
      apply getStyleProp_set_present. exact Hpresent1.
    + apply getStyleProp_set_present. apply setStyleProp_present. exact Hpresent1.
  - destruct (onMouseDown_captures e2 (fst down) (snd down))
      as (_ & _ & _ & _ & _ & _ & Hz2 & _).
    { rewrite Hsur. exact Ht2. }
    rewrite Hz2, Hzs. reflexivity.
Qed.

Lemma enforceLimit_top (h : HistoryManager) (st : list Change) (c : Change) :
  0 < maxSize h ->
  exists st', History.enforceLimit h (st ++ [c]) = st' ++ [c].
Proof.
  intros Hpos. unfold History.enforceLimit.
  destruct (Z.ltb_spec (maxSize h) (Z.of_nat (length (st ++ [c])))) as [Hlt|Hge].
  - destruct st as [|x st]; [simpl in Hlt; lia|]. exists st. reflexivity.
  - exists st. reflexivity.
Qed.


(** * Properties of positionElement *)

Lemma nudge_without_manager `{Utilities} (direction : string) (now : Z) (w : World)
    (p : Payload) :
  manager (Position.nudge direction false now w p) = manager w
  /\ delivered (Position.nudge direction false now w p) = delivered w.
Proof.
  unfold Position.nudge.
  destruct (Draggable.instanceofSVGElement (payloadEl p) (document w)); split; reflexivity.
Qed.

Lemma nudge_batching `{Utilities} (direction : string) (now : Z) (w : World)
    (p : Payload) :
  batchMode (manager w) = true ->
  exists c,
    changeElement c = Some (payloadEl p)
    /\ manager (Position.nudge direction true now w p)
       = History.withBatch (manager w) true (batchedChanges (manager w) ++ [c])
    /\ delivered (Position.nudge direction true now w p) = delivered w.
Proof.
  intros Hb. unfold Position.nudge.
  destruct (Draggable.instanceofSVGElement (payloadEl p) (document w)).
  - eexists. split; [|unfold History.push; cbn [manager]; rewrite Hb; split; reflexivity].
    reflexivity.
  - eexists. split; [|unfold History.push; rewrite Hb; split; reflexivity].
    reflexivity.
Qed.

Lemma nudges_batching `{Utilities} (direction : string) (now : Z)
    (ps : list Payload) :
  forall w : World,
    batchMode (manager w) = true ->
    exists cs,
      Forall2 (fun p c => changeElement c = Some (payloadEl p)) ps cs
      /\ manager (fold_left (Position.nudge direction true now) ps w)
         = History.withBatch (manager w) true (batchedChanges (manager w) ++ cs)
      /\ delivered (fold_left (Position.nudge direction true now) ps w) = delivered w.
Proof.
  induction ps as [|p ps IH]; intros w Hb.
  - exists []. split; [constructor|]. simpl. rewrite app_nil_r.
    split; [|reflexivity]. destruct (manager w). simpl in *. subst. reflexivity.
  - destruct (nudge_batching direction now w p Hb) as (c & Hc & Hm & Hl).
    destruct (IH (Position.nudge direction true now w p)) as (cs & Hcs & Hm' & Hl').
    { rewrite Hm. reflexivity. }
    exists (c :: cs). split; [constructor; assumption|].
    simpl. rewrite Hm', Hl', Hm, Hl. simpl. rewrite <- app_assoc. split; reflexivity.
Qed.

Lemma nudges_without_manager `{Utilities} (direction : string) (now : Z)
    (ps : list Payload) (w : World) :
  manager (fold_left (Position.nudge direction false now) ps w) = manager w
  /\ delivered (fold_left (Position.nudge direction false now) ps w) = delivered w.
Proof.
  revert w. induction ps as [|p ps IH]; intros w; [split; reflexivity|].
  simpl. destruct (IH (Position.nudge direction false now w p)) as [Hm Hl].
  destruct (nudge_without_manager direction now w p) as [Hm' Hl'].
  rewrite Hm, Hl, Hm', Hl'. split; reflexivity.
Qed.

Lemma payload_el `{Utilities} (direction : string) (d : Dom) (el : node) :
  payloadEl (Position.payload direction d el) = el.
Proof.
  unfold Position.payload.
  destruct (Position.extractCurrentValueAndSide el direction d). reflexivity.
Qed.


Lemma onlyAttributes_reads (f : Dom -> Dom) (d : Dom) (e : node) :
  onlyAttributes f ->
  connected e (f d) = connected e d
  /\ Draggable.instanceofSVGElement e (f d) = Draggable.instanceofSVGElement e d
  /\ Position.instanceofHTMLElement e (f d) = Position.instanceofHTMLElement e d
  /\ forall p, getStyleProp e p (f d) = getStyleProp e p d.
Proof.
  intros Hf. specialize (Hf d e).
  unfold connected, Draggable.instanceofSVGElement, Position.instanceofHTMLElement,
    getStyleProp.
  destruct (f d !! e) as [x'|], (d !! e) as [x|]; try contradiction.
  - destruct Hf as (H1 & H2 & H3). rewrite H1, H2, H3. repeat split.
  - repeat split.
Qed.

Lemma sideStyle_cases `{Utilities} (direction : string) :
  sideStyle direction = "top"%string \/ sideStyle direction = "left"%string.
Proof.
  unfold sideStyle. destruct (_ || _); [left | right]; reflexivity.
Qed.

(** One nudge of one connected HTML element. *)
Lemma single_nudge `{Utilities} (el : node) (direction : string) (now : Z) (w : World) :
  onlyAttributes (showHideSelected el) ->
  Draggable.instanceofSVGElement el (document w) = false ->
  connected el (document w) = true ->
  let style := sideStyle direction in
  let w' := Position.positionElement [el] direction true now w in
  manager w'
  = manager (History.push
               (One (StyleChange now (Some el) style
                                 (getStyleProp el style (document w))
                                 (getStyleProp el style (document w'))))
               now w)
  /\ Draggable.instanceofSVGElement el (document w') = false
  /\ connected el (document w') = true
  /\ getStyleProp el "position" (document w') = VStr "relative"
  /\ exists position, getStyleProp el style (document w')
                      = VStr (numToString position +:+ "px").
Proof.
  intros Hshow Hsvg Hconn style w'. subst w'.
  unfold Position.positionElement. cbn [length].
  rewrite bool_decide_eq_false_2 by lia. cbn [andb fold_left map].
  set (d1 := Position.ensurePositionable el (document w)).
  set (d2 := showHideSelected el d1).
  assert (Hpresent : exists x, document w !! el = Some x /\ isSVG x = false).
  { unfold connected in Hconn. unfold Draggable.instanceofSVGElement in Hsvg.
    destruct (document w !! el) as [x|]; [eauto | discriminate]. }
  destruct Hpresent as (x & Hx & Hxsvg).
  assert (Hd1 : d1 = setStyleProp el "position" (VStr "relative") (document w)).
  { subst d1. unfold Position.ensurePositionable, Position.instanceofHTMLElement.
    rewrite Hx, Hxsvg. reflexivity. }
  destruct (onlyAttributes_reads (showHideSelected el) d1 el Hshow)
    as (Hc2 & Hs2 & _ & Hp2). fold d2 in Hc2, Hs2, Hp2.
  assert (Hsvg2 : Draggable.instanceofSVGElement el d2 = false).
  { rewrite Hs2, Hd1, instanceofSVGElement_setStyleProp. exact Hsvg. }
  assert (Hconn2 : connected el d2 = true).
  { rewrite Hc2, Hd1, connected_setStyleProp. exact Hconn. }
  assert (Hstyle : payloadStyle (Position.payload direction d2 el) = style).
  { unfold Position.payload, Position.extractCurrentValueAndSide. rewrite Hsvg2.
    reflexivity. }
  unfold Position.nudge. cbn [document manager delivered].
  rewrite payload_el, Hsvg2, Hstyle.
  set (position := payloadPosition (Position.payload direction d2 el)).
  rewrite push_document. cbn [document manager].
  assert (Hstyle_ne : style <> "position"%string).
  { destruct (sideStyle_cases direction) as [E|E]; fold style in E; rewrite E; discriminate. }
  assert (Hold : getStyleProp el style d2 = getStyleProp el style (document w)).
  { rewrite Hp2, Hd1. apply getStyleProp_set_ne. exact Hstyle_ne. }
  rewrite (getStyleProp_set el style _ d2 Hconn2), Hold.
  split; [apply push_manager; reflexivity|].
  split; [rewrite instanceofSVGElement_setStyleProp; exact Hsvg2|].
  split; [rewrite connected_setStyleProp; exact Hconn2|].
  split; [|exists position; reflexivity].
  rewrite getStyleProp_set_ne by (intros E; apply Hstyle_ne; symmetry; exact E).
  rewrite Hp2, Hd1. apply getStyleProp_set. exact Hconn.
Qed.

Lemma push_appended (w : World) (c : Change) (now : Z) :
  batchMode (manager w) = false ->
  0 < maxSize (manager w) ->
  (forall top, last (undoStack (manager w)) = Some top -> isStyleChange top = false) ->
  exists st, undoStack (manager (History.push (One c) now w)) = st ++ [c]
             /\ redoStack (manager (History.push (One c) now w)) = []
             /\ batchMode (manager (History.push (One c) now w)) = false
             /\ maxSize (manager (History.push (One c) now w)) = maxSize (manager w).
Proof.
  intros Hb Hpos Htop.
  rewrite (push_unwrapped w (One c) now c Hb eq_refl). cbv zeta.
  destruct (enforceLimit_top (manager w) (undoStack (manager w)) c Hpos) as [st Hst].
  exists st.
  destruct (last (undoStack (manager w))) as [top|] eqn:E.
  - specialize (Htop top eq_refl).
    assert (Hno : Changes.canMerge top c = false) by (destruct top; try reflexivity; discriminate).
    rewrite Hno, manager_emit. simpl. rewrite Hst. repeat split. exact Hb.
  - rewrite manager_emit. simpl. rewrite Hst. repeat split. exact Hb.
Qed.


Lemma burst_of_nudges `{Utilities} (el : node) (direction : string) (rest : list Z) :
  onlyAttributes (showHideSelected el) ->
  forall (w : World) (st : list Change) (t : Z) (old : value),
    Draggable.instanceofSVGElement el (document w) = false ->
    connected el (document w) = true ->
    batchMode (manager w) = false ->
    undoStack (manager w)
    = st ++ [StyleChange t (Some el) (sideStyle direction) old
                         (getStyleProp el (sideStyle direction) (document w))] ->
    closeTimes t rest ->
    let w' := nudges el direction rest w in
    undoStack (manager w')
    = st ++ [StyleChange (default t (last rest)) (Some el) (sideStyle direction) old
                         (getStyleProp el (sideStyle direction) (document w'))]
    /\ connected el (document w') = true.
Proof.
  intros Hshow. induction rest as [|now rest IH]; intros w st t old Hsvg Hconn Hb Hst Hclose.
  - simpl. split; assumption.
  - destruct Hclose as [Hlt Hclose].
    destruct (single_nudge el direction now w Hshow Hsvg Hconn)
      as (Hm & Hsvg' & Hconn' & _ & _).
    set (w1 := Position.positionElement [el] direction true now w) in *.
    rewrite (push_merges w st t now now (Some el) (sideStyle direction) old _ _ _ Hb Hst Hlt)
      in Hm.
    change (nudges el direction (now :: rest) w) with (nudges el direction rest w1).
    destruct (IH w1 st now old Hsvg' Hconn') as [Hst' Hc'].
    { rewrite Hm. exact Hb. }
    { rewrite Hm. reflexivity. }
    { exact Hclose. }
    cbv zeta. rewrite Hst'. split; [|exact Hc'].
    destruct rest as [|now' rest]; [reflexivity|].
    change (last (now :: now' :: rest)) with (last (now' :: rest)).
    destruct (last (now' :: rest)) eqn:E; [reflexivity|].
    apply last_None in E. discriminate.
Qed.


(** * Properties of text.js *)

Lemma getTextContent_removeAttribute (e e' : node) (a : string) (d : Dom) :
  getTextContent e (removeAttribute e' a d) = getTextContent e d.
Proof.
  unfold getTextContent, removeAttribute.
  destruct (decide (e' = e)) as [->|Hne].
  - rewrite lookup_alter_eq. destruct (d !! e); reflexivity.
  - rewrite lookup_alter_ne by assumption. reflexivity.
Qed.

Lemma connected_removeAttribute (e e' : node) (a : string) (d : Dom) :
  connected e (removeAttribute e' a d) = connected e d.
Proof. unfold removeAttribute. apply connected_alter. reflexivity. Qed.

Lemma getTextContent_set (e : node) (v : value) (d : Dom) :
  connected e d = true -> getTextContent e (setTextContent e v d) = v.
Proof.
  unfold connected, getTextContent, setTextContent. intros Hc.
  rewrite lookup_alter_eq. destruct (d !! e); [reflexivity | discriminate].
Qed.


(** * Properties of font.js *)

Lemma alignment_table (current : value) (left : bool) :
  let new := Font.finalAlignment (Font.stepped Font.alignMap current left) in
  (current = VStr "start" \/ current = VStr "left" ->
   new = Some (if left then "left" else "center")%string)
  /\ (current = VStr "center" -> new = Some (if left then "left" else "right")%string)
  /\ (current = VStr "right" -> new = Some (if left then "center" else "right")%string)
  /\ (at_key Font.alignMap current = None -> new = None).
Proof.
  cbv zeta. repeat split.
  - intros [-> | ->]; destruct left; reflexivity.
  - intros ->; destruct left; reflexivity.
  - intros ->; destruct left; reflexivity.
  - intros E. unfold Font.stepped. rewrite E. reflexivity.
Qed.


Lemma weight_table (n : Z) (down : bool) :
  1 <= n <= 10 ->
  Font.finalWeight (Font.stepped Font.weightMap (VStr (pretty (100 * n))) down)
  = if down then Some (100 * Z.max 1 (n - 1))
    else if Z.eqb n 10 then None else Some (100 * (n + 1)).
Proof.
  intros Hn.
  assert (Hcases : n = 1 \/ n = 2 \/ n = 3 \/ n = 4 \/ n = 5 \/ n = 6 \/ n = 7 \/ n = 8
                   \/ n = 9 \/ n = 10) by lia.
  destruct down;
    repeat (destruct Hcases as [-> | Hcases]; [vm_compute; reflexivity|]);
    subst n; vm_compute; reflexivity.
Qed.


(** * Reading back a translation *)

Lemma index_char_skip (c : ascii) (s1 s2 : string) :
  absent c s1 ->
  String.index 0 (String c EmptyString) (s1 +:+ String c s2) = Some (String.length s1).
Proof.
  induction s1 as [|a s1 IH]; intros Hno.
  - simpl. destruct (ascii_dec c c); [|congruence].
    destruct s2; reflexivity.
  - assert (Ha : a <> c) by (intros ->; apply (Hno 0%nat); reflexivity).
    assert (Hrest : forall n, String.get n s1 <> Some c) by (intros n; apply (Hno (S n))).
    change ((String a s1) +:+ String c s2) with (String a (s1 +:+ String c s2)).
    cbn [String.index String.prefix].
    destruct (ascii_dec c a) as [|_]; [congruence|].
    rewrite (IH Hrest). reflexivity.
Qed.

Lemma index_char_absent (c : ascii) (s : string) :
  absent c s ->
  String.index 0 (String c EmptyString) s = None.
Proof.
  induction s as [|a s IH]; intros Hno; [reflexivity|].
  assert (Ha : a <> c) by (intros ->; apply (Hno 0%nat); reflexivity).
  cbn [String.index String.prefix]. destruct (ascii_dec c a) as [|_]; [congruence|].
  rewrite IH; [reflexivity|]. intros n. apply (Hno (S n)).
Qed.

Lemma absent_cons (c a : ascii) (s : string) :
  a <> c -> absent c s -> absent c (String a s).
Proof. intros Ha Hs [|n]; simpl; [congruence | apply Hs]. Qed.

Lemma absent_nil (c : ascii) : absent c EmptyString.
Proof. intros [|n]; discriminate. Qed.

Lemma absent_append (c : ascii) (p q : string) :
  absent c p -> absent c q -> absent c (p +:+ q).
Proof.
  induction p as [|a p IH]; intros Hp Hq; [exact Hq|].
  change (String a p +:+ q) with (String a (p +:+ q)).
  apply absent_cons.
  - intros ->. apply (Hp 0%nat). reflexivity.
  - apply IH; [|exact Hq]. intros n. apply (Hp (S n)).
Qed.

Lemma plain_absent (s : string) :
  plain s = true ->
  absent "("%char s /\ absent ")"%char s /\ absent ","%char s.
Proof.
  induction s as [|a s IH]; intros Hp; [repeat split; apply absent_nil|].
  simpl in Hp. apply andb_true_iff in Hp as [Hp Hs].
  apply andb_true_iff in Hp as [Hp H3]. apply andb_true_iff in Hp as [H1 H2].
  apply negb_true_iff, Ascii.eqb_neq in H1, H2, H3.
  destruct (IH Hs) as (I1 & I2 & I3).
  repeat split; apply absent_cons; assumption.
Qed.

Lemma substring_middle (p m q : string) :
  String.substring (String.length p) (String.length m) (p +:+ m +:+ q) = m.
Proof.
  induction p as [|a p IH]; [|exact IH].
  change ("" +:+ m +:+ q) with (m +:+ q). cbn [String.length].
  induction m as [|b m IHm]; [destruct q; reflexivity|].
  change (String b m +:+ q) with (String b (m +:+ q)).
  cbn [String.length String.substring]. rewrite IHm. reflexivity.
Qed.

Lemma length_append (s t : string) :
  String.length (s +:+ t) = (String.length s + String.length t)%nat.
Proof. induction s as [|a s IH]; simpl; [reflexivity | rewrite IH; reflexivity]. Qed.

Lemma splitComma_plain (s : string) : absent ","%char s -> splitComma s = [s].
Proof.
  induction s as [|a s IH]; intros Hno; [reflexivity|].
  assert (Ha : a <> ","%char) by (intros ->; apply (Hno 0%nat); reflexivity).
  simpl. apply Ascii.eqb_neq in Ha. rewrite Ha.
  rewrite IH; [reflexivity|]. intros n. apply (Hno (S n)).
Qed.

Lemma splitComma_pair (a b : string) :
  absent ","%char a -> absent ","%char b ->
  splitComma (a +:+ String ","%char b) = [a; b].
Proof.
  intros Ha Hb. induction a as [|c a IH].
  - simpl. rewrite (splitComma_plain b Hb). reflexivity.
  - assert (Hc : c <> ","%char) by (intros ->; apply (Ha 0%nat); reflexivity).
    change ((String c a) +:+ String "," b) with (String c (a +:+ String "," b)).
    cbn [splitComma]. apply Ascii.eqb_neq in Hc. rewrite Hc.
    rewrite IH; [reflexivity|]. intros n. apply (Ha (S n)).
Qed.

Lemma extractSVGTranslate_pair `{Browser} (a b : string) :
  plain a = true -> plain b = true ->
  Draggable.extractSVGTranslate ("translate(" +:+ (a +:+ "," +:+ b) +:+ ")")
  = [parseFloat a; parseFloat b].
Proof.
  intros Ha Hb.
  destruct (plain_absent a Ha) as (_ & Ha2 & Ha3).
  destruct (plain_absent b Hb) as (_ & Hb2 & Hb3).
  set (body := a +:+ "," +:+ b).
  assert (Hbody : absent ")"%char body).
  { subst body. apply absent_append; [exact Ha2|].
    apply absent_cons; [discriminate | exact Hb2]. }
  unfold Draggable.extractSVGTranslate, indexOf.
  assert (Hopen : String.index 0 "(" ("translate(" +:+ body +:+ ")") = Some 9%nat).
  { change ("translate(" +:+ body +:+ ")")
      with (String "t" (String "r" (String "a" (String "n" (String "s" (String "l"
             (String "a" (String "t" (String "e" (String "("
               (body +:+ String ")"%char EmptyString))))))))))).
    cbn [String.index String.prefix].
    repeat match goal with
           | |- context [ascii_dec ?x ?y] =>
               destruct (ascii_dec x y); try congruence
           end.
    replace (String.prefix "" (body +:+ ")")) with true
      by (destruct (body +:+ ")"); reflexivity).
    reflexivity. }
  assert (Hclose : String.index 0 ")" ("translate(" +:+ body +:+ ")")
                   = Some (10 + String.length body)%nat).
  { change ("translate(" +:+ body +:+ ")")
      with (String "t" (String "r" (String "a" (String "n" (String "s" (String "l"
             (String "a" (String "t" (String "e" (String "("
               (body +:+ String ")"%char EmptyString))))))))))).
    cbn [String.index String.prefix].
    repeat match goal with
           | |- context [ascii_dec ?x ?y] => destruct (ascii_dec x y); [discriminate|]
           end.
    rewrite (index_char_skip ")"%char body EmptyString Hbody). reflexivity. }
  rewrite Hopen, Hclose. unfold substring.
  assert (Hlen : String.length ("translate(" +:+ body +:+ ")")
                 = (11 + String.length body)%nat).
  { change ("translate(" +:+ body +:+ ")")
      with (String "t" (String "r" (String "a" (String "n" (String "s" (String "l"
             (String "a" (String "t" (String "e" (String "(" (body +:+ ")"))))))))))).
    cbn [String.length]. rewrite length_append. simpl. lia. }
  rewrite Hlen.
  replace (Z.to_nat _) with (String.length "translate(") by (simpl; lia).
  replace (Z.to_nat _) with (String.length body) by lia.
  rewrite substring_middle. subst body.
  change ("," +:+ b) with (String ","%char b).
  rewrite (splitComma_pair a b Ha3 Hb3). reflexivity.
Qed.

Lemma append_assoc_string (s1 s2 s3 : string) :
  (s1 +:+ s2) +:+ s3 = s1 +:+ (s2 +:+ s3).
Proof.
  induction s1 as [|c s1 IH]; [reflexivity|].
  change (String c ((s1 +:+ s2) +:+ s3) = String c (s1 +:+ (s2 +:+ s3))).
  rewrite IH. reflexivity.
Qed.

Lemma plain_append (s t : string) : plain (s +:+ t) = plain s && plain t.
Proof.
  induction s as [|c s IH]; [reflexivity|].
  change (String c s +:+ t) with (String c (s +:+ t)). cbn [plain].
  rewrite IH, andb_assoc. reflexivity.
Qed.

(** X22.  [extractSVGTranslate] reads back a translation written as
    [translate(a,b)]: when [a] and [b] hold no parenthesis and no comma, the
    result is [parseFloat a] and [parseFloat b], in this order, whatever
    spaces and line breaks they hold.  So the [transform] that a mouse-move
    writes, over several lines, is read back as its two coordinates, each
    passed to [parseFloat] with the line break and the spaces written
    around it.  A string with no parenthesis at all gives the single entry
    [parseFloat ""]. *)
Theorem X22_extract_translate `{Browser} (a b s : string) :
  (plain a = true -> plain b = true ->
   Draggable.extractSVGTranslate ("translate(" +:+ (a +:+ "," +:+ b) +:+ ")")
   = [parseFloat a; parseFloat b])
  /\ (plain a = true -> plain b = true ->
      Draggable.extractSVGTranslate (translateTemplate a b)
      = [parseFloat (newline +:+ "        " +:+ a);
         parseFloat (newline +:+ "        " +:+ b +:+ newline +:+ "      ")])
  /\ (absent "("%char s -> absent ")"%char s ->
      Draggable.extractSVGTranslate s = [parseFloat ""]).
Proof.
  split; [exact (extractSVGTranslate_pair a b)|]. split.
  - intros Ha Hb.
    rewrite <- (extractSVGTranslate_pair (newline +:+ "        " +:+ a)
                  (newline +:+ "        " +:+ b +:+ newline +:+ "      ")).
    + unfold translateTemplate. rewrite !append_assoc_string. reflexivity.
    + rewrite !plain_append, Ha. reflexivity.
    + rewrite !plain_append, Hb. reflexivity.
  - intros Hopen Hclose. unfold Draggable.extractSVGTranslate, indexOf.
    rewrite (index_char_absent "("%char s Hopen), (index_char_absent ")"%char s Hclose).
    unfold substring.
    replace (Z.to_nat _) with 0%nat by lia.
    replace (Z.to_nat _) with 0%nat by lia.
    destruct s; reflexivity.
Qed.

(** ** draggable: the position during a drag *)

Lemma getAttribute_set_present (e : node) (a : string) (v : value) (d : Dom) :
  is_Some (d !! e) -> getAttribute e a (setAttribute e a v d) = VStr (toString v).
Proof.
  intros [x Hx]. unfold getAttribute, setAttribute.
  rewrite lookup_alter_eq, Hx. simpl. rewrite lookup_insert_eq. reflexivity.
Qed.

Lemma connected_present (e : node) (d : Dom) :
  connected e d = true -> is_Some (d !! e).
Proof.
  unfold connected. destruct (d !! e); [eexists; reflexivity | discriminate].
Qed.

Lemma onMouseMove_frame `{Browser} (e : MouseEvent) (s : DragState) (w : World) :
  mouseDown s = true ->
  let r := Draggable.onMouseMove e s w in
  (target (fst r) = target s /\ mouseDown (fst r) = true
   /\ mouseX (fst r) = mouseX s /\ mouseY (fst r) = mouseY s
   /\ elementX (fst r) = elementX s /\ elementY (fst r) = elementY s)
  /\ Draggable.instanceofSVGElement (target s) (document (snd r))
     = Draggable.instanceofSVGElement (target s) (document w)
  /\ (is_Some (document w !! target s) -> is_Some (document (snd r) !! target s)).
Proof.
  intros Hdown r. subst r. unfold Draggable.onMouseMove. rewrite Hdown.
  cbn [negb fst snd target mouseDown mouseX mouseY elementX elementY document].
  split; [repeat split; assumption|].
  destruct (Draggable.instanceofSVGElement (target s) (document w)) eqn:Hk.
  - split.
    + unfold Draggable.instanceofSVGElement, setAttribute in *.
      rewrite lookup_alter_eq. destruct (document w !! target s); [exact Hk | discriminate Hk].
    + intros [x Hx]. unfold setAttribute. rewrite lookup_alter_eq, Hx. eexists; reflexivity.
  - split.
    + rewrite !instanceofSVGElement_setStyleProp. exact Hk.
    + intros Hx. apply setStyleProp_present, setStyleProp_present. exact Hx.
Qed.

Lemma mouseMoves_frame `{Browser} (es : list MouseEvent) (s : DragState) (w : World) :
  mouseDown s = true ->
  let r := mouseMoves es (s, w) in
  (target (fst r) = target s /\ mouseDown (fst r) = true
   /\ mouseX (fst r) = mouseX s /\ mouseY (fst r) = mouseY s
   /\ elementX (fst r) = elementX s /\ elementY (fst r) = elementY s)
  /\ Draggable.instanceofSVGElement (target s) (document (snd r))
     = Draggable.instanceofSVGElement (target s) (document w)
  /\ (is_Some (document w !! target s) -> is_Some (document (snd r) !! target s)).
Proof.
  revert s w. induction es as [|e es IH]; intros s w Hdown.
  - simpl. split; [repeat split; assumption|]. split; [reflexivity | tauto].
  - change (mouseMoves (e :: es) (s, w))
      with (mouseMoves es (Draggable.onMouseMove e s w)).
    destruct (onMouseMove_frame e s w Hdown) as ((Ht & Hd & Hx & Hy & Hex & Hey) & Hk & Hp).
    cbv zeta in *.
    destruct (Draggable.onMouseMove e s w) as [s1 w1]. cbn [fst snd] in *.
    destruct (IH s1 w1 Hd) as ((Ht' & Hd' & Hx' & Hy' & Hex' & Hey') & Hk' & Hp').
    cbv zeta in *. rewrite Ht in Hk', Hp'.
    split; [repeat split; congruence|].
    split; [congruence | tauto].
Qed.

(** X23.  During a drag the element follows the last mouse-move only.
    While the mouse is not down, mouse-moves change nothing.  While it is
    down, after any number of mouse-moves the inline [left] and [top] of an
    HTML element (the [transform] of an SVG element) are the position
    captured at the mouse-down plus the distance of the last event from the
    mouse-down point: the moves in between leave no trace, and neither the
    captured position nor the mouse-down point is changed by a move. *)
Theorem X23_last_move_wins `{Browser} (es : list MouseEvent) (e : MouseEvent)
    (s : DragState) (w : World) :
  let r := mouseMoves (es ++ [e]) (s, w) in
  let el := target s in
  let nx := numToString (numSub (numAdd (elementX s) (clientX e)) (mouseX s)) in
  let ny := numToString (numSub (numAdd (elementY s) (clientY e)) (mouseY s)) in
  (mouseDown s = false -> r = (s, w))
  /\ (mouseDown s = true -> is_Some (document w !! el) ->
      (if Draggable.instanceofSVGElement el (document w)
       then getAttribute el "transform" (document (snd r))
            = VStr (translateTemplate nx ny)
       else getStyleProp el "left" (document (snd r)) = VStr (nx +:+ "px")
            /\ getStyleProp el "top" (document (snd r)) = VStr (ny +:+ "px"))
      /\ (mouseX (fst r), mouseY (fst r), elementX (fst r), elementY (fst r))
         = (mouseX s, mouseY s, elementX s, elementY s)).
Proof.
  intros r el nx ny. subst r. split.
  - intros Hup. generalize (es ++ [e]). intros l. induction l as [|e1 l IH]; [reflexivity|].
    change (mouseMoves (e1 :: l) (s, w)) with (mouseMoves l (Draggable.onMouseMove e1 s w)).
    unfold Draggable.onMouseMove at 1. rewrite Hup. exact IH.
  - intros Hdown Hx.
    unfold mouseMoves. rewrite fold_left_app. fold (mouseMoves es (s, w)).
    destruct (mouseMoves_frame es s w Hdown) as ((Ht & Hd & Hmx & Hmy & Hex & Hey) & Hk & Hp).
    cbv zeta in *. specialize (Hp Hx).
    destruct (mouseMoves es (s, w)) as [s1 w1]. cbn [fst snd fold_left] in *.
    unfold Draggable.onMouseMove. rewrite Hd.
    cbn [negb fst snd mouseX mouseY elementX elementY document].
    rewrite Ht, Hmx, Hmy, Hex, Hey, Hk. fold el nx ny. fold el in Hp.
    split; [|reflexivity].
    destruct (Draggable.instanceofSVGElement el (document w)).
    + rewrite getAttribute_set_present by exact Hp. reflexivity.
    + split.
      * rewrite getStyleProp_set_ne by discriminate.
        apply getStyleProp_set_present. exact Hp.
      * apply getStyleProp_set_present. apply setStyleProp_present. exact Hp.
Qed.

Lemma X23_last_move_wins_witness :
  let s := fst diagonalDrag in
  let w := snd diagonalDrag in
  let r := mouseMoves ([mouseAt 90 90; mouseAt 0 0] ++ [mouseAt 11 12]) (s, w) in
  (mouseDown s = true /\ is_Some (document w !! target s))
  /\ getStyleProp 1 "left" (document (snd r)) = VStr "1px"
  /\ getStyleProp 1 "top" (document (snd r)) = VStr "2px".
Proof.
  intros s w r.
  assert (Hd : mouseDown s = true) by reflexivity.
  assert (Hx : is_Some (document w !! target s))
    by (apply connected_present; reflexivity).
  destruct (@X23_last_move_wins wholeBrowser [mouseAt 90 90; mouseAt 0 0] (mouseAt 11 12) s w)
    as (_ & Hlast).
  destruct (Hlast Hd Hx) as (Hpos & _).
  split; [exact (conj Hd Hx)|]. exact Hpos.
Defined.

(** * Listeners that throw *)

(** ** The manager of [History] is the manager of [Throwing] as long as no listener throws *)

Lemma forEach_quiet (throws : callback -> Snapshot -> bool) (cbs : list callback)
    (data : Snapshot) :
  Forall (fun cb => forall data, throws cb data = false) cbs ->
  Throwing.forEach throws cbs data = (map (fun cb => (cb, data)) cbs, false).
Proof.
  induction 1 as [|cb cbs Hcb _ IH]; [reflexivity|].
  simpl. rewrite Hcb, IH. reflexivity.
Qed.

Lemma forEach_thrower (throws : callback -> Snapshot -> bool)
    (before after : list callback) (cb : callback) (data : Snapshot) :
  Forall (fun c => throws c data = false) before ->
  throws cb data = true ->
  Throwing.forEach throws (before ++ cb :: after) data
  = (map (fun c => (c, data)) (before ++ [cb]), true).
Proof.
  intros Hbefore Hcb. induction Hbefore as [|c before Hc _ IH]; simpl.
  - rewrite Hcb. reflexivity.
  - rewrite Hc, IH. reflexivity.
Qed.

Lemma emit_manager (throws : callback -> Snapshot -> bool) (event : string)
    (data : Snapshot) (g : Throwing.World) :
  Throwing.manager (fst (Throwing.emit throws event data g)) = Throwing.manager g
  /\ Throwing.document (fst (Throwing.emit throws event data g)) = Throwing.document g.
Proof.
  unfold Throwing.emit. destruct (Throwing.listeners (Throwing.manager g) !! event);
    split; reflexivity.
Qed.

Lemma emit_quiet (throws : callback -> Snapshot -> bool) (data : Snapshot)
    (g : Throwing.World) :
  quiet throws (Throwing.listeners (Throwing.manager g)) ->
  Throwing.emit throws "change" data g
  = (Throwing.mkWorld (Throwing.manager g) (Throwing.document g)
       (Throwing.delivered g
        ++ map (fun cb => (cb, data))
               (default [] (Throwing.listeners (Throwing.manager g) !! "change"%string))),
     false).
Proof.
  intros Hq. unfold Throwing.emit.
  destruct (Throwing.listeners (Throwing.manager g) !! "change"%string) as [cbs|] eqn:E.
  - rewrite (forEach_quiet throws cbs data (Hq cbs E)). reflexivity.
  - simpl. rewrite app_nil_r. destruct g; reflexivity.
Qed.

Lemma state_lift (h : HistoryManager) : Throwing.state (liftManager h) = History.state h.
Proof.
  unfold Throwing.state, History.state, Throwing.canUndo, Throwing.canRedo,
    History.canUndo, History.canRedo. simpl. rewrite !length_fmap. reflexivity.
Qed.

Lemma enforceLimit_lift (h : HistoryManager) (st : list Change) :
  Throwing.enforceLimit (liftManager h) (Throwing.Held <$> st)
  = Throwing.Held <$> History.enforceLimit h st.
Proof.
  unfold Throwing.enforceLimit, History.enforceLimit. simpl. rewrite length_fmap.
  destruct (maxSize h <? Z.of_nat (length st)); [|reflexivity].
  destruct st; reflexivity.
Qed.

Lemma settle_lift (h : Throwing.Manager) (st : list Change) :
  (fun e => Throwing.Held (Throwing.resolve h e)) <$> (Throwing.Held <$> st)
  = Throwing.Held <$> st.
Proof. rewrite <- list_fmap_compose. reflexivity. Qed.

Lemma emit_lift (throws : callback -> Snapshot -> bool) (data : Snapshot) (w : World) :
  quiet throws (listeners (manager w)) ->
  Throwing.emit throws "change" data (lift w)
  = (lift (History.emit "change" data w), false).
Proof.
  intros Hq. rewrite emit_quiet by exact Hq. rewrite emit_world. reflexivity.
Qed.

Lemma push_lift (throws : callback -> Snapshot -> bool) (arg : PushArg) (now : Z)
    (w : World) :
  quiet throws (listeners (manager w)) ->
  Throwing.push throws arg now (lift w) = (lift (History.push arg now w), false).
Proof.
  intros Hq. destruct w as [h d l]. unfold Throwing.push, History.push.
  cbn [lift manager Throwing.manager liftManager Throwing.batchMode Throwing.undoStack
       Throwing.batchedChanges].
  destruct (batchMode h) eqn:Hb.
  { destruct arg; unfold lift, liftManager, Throwing.withManager, Throwing.withBuffer;
      simpl; rewrite Hb; reflexivity. }
  assert (Hpushed : forall change,
    Throwing.emit throws "change"
      (Throwing.state
         (Throwing.withStacks (liftManager h)
            (Throwing.enforceLimit (liftManager h)
               ((Throwing.Held <$> undoStack h) ++ [Throwing.Held change])) []))
      (Throwing.withManager (lift (mkWorld h d l))
         (Throwing.withStacks (liftManager h)
            (Throwing.enforceLimit (liftManager h)
               ((Throwing.Held <$> undoStack h) ++ [Throwing.Held change])) []))
    = (lift (History.emit "change"
               (History.state (History.withStacks h
                  (History.enforceLimit h (undoStack h ++ [change])) []))
               (History.withManager (mkWorld h d l)
                  (History.withStacks h
                     (History.enforceLimit h (undoStack h ++ [change])) []))), false)).
  { intros change.
    change ((Throwing.Held <$> undoStack h) ++ [Throwing.Held change])
      with ((Throwing.Held <$> undoStack h) ++ (Throwing.Held <$> [change])).
    rewrite <- fmap_app, enforceLimit_lift.
    rewrite emit_quiet by exact Hq. rewrite emit_world.
    rewrite <- (state_lift (History.withStacks h
                             (History.enforceLimit h (undoStack h ++ [change])) [])).
    reflexivity. }
  set (unwrapped := match arg with
                    | One c => Some c
                    | Many [] => None
                    | Many [c] => Some c
                    | Many cs => Some (BatchChange now cs)
                    end).
  destruct unwrapped as [change|]; [|reflexivity].
  rewrite fmap_last. destruct (last (undoStack h)) as [lastChange|]; simpl.
  - destruct (Changes.canMerge lastChange change); [|apply Hpushed].
    unfold lift, liftManager. simpl. rewrite list_fmap_insert, length_fmap. reflexivity.
  - apply Hpushed.
Qed.

Lemma push_stacks (throws : callback -> Snapshot -> bool) (arg : PushArg) (now : Z)
    (w : World) :
  Throwing.manager (fst (Throwing.push throws arg now (lift w)))
  = liftManager (manager (History.push arg now w))
  /\ Throwing.document (fst (Throwing.push throws arg now (lift w))) = document w.
Proof.
  destruct w as [h d l]. unfold Throwing.push, History.push.
  cbn [lift manager Throwing.manager liftManager Throwing.batchMode Throwing.undoStack
       Throwing.batchedChanges].
  destruct (batchMode h) eqn:Hb.
  { destruct arg; unfold lift, liftManager, Throwing.withManager, Throwing.withBuffer;
      simpl; rewrite Hb; split; reflexivity. }
  set (unwrapped := match arg with
                    | One c => Some c
                    | Many [] => None
                    | Many [c] => Some c
                    | Many cs => Some (BatchChange now cs)
                    end).
  destruct unwrapped as [change|]; [|split; reflexivity].
  assert (Hpushed :
    Throwing.manager (fst (Throwing.emit throws "change"
      (Throwing.state
         (Throwing.withStacks (liftManager h)
            (Throwing.enforceLimit (liftManager h)
               ((Throwing.Held <$> undoStack h) ++ [Throwing.Held change])) []))
      (Throwing.withManager (lift (mkWorld h d l))
         (Throwing.withStacks (liftManager h)
            (Throwing.enforceLimit (liftManager h)
               ((Throwing.Held <$> undoStack h) ++ [Throwing.Held change])) []))))
    = liftManager (manager (History.emit "change"
               (History.state (History.withStacks h
                  (History.enforceLimit h (undoStack h ++ [change])) []))
               (History.withManager (mkWorld h d l)
                  (History.withStacks h
                     (History.enforceLimit h (undoStack h ++ [change])) []))))
    /\ Throwing.document (fst (Throwing.emit throws "change"
      (Throwing.state
         (Throwing.withStacks (liftManager h)
            (Throwing.enforceLimit (liftManager h)
               ((Throwing.Held <$> undoStack h) ++ [Throwing.Held change])) []))
      (Throwing.withManager (lift (mkWorld h d l))
         (Throwing.withStacks (liftManager h)
            (Throwing.enforceLimit (liftManager h)
               ((Throwing.Held <$> undoStack h) ++ [Throwing.Held change])) [])))) = d).
  { match goal with
    | |- context [Throwing.emit throws ?ev ?data ?g] =>
        destruct (emit_manager throws ev data g) as [Hm Hd]; rewrite Hm, Hd
    end.
    rewrite emit_world.
    change ((Throwing.Held <$> undoStack h) ++ [Throwing.Held change])
      with ((Throwing.Held <$> undoStack h) ++ (Throwing.Held <$> [change])).
    rewrite <- fmap_app, enforceLimit_lift. split; reflexivity. }
  rewrite fmap_last. destruct (last (undoStack h)) as [lastChange|]; simpl.
  - destruct (Changes.canMerge lastChange change); [|exact Hpushed].
    unfold lift, liftManager. simpl. rewrite list_fmap_insert, length_fmap.
    split; reflexivity.
  - exact Hpushed.
Qed.

Lemma beginBatch_lift (w : World) :
  Throwing.beginBatch (lift w) = lift (History.beginBatch w).
Proof.
  unfold Throwing.beginBatch, History.beginBatch, lift, liftManager,
    Throwing.withManager, Throwing.newBuffer. simpl.
  rewrite !settle_lift. reflexivity.
Qed.

Lemma settle_enforceLimit (hm hm' : Throwing.Manager) (h : HistoryManager)
    (st : list Throwing.Entry) :
  Throwing.maxSize hm' = maxSize h ->
  (fun e => Throwing.Held (Throwing.resolve hm e)) <$> Throwing.enforceLimit hm' st
  = Throwing.Held <$> History.enforceLimit h (Throwing.resolve hm <$> st).
Proof.
  intros Hm. unfold Throwing.enforceLimit, History.enforceLimit.
  rewrite Hm, length_fmap.
  destruct (maxSize h <? Z.of_nat (length st)).
  - destruct st; simpl; [reflexivity|]. rewrite <- list_fmap_compose. reflexivity.
  - rewrite <- list_fmap_compose. reflexivity.
Qed.

Lemma resolve_lift (hm : Throwing.Manager) (st : list Change) :
  Throwing.resolve hm <$> (Throwing.Held <$> st) = st.
Proof. rewrite <- list_fmap_compose. apply list_fmap_id. Qed.

Lemma state_by_length (hm : Throwing.Manager) (h : HistoryManager) :
  length (Throwing.undoStack hm) = length (undoStack h) ->
  length (Throwing.redoStack hm) = length (redoStack h) ->
  Throwing.batchMode hm = batchMode h ->
  Throwing.state hm = History.state h.
Proof.
  intros Hu Hr Hb.
  unfold Throwing.state, History.state, Throwing.canUndo, Throwing.canRedo,
    History.canUndo, History.canRedo. rewrite Hu, Hr, Hb. reflexivity.
Qed.

Lemma enforceLimit_same_length (hm : Throwing.Manager) (h : HistoryManager)
    (st : list Throwing.Entry) (st' : list Change) :
  Throwing.maxSize hm = maxSize h -> length st = length st' ->
  length (Throwing.enforceLimit hm st) = length (History.enforceLimit h st').
Proof.
  intros Hm Hl. unfold Throwing.enforceLimit, History.enforceLimit. rewrite Hm, Hl.
  destruct (maxSize h <? Z.of_nat (length st')); [|exact Hl].
  destruct st, st'; simpl in *; congruence.
Qed.

Lemma endBatch_lift (throws : callback -> Snapshot -> bool) (now : Z) (w : World) :
  quiet throws (listeners (manager w)) ->
  Throwing.endBatch throws now (lift w) = (lift (History.endBatch now w), false).
Proof.
  intros Hq. destruct w as [h d l]. unfold Throwing.endBatch, History.endBatch.
  cbn [lift manager Throwing.manager liftManager Throwing.batchedChanges
       Throwing.undoStack].
  destruct (bool_decide (0 < length (batchedChanges h))%nat).
  - rewrite emit_quiet by exact Hq. rewrite emit_world.
    cbn [fst snd Throwing.manager manager].
    unfold lift, liftManager, Throwing.withManager, Throwing.newBuffer,
      History.withManager, History.withBatch, Throwing.withStacks, History.withStacks.
    cbn [Throwing.undoStack Throwing.redoStack Throwing.maxSize Throwing.batchMode
         Throwing.batchedChanges Throwing.mergeTimeout Throwing.listeners
         Throwing.manager Throwing.document Throwing.delivered
         undoStack redoStack maxSize batchMode batchedChanges mergeTimeout listeners
         manager document delivered fmap list_fmap].
    rewrite (settle_enforceLimit _ _ h) by reflexivity.
    rewrite fmap_app, resolve_lift.
    match goal with
    | |- context [Throwing.state ?hm] =>
        rewrite (state_by_length hm
                   (mkHistoryManager
                      (History.enforceLimit h
                         (undoStack h ++ [BatchChange now (batchedChanges h)]))
                      [] (maxSize h) (batchMode h) (batchedChanges h)
                      (mergeTimeout h) (listeners h)))
    end; [reflexivity | | reflexivity | reflexivity].
    apply enforceLimit_same_length; [reflexivity|].
    rewrite !length_app, length_fmap. reflexivity.
  - unfold lift, liftManager, Throwing.withManager, Throwing.newBuffer. simpl.
    rewrite !settle_lift. reflexivity.
Qed.

(** ** undo() and redo() with listeners that may throw *)

Lemma canUndo_entries (h : Throwing.Manager) (rest : list Throwing.Entry)
    (e : Throwing.Entry) :
  Throwing.undoStack h = rest ++ [e] -> Throwing.canUndo h = true.
Proof.
  intros E. unfold Throwing.canUndo. rewrite E, length_app. simpl.
  apply bool_decide_eq_true_2. lia.
Qed.

Lemma canRedo_entries (h : Throwing.Manager) (rest : list Throwing.Entry)
    (e : Throwing.Entry) :
  Throwing.redoStack h = rest ++ [e] -> Throwing.canRedo h = true.
Proof.
  intros E. unfold Throwing.canRedo. rewrite E, length_app. simpl.
  apply bool_decide_eq_true_2. lia.
Qed.

Lemma undo_of_empty `{TreeApi} (throws : callback -> Snapshot -> bool)
    (g : Throwing.World) :
  Throwing.undoStack (Throwing.manager g) = [] -> Throwing.undo throws g = (false, g).
Proof. intros E. unfold Throwing.undo, Throwing.canUndo. rewrite E. reflexivity. Qed.

Lemma redo_of_empty `{TreeApi} (throws : callback -> Snapshot -> bool)
    (g : Throwing.World) :
  Throwing.redoStack (Throwing.manager g) = [] -> Throwing.redo throws g = (false, g).
Proof. intros E. unfold Throwing.redo, Throwing.canRedo. rewrite E. reflexivity. Qed.

Lemma undo_of_failure `{TreeApi} (throws : callback -> Snapshot -> bool)
    (g : Throwing.World) (rest : list Throwing.Entry) (e : Throwing.Entry) (d : Dom) :
  Throwing.undoStack (Throwing.manager g) = rest ++ [e] ->
  Changes.undo (Throwing.resolve (Throwing.manager g) e) (Throwing.document g) = Raised d ->
  Throwing.undo throws g
  = (false, Throwing.mkWorld (Throwing.manager g) d (Throwing.delivered g)).
Proof.
  intros E Hd. unfold Throwing.undo.
  rewrite (canUndo_entries _ rest e E). simpl. rewrite E, pop_snoc, Hd.
  rewrite <- E. destruct g as [[] ? ?]; reflexivity.
Qed.

Lemma redo_of_failure `{TreeApi} (throws : callback -> Snapshot -> bool)
    (g : Throwing.World) (rest : list Throwing.Entry) (e : Throwing.Entry) (d : Dom) :
  Throwing.redoStack (Throwing.manager g) = rest ++ [e] ->
  Changes.redo (Throwing.resolve (Throwing.manager g) e) (Throwing.document g) = Raised d ->
  Throwing.redo throws g
  = (false, Throwing.mkWorld (Throwing.manager g) d (Throwing.delivered g)).
Proof.
  intros E Hd. unfold Throwing.redo.
  rewrite (canRedo_entries _ rest e E). simpl. rewrite E, pop_snoc, Hd.
  rewrite <- E. destruct g as [[] ? ?]; reflexivity.
Qed.

Lemma undo_of_success `{TreeApi} (throws : callback -> Snapshot -> bool)
    (g : Throwing.World) (rest : list Throwing.Entry) (e : Throwing.Entry) (d : Dom) :
  Throwing.undoStack (Throwing.manager g) = rest ++ [e] ->
  Changes.undo (Throwing.resolve (Throwing.manager g) e) (Throwing.document g)
  = Returned d ->
  quiet throws (Throwing.listeners (Throwing.manager g)) ->
  let h := Throwing.manager g in
  let h' := Throwing.withStacks h rest (Throwing.redoStack h ++ [e]) in
  Throwing.undo throws g
  = (true,
     Throwing.mkWorld h' d
       (Throwing.delivered g
        ++ map (fun cb => (cb, Throwing.state h'))
               (default [] (Throwing.listeners h !! "change"%string)))).
Proof.
  intros E Hd Hq h h'. unfold Throwing.undo.
  rewrite (canUndo_entries _ rest e E). simpl. rewrite E, pop_snoc, Hd.
  rewrite emit_quiet by exact Hq. reflexivity.
Qed.

Lemma redo_of_success `{TreeApi} (throws : callback -> Snapshot -> bool)
    (g : Throwing.World) (rest : list Throwing.Entry) (e : Throwing.Entry) (d : Dom) :
  Throwing.redoStack (Throwing.manager g) = rest ++ [e] ->
  Changes.redo (Throwing.resolve (Throwing.manager g) e) (Throwing.document g)
  = Returned d ->
  quiet throws (Throwing.listeners (Throwing.manager g)) ->
  let h := Throwing.manager g in
  let h' := Throwing.withStacks h (Throwing.undoStack h ++ [e]) rest in
  Throwing.redo throws g
  = (true,
     Throwing.mkWorld h' d
       (Throwing.delivered g
        ++ map (fun cb => (cb, Throwing.state h'))
               (default [] (Throwing.listeners h !! "change"%string)))).
Proof.
  intros E Hd Hq h h'. unfold Throwing.redo.
  rewrite (canRedo_entries _ rest e E). simpl. rewrite E, pop_snoc, Hd.
  rewrite emit_quiet by exact Hq. reflexivity.
Qed.

Lemma undo_of_thrower `{TreeApi} (throws : callback -> Snapshot -> bool)
    (g : Throwing.World) (rest : list Throwing.Entry) (e : Throwing.Entry) (d : Dom)
    (before after : list callback) (cb : callback) :
  Throwing.undoStack (Throwing.manager g) = rest ++ [e] ->
  Changes.undo (Throwing.resolve (Throwing.manager g) e) (Throwing.document g)
  = Returned d ->
  let h := Throwing.manager g in
  let h' := Throwing.withStacks h rest (Throwing.redoStack h ++ [e]) in
  Throwing.listeners h !! "change"%string = Some (before ++ cb :: after) ->
  Forall (fun c => throws c (Throwing.state h') = false) before ->
  throws cb (Throwing.state h') = true ->
  Throwing.undo throws g
  = (false,
     Throwing.mkWorld
       (Throwing.withStacks h (rest ++ [e]) (Throwing.redoStack h ++ [e])) d
       (Throwing.delivered g
        ++ map (fun c => (c, Throwing.state h')) (before ++ [cb]))).
Proof.
  intros E Hd h h' Hls Hbefore Hcb. unfold Throwing.undo.
  rewrite (canUndo_entries _ rest e E). simpl. rewrite E, pop_snoc, Hd.
  unfold Throwing.emit. cbn [Throwing.manager Throwing.withStacks Throwing.listeners].
  fold h. rewrite Hls.
  fold h'. rewrite (forEach_thrower throws before after cb _ Hbefore Hcb).
  reflexivity.
Qed.

Lemma redo_of_thrower `{TreeApi} (throws : callback -> Snapshot -> bool)
    (g : Throwing.World) (rest : list Throwing.Entry) (e : Throwing.Entry) (d : Dom)
    (before after : list callback) (cb : callback) :
  Throwing.redoStack (Throwing.manager g) = rest ++ [e] ->
  Changes.redo (Throwing.resolve (Throwing.manager g) e) (Throwing.document g)
  = Returned d ->
  let h := Throwing.manager g in
  let h' := Throwing.withStacks h (Throwing.undoStack h ++ [e]) rest in
  Throwing.listeners h !! "change"%string = Some (before ++ cb :: after) ->
  Forall (fun c => throws c (Throwing.state h') = false) before ->
  throws cb (Throwing.state h') = true ->
  Throwing.redo throws g
  = (false,
     Throwing.mkWorld
       (Throwing.withStacks h (Throwing.undoStack h ++ [e]) (rest ++ [e])) d
       (Throwing.delivered g
        ++ map (fun c => (c, Throwing.state h')) (before ++ [cb]))).
Proof.
  intros E Hd h h' Hls Hbefore Hcb. unfold Throwing.redo.
  rewrite (canRedo_entries _ rest e E). simpl. rewrite E, pop_snoc, Hd.
  unfold Throwing.emit. cbn [Throwing.manager Throwing.withStacks Throwing.listeners].
  fold h. rewrite Hls.
  fold h'. rewrite (forEach_thrower throws before after cb _ Hbefore Hcb).
  reflexivity.
Qed.

Lemma undo_lift `{TreeApi} (throws : callback -> Snapshot -> bool) (w : World) :
  quiet throws (listeners (manager w)) ->
  Throwing.undo throws (lift w) = (fst (History.undo w), lift (snd (History.undo w))).
Proof.
  intros Hq. destruct (snoc_cases (undoStack (manager w))) as [E|(rest & c & E)].
  - rewrite undo_of_empty by (simpl; rewrite E; reflexivity).
    unfold History.undo, History.canUndo. rewrite E. reflexivity.
  - assert (E' : Throwing.undoStack (Throwing.manager (lift w))
                 = (Throwing.Held <$> rest) ++ [Throwing.Held c])
      by (simpl; rewrite E, fmap_app; reflexivity).
    destruct (Changes.undo c (document w)) as [d|d] eqn:Hd.
    + rewrite (undo_of_success throws (lift w) _ _ d E' Hd Hq).
      rewrite (undo_returned w rest c d E Hd). cbv zeta. cbn [fst snd].
      unfold lift, liftManager, notification. simpl.
      rewrite fmap_app.
      rewrite <- (state_lift (History.withStacks (manager w) rest
                               (redoStack (manager w) ++ [c]))).
      unfold liftManager. simpl. rewrite fmap_app. reflexivity.
    + rewrite (undo_of_failure throws (lift w) _ _ d E' Hd).
      rewrite (undo_raised w rest c d E Hd). reflexivity.
Qed.

Lemma redo_lift `{TreeApi} (throws : callback -> Snapshot -> bool) (w : World) :
  quiet throws (listeners (manager w)) ->
  Throwing.redo throws (lift w) = (fst (History.redo w), lift (snd (History.redo w))).
Proof.
  intros Hq. destruct (snoc_cases (redoStack (manager w))) as [E|(rest & c & E)].
  - rewrite redo_of_empty by (simpl; rewrite E; reflexivity).
    unfold History.redo, History.canRedo. rewrite E. reflexivity.
  - assert (E' : Throwing.redoStack (Throwing.manager (lift w))
                 = (Throwing.Held <$> rest) ++ [Throwing.Held c])
      by (simpl; rewrite E, fmap_app; reflexivity).
    destruct (Changes.redo c (document w)) as [d|d] eqn:Hd.
    + rewrite (redo_of_success throws (lift w) _ _ d E' Hd Hq).
      rewrite (redo_returned w rest c d E Hd). cbv zeta. cbn [fst snd].
      unfold lift, liftManager, notification. simpl.
      rewrite fmap_app.
      rewrite <- (state_lift (History.withStacks (manager w)
                               (undoStack (manager w) ++ [c]) rest)).
      unfold liftManager. simpl. rewrite fmap_app. reflexivity.
    + rewrite (redo_of_failure throws (lift w) _ _ d E' Hd).
      rewrite (redo_raised w rest c d E Hd). reflexivity.
Qed.

Lemma clear_lift (throws : callback -> Snapshot -> bool) (w : World) :
  quiet throws (listeners (manager w)) ->
  Throwing.clear throws (lift w) = (lift (History.clear w), false).
Proof.
  intros Hq. unfold Throwing.clear, History.clear.
  rewrite emit_quiet by exact Hq. rewrite emit_world. reflexivity.
Qed.

Lemma on_lift (event : string) (cb : callback) (h : HistoryManager) :
  Throwing.on event cb (liftManager h) = liftManager (History.on event cb h).
Proof. reflexivity. Qed.

Lemma off_lift (event : string) (cb : callback) (h : HistoryManager) :
  Throwing.off event cb (liftManager h) = liftManager (History.off event cb h).
Proof.
  unfold Throwing.off, History.off. simpl. destruct (listeners h !! event); reflexivity.
Qed.

(** The calls other than [on] and [off] leave the registry alone. *)
Lemma step_listeners `{TreeApi} (w : World) (o : Op) :
  match o with
  | OpOn ev cb => listeners (manager (step w o)) = listeners (History.on ev cb (manager w))
  | OpOff ev cb => listeners (manager (step w o)) = listeners (History.off ev cb (manager w))
  | _ => listeners (manager (step w o)) = listeners (manager w)
  end.
Proof.
  destruct o as [ev cb|ev cb|arg now| |now| | | |d]; try reflexivity.
  - simpl. unfold History.push.
    destruct (batchMode (manager w)); [destruct arg; reflexivity|].
    destruct arg as [c|[|c [|c' cs]]]; simpl; try reflexivity;
      (destruct (last (undoStack (manager w))) as [lastChange|];
       [destruct (Changes.canMerge lastChange _)|]; try reflexivity;
       rewrite emit_world; reflexivity).
  - simpl. unfold History.endBatch.
    destruct (bool_decide (0 < length (batchedChanges (manager w)))%nat);
      [rewrite emit_world|]; reflexivity.
  - simpl. unfold History.undo.
    destruct (negb (History.canUndo (manager w))); [reflexivity|].
    destruct (pop (undoStack (manager w))) as [[rest c]|]; [|reflexivity].
    destruct (Changes.undo c (document w)); [rewrite emit_world|]; reflexivity.
  - simpl. unfold History.redo.
    destruct (negb (History.canRedo (manager w))); [reflexivity|].
    destruct (pop (redoStack (manager w))) as [[rest c]|]; [|reflexivity].
    destruct (Changes.redo c (document w)); [rewrite emit_world|]; reflexivity.
  - simpl. unfold History.clear. rewrite emit_world. reflexivity.
Qed.

Lemma quiet_on (throws : callback -> Snapshot -> bool) (ev : string) (cb : callback)
    (h : HistoryManager) :
  (forall data, throws cb data = false) ->
  quiet throws (listeners h) -> quiet throws (listeners (History.on ev cb h)).
Proof.
  intros Hcb Hq cbs. unfold History.on. simpl.
  destruct (decide (ev = "change"%string)) as [->|Hne].
  - rewrite lookup_insert_eq. intros [= <-]. apply Forall_app. split.
    + destruct (listeners h !! "change"%string) as [old|] eqn:E; simpl;
        [exact (Hq old E) | constructor].
    + repeat constructor. exact Hcb.
  - rewrite lookup_insert_ne by assumption. apply Hq.
Qed.

Lemma quiet_off (throws : callback -> Snapshot -> bool) (ev : string) (cb : callback)
    (h : HistoryManager) :
  quiet throws (listeners h) -> quiet throws (listeners (History.off ev cb h)).
Proof.
  intros Hq cbs. unfold History.off.
  destruct (listeners h !! ev) as [old|] eqn:E; [|apply Hq]. simpl.
  destruct (decide (ev = "change"%string)) as [->|Hne].
  - rewrite lookup_insert_eq. intros [= <-].
    apply Forall_forall. intros c Hc. apply list_elem_of_filter in Hc as [_ Hc].
    exact (proj1 (Forall_forall _ _) (Hq old E) c Hc).
  - rewrite lookup_insert_ne by assumption. apply Hq.
Qed.

Lemma step_lift `{TreeApi} (throws : callback -> Snapshot -> bool) (w : World) (o : Op) :
  match o with OpOn _ cb => forall data, throws cb data = false | _ => True end ->
  quiet throws (listeners (manager w)) ->
  Throwing.step throws (lift w) o = lift (step w o)
  /\ quiet throws (listeners (manager (step w o))).
Proof.
  intros Ho Hq. split.
  - destruct o as [ev cb|ev cb|arg now| |now| | | |d]; simpl.
    + reflexivity.
    + unfold Throwing.withManager. simpl. rewrite off_lift. reflexivity.
    + rewrite push_lift by exact Hq. reflexivity.
    + apply beginBatch_lift.
    + rewrite endBatch_lift by exact Hq. reflexivity.
    + rewrite undo_lift by exact Hq. reflexivity.
    + rewrite redo_lift by exact Hq. reflexivity.
    + rewrite clear_lift by exact Hq. reflexivity.
    + reflexivity.
  - pose proof (step_listeners w o) as Hl.
    destruct o as [ev cb|ev cb|arg now| |now| | | |d]; rewrite Hl;
      try exact Hq; [apply quiet_on; assumption | apply quiet_off; assumption].
Qed.

Lemma run_lift `{TreeApi} (throws : callback -> Snapshot -> bool) (ops : list Op)
    (w : World) :
  registersQuiet throws ops ->
  quiet throws (listeners (manager w)) ->
  Throwing.run throws ops (lift w) = lift (run ops w).
Proof.
  intros Hops. revert w. induction Hops as [|o ops Ho _ IH]; intros w Hq; [reflexivity|].
  destruct (step_lift throws w o Ho Hq) as [Hstep Hq'].
  unfold Throwing.run, run. simpl. rewrite Hstep. apply IH. exact Hq'.
Qed.

Lemma quiet_fresh (throws : callback -> Snapshot -> bool) (options : Options) (d : Dom) :
  quiet throws (listeners (manager (fresh options d))).
Proof. intros cbs E. simpl in E. rewrite lookup_empty in E. discriminate. Qed.

(** ** A listener that throws inside undo() and redo() *)

(** C2.  A change is on the undo stack and a listener that throws is
    registered.  [undo()] runs the change's [undo()], which returns and
    puts [left] back, moves the change to the redo stack and calls the
    listener; the listener's exception is caught by the [catch] meant for a
    change that fails, which pushes the change on the undo stack again and
    returns [false].  The change is then on both stacks.  [redo()] does the
    same with the stacks exchanged. *)
Lemma C2_listener_exception_duplicates_entry :
  let throws := throwsOnly 13%nat in
  let g := @Throwing.run throws flatTree [OpPush (One edit) 0; OpOn "change" 13%nat]
             (lift (fresh defaults attachedDoc)) in
  let g' := @Throwing.run throws flatTree [OpPush (One edit) 0; OpUndo; OpOn "change" 13%nat]
              (lift (fresh defaults attachedDoc)) in
  let undone := @Throwing.undo throws flatTree g in
  let redone := @Throwing.redo throws flatTree g' in
  (Throwing.undoStack (Throwing.manager g) = [Throwing.Held edit]
   /\ Throwing.redoStack (Throwing.manager g) = []
   /\ @Changes.undo flatTree edit (Throwing.document g)
      = Returned (Throwing.document (snd undone))
   /\ getStyleProp 1 "left" (Throwing.document (snd undone)) = VStr "0px"
   /\ fst undone = false
   /\ Throwing.undoStack (Throwing.manager (snd undone)) = [Throwing.Held edit]
   /\ Throwing.redoStack (Throwing.manager (snd undone)) = [Throwing.Held edit]
   /\ Throwing.delivered (snd undone) = [(13%nat, mkSnapshot false true 0 1 false)])
  /\ (Throwing.undoStack (Throwing.manager g') = []
      /\ Throwing.redoStack (Throwing.manager g') = [Throwing.Held edit]
      /\ @Changes.redo flatTree edit (Throwing.document g')
         = Returned (Throwing.document (snd redone))
      /\ fst redone = false
      /\ Throwing.undoStack (Throwing.manager (snd redone)) = [Throwing.Held edit]
      /\ Throwing.redoStack (Throwing.manager (snd redone)) = [Throwing.Held edit]).
Proof. vm_compute. repeat split. Qed.

(** C4.  A manager of size 1 holds one change, and a listener that throws
    is registered.  [undo()] leaves the change on both stacks (its [catch]
    pushes it back after the listener's exception); [redo()] then pushes the
    change of the redo stack on the undo stack, where no size check is made,
    and the undo stack holds two entries. *)
Lemma C4_limit_exceeded_after_listener_exception :
  let throws := throwsOnly 13%nat in
  let g := @Throwing.run throws flatTree
             [OpPush (One edit) 0; OpOn "change" 13%nat; OpUndo; OpRedo]
             (lift (fresh (mkOptions (Some 1) None) attachedDoc)) in
  Throwing.maxSize (Throwing.manager g) = 1
  /\ Throwing.undoStack (Throwing.manager g) = [Throwing.Held edit; Throwing.Held edit]
  /\ Throwing.maxSize (Throwing.manager g)
     < Z.of_nat (length (Throwing.undoStack (Throwing.manager g))).
Proof. vm_compute. repeat split. Qed.

(** ** Outcomes of undo() and redo() *)

(** X24.  The outcomes of [undo()] when listeners may throw.  On an empty
    undo stack it returns [false] and changes nothing.  Otherwise the top
    entry is popped and its [undo()] is run.  If that throws, [false] is
    returned with the manager as before the call and nobody called.  If it
    returns and no listener throws, the entry is on the redo stack only, each
    listener has been called once with the resulting snapshot, and [true] is
    returned.  If it returns and a listener throws, the listeners up to and
    including that one have been called, [false] is returned, and the entry is
    on both stacks, although the document has been changed.  The same holds
    of [redo()] with the stacks exchanged. *)
Theorem X24_undo_redo_outcomes `{TreeApi} (throws : callback -> Snapshot -> bool)
    (g : Throwing.World) :
  let h := Throwing.manager g in
  let log := Throwing.delivered g in
  (Throwing.undoStack h = [] -> Throwing.undo throws g = (false, g))
  /\ (forall rest e, Throwing.undoStack h = rest ++ [e] ->
        let moved := Throwing.withStacks h rest (Throwing.redoStack h ++ [e]) in
        let both := Throwing.withStacks h (rest ++ [e]) (Throwing.redoStack h ++ [e]) in
        match Changes.undo (Throwing.resolve h e) (Throwing.document g) with
        | Raised d => Throwing.undo throws g = (false, Throwing.mkWorld h d log)
        | Returned d =>
            (quiet throws (Throwing.listeners h) ->
             Throwing.undo throws g
             = (true,
                Throwing.mkWorld moved d
                  (log ++ map (fun cb => (cb, Throwing.state moved))
                              (default [] (Throwing.listeners h !! "change"%string)))))
            /\ (forall before cb after,
                  Throwing.listeners h !! "change"%string = Some (before ++ cb :: after) ->
                  Forall (fun c => throws c (Throwing.state moved) = false) before ->
                  throws cb (Throwing.state moved) = true ->
                  Throwing.undo throws g
                  = (false,
                     Throwing.mkWorld both d
                       (log ++ map (fun c => (c, Throwing.state moved)) (before ++ [cb]))))
        end)
  /\ (Throwing.redoStack h = [] -> Throwing.redo throws g = (false, g))
  /\ (forall rest e, Throwing.redoStack h = rest ++ [e] ->
        let moved := Throwing.withStacks h (Throwing.undoStack h ++ [e]) rest in
        let both := Throwing.withStacks h (Throwing.undoStack h ++ [e]) (rest ++ [e]) in
        match Changes.redo (Throwing.resolve h e) (Throwing.document g) with
        | Raised d => Throwing.redo throws g = (false, Throwing.mkWorld h d log)
        | Returned d =>
            (quiet throws (Throwing.listeners h) ->
             Throwing.redo throws g
             = (true,
                Throwing.mkWorld moved d
                  (log ++ map (fun cb => (cb, Throwing.state moved))
                              (default [] (Throwing.listeners h !! "change"%string)))))
            /\ (forall before cb after,
                  Throwing.listeners h !! "change"%string = Some (before ++ cb :: after) ->
                  Forall (fun c => throws c (Throwing.state moved) = false) before ->
                  throws cb (Throwing.state moved) = true ->
                  Throwing.redo throws g
                  = (false,
                     Throwing.mkWorld both d
                       (log ++ map (fun c => (c, Throwing.state moved)) (before ++ [cb]))))
        end).
Proof.
  intros h log. subst h log. split; [apply undo_of_empty|].
  split; [|split; [apply redo_of_empty|]].
  - intros rest e E moved both.
    destruct (Changes.undo _ _) as [d|d] eqn:Hd.
    + split.
      * intros Hq. exact (undo_of_success throws g rest e d E Hd Hq).
      * intros before cb after Hls Hbefore Hcb.
        exact (undo_of_thrower throws g rest e d before after cb E Hd Hls Hbefore Hcb).
    + exact (undo_of_failure throws g rest e d E Hd).
  - intros rest e E moved both.
    destruct (Changes.redo _ _) as [d|d] eqn:Hd.
    + split.
      * intros Hq. exact (redo_of_success throws g rest e d E Hd Hq).
      * intros before cb after Hls Hbefore Hcb.
        exact (redo_of_thrower throws g rest e d before after cb E Hd Hls Hbefore Hcb).
    + exact (redo_of_failure throws g rest e d E Hd).
Qed.

(** ** Changes that cannot throw *)


(** ** Undo and redo as inverses *)

Lemma stack_duality `{TreeApi} (w : World) (cs : list Change) :
  Forall (fun c => neverThrows c = true) cs ->
  undoStack (manager w) = cs ->
  redoStack (manager w) = [] ->
  let undone := undoTimes (length cs) w in
  let redone := redoTimes (length cs) undone in
  (undoStack (manager undone) = [] /\ redoStack (manager undone) = rev cs)
  /\ (undoStack (manager redone) = cs /\ redoStack (manager redone) = []).
Proof.
  intros Hsafe Hu Hr undone redone.
  destruct (undoTimes_pops cs Hsafe w [] Hu) as [Hu1 Hr1].
  rewrite Hr in Hr1. simpl in Hr1. fold undone in Hu1, Hr1.
  assert (Hsafe' : Forall (fun c => neverThrows c = true) (rev cs))
    by (apply Forall_rev; exact Hsafe).
  destruct (redoTimes_pops (rev cs) Hsafe' undone [] Hr1) as [Hr2 Hu2].
  rewrite length_rev in Hr2, Hu2. fold redone in Hr2, Hu2.
  rewrite Hu1, rev_involutive in Hu2. simpl in Hu2.
  split; split; assumption.
Qed.

Lemma undoTimes_lift `{TreeApi} (throws : callback -> Snapshot -> bool) (n : nat)
    (w : World) :
  quiet throws (listeners (manager w)) ->
  Throwing.undoTimes throws n (lift w) = lift (undoTimes n w)
  /\ listeners (manager (undoTimes n w)) = listeners (manager w).
Proof.
  intros Hq. induction n as [|n [IH Hl]]; [split; reflexivity|].
  unfold Throwing.undoTimes, undoTimes in *. simpl. rewrite IH.
  rewrite undo_lift by (rewrite Hl; exact Hq). simpl. split; [reflexivity|].
  rewrite <- Hl. exact (step_listeners _ OpUndo).
Qed.

Lemma redoTimes_lift `{TreeApi} (throws : callback -> Snapshot -> bool) (n : nat)
    (w : World) :
  quiet throws (listeners (manager w)) ->
  Throwing.redoTimes throws n (lift w) = lift (redoTimes n w)
  /\ listeners (manager (redoTimes n w)) = listeners (manager w).
Proof.
  intros Hq. induction n as [|n [IH Hl]]; [split; reflexivity|].
  unfold Throwing.redoTimes, redoTimes in *. simpl. rewrite IH.
  rewrite redo_lift by (rewrite Hl; exact Hq). simpl. split; [reflexivity|].
  rewrite <- Hl. exact (step_listeners _ OpRedo).
Qed.


(** ** Batch mode *)

Lemma push_batching (throws : callback -> Snapshot -> bool) (arg : PushArg) (now : Z)
    (g : Throwing.World) :
  Throwing.batchMode (Throwing.manager g) = true ->
  Throwing.push throws arg now g
  = (Throwing.withManager g
       (Throwing.withBuffer (Throwing.manager g)
          (Throwing.batchedChanges (Throwing.manager g) ++ items arg)), false).
Proof.
  intros Hb. unfold Throwing.push. rewrite Hb. destruct arg; reflexivity.
Qed.

Lemma pushArgs_batching_entries (throws : callback -> Snapshot -> bool)
    (args : list (PushArg * Z)) (g : Throwing.World) :
  Throwing.batchMode (Throwing.manager g) = true ->
  Throwing.pushArgs throws args g
  = Throwing.withManager g
      (Throwing.withBuffer (Throwing.manager g)
         (Throwing.batchedChanges (Throwing.manager g)
          ++ concat (items <$> (fst <$> args)))).
Proof.
  revert g. induction args as [|[arg now] args IH]; intros g Hb.
  - simpl. rewrite app_nil_r. destruct g as [[] ? ?]; reflexivity.
  - unfold Throwing.pushArgs in *. simpl.
    rewrite (push_batching throws arg now g Hb). simpl.
    rewrite IH by exact Hb. unfold Throwing.withManager, Throwing.withBuffer. simpl.
    rewrite <- app_assoc. reflexivity.
Qed.

Lemma resolve_enforceLimit (hm hm' : Throwing.Manager) (h : HistoryManager)
    (st : list Throwing.Entry) :
  Throwing.maxSize hm' = maxSize h ->
  Throwing.resolve hm <$> Throwing.enforceLimit hm' st
  = History.enforceLimit h (Throwing.resolve hm <$> st).
Proof.
  intros Hm. unfold Throwing.enforceLimit, History.enforceLimit.
  rewrite Hm, length_fmap.
  destruct (maxSize h <? Z.of_nat (length st)); [|reflexivity].
  destruct st; reflexivity.
Qed.

(** X6.  A batch from [beginBatch] to [endBatch], on a manager none of
    whose entries is the buffer.  The pushes in between touch neither stack
    and call nobody.  If they brought no change, [endBatch] records nothing,
    calls nobody and closes the batch.  Otherwise it records one
    [BatchChange] of all the changes in the order pushed, arrays flattened,
    as a new top even when the old top could have merged with them, and
    empties the redo stack.  If then no listener throws, each listener has
    been called once, with a snapshot that still says [batchMode: true], the
    batch is closed and the buffer is empty.  If a listener throws, [endBatch]
    is left before it closes the batch: the batch stays open with the
    changes still in the buffer, and since the recorded batch is that very
    array, a change pushed later lands in the recorded batch as well. *)
Theorem X6_batch_session (throws : callback -> Snapshot -> bool) (w : World)
    (args : list (PushArg * Z)) (now : Z) :
  let h := manager w in
  let cs := concat (items <$> (fst <$> args)) in
  let opened := Throwing.pushArgs throws args (Throwing.beginBatch (lift w)) in
  let r := Throwing.endBatch throws now opened in
  let h' := Throwing.manager (fst r) in
  let recorded := History.enforceLimit h (undoStack h ++ [BatchChange now cs]) in
  let snapshot := mkSnapshot (bool_decide (0 < length recorded)%nat) false
                             (length recorded) 0 true in
  opened = lift (History.withManager w (History.withBatch h true cs))
  /\ (cs = [] -> r = (lift (History.withManager w (History.withBatch h false [])), false))
  /\ (cs <> [] ->
      changes h' (Throwing.undoStack h') = recorded
      /\ Throwing.redoStack h' = []
      /\ Throwing.document (fst r) = document w
      /\ (quiet throws (listeners h) ->
          snd r = false
          /\ Throwing.batchMode h' = false /\ Throwing.batchedChanges h' = []
          /\ Throwing.undoStack h' = Throwing.Held <$> recorded
          /\ Throwing.delivered (fst r)
             = delivered w ++ map (fun cb => (cb, snapshot))
                                  (default [] (listeners h !! "change"%string)))
      /\ (snd r = true ->
          Throwing.batchMode h' = true /\ Throwing.batchedChanges h' = cs
          /\ forall c now',
               let later := Throwing.manager (fst (Throwing.push throws (One c) now' (fst r))) in
               Throwing.undoStack later = Throwing.undoStack h'
               /\ changes later (Throwing.undoStack later)
                  = History.enforceLimit h (undoStack h ++ [BatchChange now (cs ++ [c])]))).
Proof.
  intros h cs opened r h' recorded snapshot.
  assert (Hopened : opened = lift (History.withManager w (History.withBatch h true cs))).
  { subst opened. rewrite beginBatch_lift.
    rewrite pushArgs_batching_entries by reflexivity. reflexivity. }
  split; [exact Hopened|].
  subst r h'. rewrite Hopened. unfold Throwing.endBatch.
  cbn [lift liftManager Throwing.manager Throwing.batchedChanges manager
       History.withManager History.withBatch batchedChanges].
  split.
  - intros ->. simpl.
    unfold Throwing.withManager, Throwing.newBuffer, lift, liftManager. simpl.
    rewrite !settle_lift. reflexivity.
  - intros Hne.
    rewrite bool_decide_eq_true_2 by (destruct cs; [congruence | simpl; lia]).
    match goal with
    | |- context [Throwing.emit throws ?ev ?data ?g] =>
        destruct (emit_manager throws ev data g) as [Hm Hd];
        pose proof (emit_quiet throws data g) as Hquiet;
        destruct (Throwing.emit throws ev data g) as [g1 threw] eqn:Hemit
    end.
    cbn [fst snd] in *.
    assert (Hrec : Throwing.resolve (Throwing.manager g1) <$> Throwing.undoStack (Throwing.manager g1)
                   = recorded).
    { rewrite Hm. cbn [Throwing.withManager Throwing.manager Throwing.withStacks
                       Throwing.undoStack Throwing.batchedChanges].
      rewrite (resolve_enforceLimit _ _ h) by reflexivity.
      unfold liftManager, History.withBatch. cbn [Throwing.undoStack undoStack].
      rewrite fmap_app, resolve_lift. reflexivity. }
    destruct threw; cbn [fst snd].
    + split; [exact Hrec|]. split; [rewrite Hm; reflexivity|].
      split; [rewrite Hd; reflexivity|]. split.
      * intros Hq. apply Hquiet in Hq. discriminate Hq.
      * intros _. split; [rewrite Hm; reflexivity|]. split; [rewrite Hm; reflexivity|].
        intros c now'.
        rewrite push_batching by (rewrite Hm; reflexivity).
        cbn [fst Throwing.withManager Throwing.manager Throwing.withBuffer
             Throwing.undoStack]. split; [reflexivity|].
        unfold changes. rewrite Hm.
        cbn [Throwing.withManager Throwing.manager Throwing.withStacks
             Throwing.undoStack Throwing.batchedChanges items].
        rewrite (resolve_enforceLimit _ _ h) by reflexivity.
        unfold liftManager, History.withBatch. cbn [Throwing.undoStack undoStack].
        rewrite fmap_app, resolve_lift. reflexivity.
    + unfold changes.
      cbn [Throwing.withManager Throwing.manager Throwing.newBuffer Throwing.undoStack
           Throwing.redoStack Throwing.batchMode Throwing.batchedChanges
           Throwing.document].
      assert (Hsettled : (fun e => Throwing.Held (Throwing.resolve (Throwing.manager g1) e))
                           <$> Throwing.undoStack (Throwing.manager g1)
                         = Throwing.Held <$> recorded).
      { rewrite <- Hrec, <- list_fmap_compose. reflexivity. }
      rewrite Hsettled, resolve_lift.
      split; [reflexivity|]. split; [rewrite Hm; reflexivity|].
      split; [exact Hd|]. split; [|intros; discriminate].
      intros Hq. apply Hquiet in Hq. injection Hq as Hg1.
      split; [reflexivity|]. split; [reflexivity|]. split; [reflexivity|].
      split; [reflexivity|].
      rewrite Hg1. cbn [Throwing.delivered Throwing.withManager lift].
      f_equal.
      assert (Hlen : length (Throwing.enforceLimit (liftManager (History.withBatch h true cs))
                               ((Throwing.Held <$> undoStack h) ++ [Throwing.Live now]))
                     = length recorded).
      { apply enforceLimit_same_length; [reflexivity|].
        rewrite !length_app, length_fmap. reflexivity. }
      unfold Throwing.state, Throwing.canUndo, Throwing.canRedo, snapshot.
      cbn [Throwing.withStacks Throwing.undoStack Throwing.redoStack].
      rewrite Hlen. reflexivity.
Qed.

(** ** The configured size *)

Lemma step_maxSize `{TreeApi} (throws : callback -> Snapshot -> bool) (g : Throwing.World)
    (o : Op) :
  Throwing.maxSize (Throwing.manager (Throwing.step throws g o))
  = Throwing.maxSize (Throwing.manager g).
Proof.
  destruct o as [ev cb|ev cb|arg now| |now| | | |d]; simpl; try reflexivity.
  - unfold Throwing.off. destruct (Throwing.listeners (Throwing.manager g) !! ev); reflexivity.
  - unfold Throwing.push.
    destruct (Throwing.batchMode (Throwing.manager g)); [destruct arg; reflexivity|].
    destruct arg as [c|[|c [|c' cs]]]; simpl; try reflexivity;
      (destruct (last (Throwing.undoStack (Throwing.manager g))) as [lastChange|];
       [destruct (Changes.canMerge _ _)|]; try reflexivity;
       match goal with
       | |- context [Throwing.emit throws ?ev ?data ?g'] =>
           rewrite (proj1 (emit_manager throws ev data g')); reflexivity
       end).
  - unfold Throwing.endBatch.
    destruct (bool_decide _); [|reflexivity].
    match goal with
    | |- context [Throwing.emit throws ?ev ?data ?g'] =>
        pose proof (proj1 (emit_manager throws ev data g')) as Hm;
        destruct (Throwing.emit throws ev data g') as [g1 threw]
    end.
    simpl in *. destruct threw; simpl; rewrite Hm; reflexivity.
  - unfold Throwing.undo.
    destruct (negb _); [reflexivity|].
    destruct (pop _) as [[rest e]|]; [|reflexivity].
    destruct (Changes.undo _ _); [|reflexivity].
    match goal with
    | |- context [Throwing.emit throws ?ev ?data ?g'] =>
        pose proof (proj1 (emit_manager throws ev data g')) as Hm;
        destruct (Throwing.emit throws ev data g') as [g1 threw]
    end.
    simpl in *. destruct threw; simpl; [|rewrite Hm]; reflexivity.
  - unfold Throwing.redo.
    destruct (negb _); [reflexivity|].
    destruct (pop _) as [[rest e]|]; [|reflexivity].
    destruct (Changes.redo _ _); [|reflexivity].
    match goal with
    | |- context [Throwing.emit throws ?ev ?data ?g'] =>
        pose proof (proj1 (emit_manager throws ev data g')) as Hm;
        destruct (Throwing.emit throws ev data g') as [g1 threw]
    end.
    simpl in *. destruct threw; simpl; [|rewrite Hm]; reflexivity.
  - unfold Throwing.clear.
    match goal with
    | |- context [Throwing.emit throws ?ev ?data ?g'] =>
        rewrite (proj1 (emit_manager throws ev data g')); reflexivity
    end.
Qed.

Lemma step_keeps_nothing `{TreeApi} (throws : callback -> Snapshot -> bool)
    (g : Throwing.World) (o : Op) :
  Throwing.maxSize (Throwing.manager g) < 0 ->
  Throwing.undoStack (Throwing.manager g) = [] ->
  Throwing.redoStack (Throwing.manager g) = [] ->
  Throwing.undoStack (Throwing.manager (Throwing.step throws g o)) = []
  /\ Throwing.redoStack (Throwing.manager (Throwing.step throws g o)) = [].
Proof.
  intros Hneg Hu Hr.
  assert (Hlimit : forall e, Throwing.enforceLimit (Throwing.manager g) ([] ++ [e]) = []).
  { intros e. unfold Throwing.enforceLimit. simpl.
    replace (Throwing.maxSize (Throwing.manager g) <? Z.of_nat 1) with true
      by (symmetry; apply Z.ltb_lt; lia).
    reflexivity. }
  destruct o as [ev cb|ev cb|arg now| |now| | | |d]; simpl.
  - split; assumption.
  - unfold Throwing.off. destruct (Throwing.listeners (Throwing.manager g) !! ev);
      split; assumption.
  - unfold Throwing.push.
    destruct (Throwing.batchMode (Throwing.manager g)); [destruct arg; split; assumption|].
    rewrite Hu. cbn [last].
    destruct arg as [c|[|c [|c' cs]]]; cbn [fst]; try (split; assumption);
      rewrite Hlimit;
      match goal with
      | |- context [Throwing.emit throws ?ev ?data ?g'] =>
          rewrite (proj1 (emit_manager throws ev data g')); split; reflexivity
      end.
  - rewrite Hu, Hr. split; reflexivity.
  - unfold Throwing.endBatch.
    destruct (bool_decide _).
    + rewrite Hu, Hlimit.
      match goal with
      | |- context [Throwing.emit throws ?ev ?data ?g'] =>
          pose proof (proj1 (emit_manager throws ev data g')) as Hm;
          destruct (Throwing.emit throws ev data g') as [g1 threw]
      end.
      simpl in *. destruct threw; simpl; rewrite Hm; split; reflexivity.
    + simpl. rewrite Hu, Hr. split; reflexivity.
  - rewrite undo_of_empty by exact Hu. split; assumption.
  - rewrite redo_of_empty by exact Hr. split; assumption.
  - unfold Throwing.clear.
    match goal with
    | |- context [Throwing.emit throws ?ev ?data ?g'] =>
        rewrite (proj1 (emit_manager throws ev data g')); split; reflexivity
    end.
  - split; assumption.
Qed.

Lemma run_maxSize `{TreeApi} (throws : callback -> Snapshot -> bool) (ops : list Op)
    (g : Throwing.World) :
  Throwing.maxSize (Throwing.manager (Throwing.run throws ops g))
  = Throwing.maxSize (Throwing.manager g).
Proof.
  revert g. induction ops as [|o ops IH]; intros g; [reflexivity|].
  unfold Throwing.run in *. simpl. rewrite IH. apply step_maxSize.
Qed.

(** X11.  The size given to the constructor, whatever the listeners do.
    Without [maxSize], or with [maxSize: 0], the limit is 50 after any
    sequence of calls: 0 does not switch history off.  With a negative
    [maxSize] nothing is ever kept: after any sequence of calls both stacks
    are empty, so [canUndo()] and [canRedo()] are false. *)
Theorem X11_configured_size `{TreeApi} (throws : callback -> Snapshot -> bool)
    (options : Options) (d : Dom) (ops : list Op) :
  let h := Throwing.manager (Throwing.run throws ops (lift (fresh options d))) in
  (optMaxSize options = None \/ optMaxSize options = Some 0 -> Throwing.maxSize h = 50)
  /\ (forall m, optMaxSize options = Some m -> m < 0 ->
        Throwing.undoStack h = [] /\ Throwing.redoStack h = []
        /\ Throwing.canUndo h = false /\ Throwing.canRedo h = false).
Proof.
  intros h. subst h. split.
  - intros Hopt. rewrite run_maxSize. simpl. apply or_default_falsy. exact Hopt.
  - intros m Hopt Hneg.
    assert (Hgen : forall g, Throwing.maxSize (Throwing.manager g) < 0 ->
                     Throwing.undoStack (Throwing.manager g) = [] ->
                     Throwing.redoStack (Throwing.manager g) = [] ->
                     Throwing.undoStack (Throwing.manager (Throwing.run throws ops g)) = []
                     /\ Throwing.redoStack (Throwing.manager (Throwing.run throws ops g)) = []).
    { induction ops as [|o ops IH]; intros g Hm Hu Hr; [split; assumption|].
      destruct (step_keeps_nothing throws g o Hm Hu Hr) as (Hu' & Hr').
      unfold Throwing.run in *. simpl. apply IH; try assumption.
      rewrite step_maxSize. exact Hm. }
    destruct (Hgen (lift (fresh options d))) as [Hu Hr]; try reflexivity.
    { simpl. rewrite Hopt. simpl. destruct (Z.eqb_spec m 0); lia. }
    unfold Throwing.canUndo, Throwing.canRedo. rewrite Hu, Hr. repeat split.
Qed.

(** ** The size bound *)

Lemma world_lift (g : Throwing.World) (h : HistoryManager) :
  Throwing.manager g = liftManager h ->
  g = lift (mkWorld h (Throwing.document g) (Throwing.delivered g)).
Proof. intros E. destruct g as [hm d l]. simpl in E. subst hm. reflexivity. Qed.

Lemma pushAll_stacks (throws : callback -> Snapshot -> bool) (pushes : list (Change * Z))
    (g : Throwing.World) (w : World) :
  Throwing.manager g = liftManager (manager w) ->
  Throwing.manager (Throwing.pushAll throws pushes g)
  = liftManager (manager (pushAll pushes w)).
Proof.
  revert g w. induction pushes as [|[c now] pushes IH]; intros g w E; [exact E|].
  unfold Throwing.pushAll, pushAll in *. simpl. apply IH.
  rewrite (world_lift g (manager w) E).
  rewrite (proj1 (push_stacks throws (One c) now _)).
  f_equal. apply push_manager. reflexivity.
Qed.

(** X25.  The size bound while the listeners return.  With a positive
    [maxSize], after any sequence of calls in which no listener that throws
    is registered, the two stacks together hold at most [maxSize] entries,
    whatever happens to the document in between.  And whatever the listeners
    do, pushing [maxSize + k] changes none of which merges into an earlier
    one leaves exactly the [maxSize] most recent of them on the undo stack,
    the [k] oldest having been dropped. *)
Theorem X25_bounded_while_listeners_return `{TreeApi}
    (throws : callback -> Snapshot -> bool) (options : Options) (m : Z) (d : Dom) :
  optMaxSize options = Some m -> 0 < m ->
  (forall ops : list Op,
      registersQuiet throws ops ->
      let h := Throwing.manager (Throwing.run throws ops (lift (fresh options d))) in
      Z.of_nat (length (Throwing.undoStack h) + length (Throwing.redoStack h)) <= m)
  /\ (forall (pushes : list (Change * Z)) (k : nat),
        length pushes = (Z.to_nat m + k)%nat ->
        nonMergeable (fst <$> pushes) ->
        let h := Throwing.manager
                   (Throwing.pushAll throws pushes (lift (fresh options d))) in
        Throwing.undoStack h = Throwing.Held <$> drop k (fst <$> pushes)
        /\ Z.of_nat (length (Throwing.undoStack h)) = m).
Proof.
  intros Hopt Hpos. split.
  - intros ops Hops h. subst h.
    rewrite (run_lift throws ops _ Hops (quiet_fresh throws options d)).
    destruct (within_run m ops (fresh options d) Hpos (within_fresh options m d Hopt Hpos))
      as [_ Hle].
    simpl. rewrite !length_fmap. exact Hle.
  - intros pushes k Hlen Hnm h. subst h.
    rewrite (pushAll_stacks throws pushes (lift (fresh options d)) (fresh options d) eq_refl).
    destruct (within_fresh options m d Hopt Hpos) as [Hm _].
    destruct (pushAll_keep (Z.to_nat m) (fresh options d) pushes) as (_ & _ & Hst);
      [lia | rewrite Hm; lia | reflexivity | reflexivity | exact Hnm |].
    simpl. rewrite Hst. unfold keep. rewrite length_fmap, Hlen.
    replace (Z.to_nat m + k - Z.to_nat m)%nat with k by lia.
    split; [reflexivity|].
    rewrite length_fmap, length_drop, length_fmap, Hlen. lia.
Qed.

(** * The further properties at concrete inputs *)

Lemma onlyAttributes_setAttribute (el : node) (a : string) (v : value) :
  onlyAttributes (setAttribute el a v).
Proof.
  intros d e. unfold setAttribute.
  destruct (decide (e = el)) as [->|Hne].
  - rewrite lookup_alter_eq. destruct (d !! el); simpl; [repeat split | exact I].
  - rewrite lookup_alter_ne by congruence.
    destruct (d !! e); [repeat split | exact I].
Qed.

Lemma X2_failed_batch_undo_witness :
  let w := History.push (Many [retype; BaseChange 5; nudgeB]) 7 (fresh defaults attachedDoc) in
  let d2 := setStyleProp 1 "left" (VStr "3px") attachedDoc in
  (undoStack (manager w) = [] ++ [BatchChange 7 ([retype] ++ BaseChange 5 :: [nudgeB])]
   /\ @Changes.undo flatTree (BatchChange 7 [nudgeB]) (document w) = Returned d2
   /\ @Changes.undo flatTree (BaseChange 5) d2 = Raised d2)
  /\ @History.undo flatTree w = (false, mkWorld (manager w) d2 (delivered w))
  /\ getStyleProp 1 "left" d2 = VStr "3px"
  /\ getTextContent 1 d2 = VStr "".
Proof.
  intros w d2.
  assert (H1 : undoStack (manager w)
               = [] ++ [BatchChange 7 ([retype] ++ BaseChange 5 :: [nudgeB])])
    by reflexivity.
  assert (H2 : @Changes.undo flatTree (BatchChange 7 [nudgeB]) (document w) = Returned d2)
    by reflexivity.
  assert (H3 : @Changes.undo flatTree (BaseChange 5) d2 = Raised d2) by reflexivity.
  split; [exact (conj H1 (conj H2 H3))|].
  split; [exact (@X2_failed_batch_undo_is_partial flatTree w [] 7 [retype] [nudgeB]
                   (BaseChange 5) d2 d2 H1 H2 H3)|].
  split; reflexivity.
Defined.

Lemma X5_buffer_empty_witness :
  let ops := [OpBeginBatch; OpPush (One retype) 10; OpBeginBatch; OpPush (One nudgeA) 11;
              OpClear] in
  let h := manager (@run flatTree ops (fresh defaults attachedDoc)) in
  batchMode h = false /\ batchedChanges h = [].
Proof.
  intros ops h.
  assert (Hb : batchMode h = false) by reflexivity.
  split; [exact Hb|].
  exact (@X5_buffer_empty_outside_batch flatTree defaults attachedDoc ops Hb).
Defined.

Lemma X9_listeners_witness :
  let h := History.on "change" 4%nat (History.on "click" 5%nat (History.constructor defaults)) in
  "click"%string <> "change"%string
  /\ notification (History.on "click" 6%nat h) = notification h
  /\ fst <$> notification (History.on "change" 6%nat h) = [4%nat; 6%nat].
Proof.
  intros h.
  assert (Hne : "click"%string <> "change"%string) by discriminate.
  destruct (X9_listeners h 6%nat) as (Hon & _ & Hother).
  split; [exact Hne|].
  split; [exact (proj1 (Hother "click"%string Hne)) | exact (f_equal (fmap fst) Hon)].
Defined.


Lemma X12_no_history_before_mouse_up_witness :
  let s := fst (idleDrag dragDoc) in
  let w := snd (idleDrag dragDoc) in
  let es := [mouseAt 13 10; mouseAt 13 14; mouseAt 0 0] in
  @evTarget wholeBrowser (mouseAt 10 10) = surface s
  /\ travelDistance (fst (mouseMoves es (Draggable.onMouseDown (mouseAt 10 10) s w))) = 3%nat
  /\ manager (snd (mouseMoves es (Draggable.onMouseDown (mouseAt 10 10) s w))) = manager w.
Proof.
  intros s w es.
  assert (Ht : @evTarget wholeBrowser (mouseAt 10 10) = surface s) by reflexivity.
  destruct (@X12_no_history_before_mouse_up wholeBrowser (mouseAt 10 10) es s w)
    as (_ & Hsame & Htravel).
  split; [exact Ht|]. split; [exact (Htravel Ht) | exact (proj1 Hsame)].
Defined.

Lemma X13_click_records_nothing_witness :
  let s := fst (idleDrag dragDoc) in
  let w := snd (idleDrag dragDoc) in
  let down := Draggable.onMouseDown (mouseAt 10 10) s w in
  let up := Draggable.onMouseUp (mouseAt 10 10) 77 (fst down) (snd down) in
  (@evTarget wholeBrowser (mouseAt 10 10) = surface s
   /\ getAttribute (target s) "transform" (document w) = VNull)
  /\ manager (snd up) = manager w
  /\ fst <$> clicks (fst up) = [9%nat].
Proof.
  intros s w down up.
  assert (Ht : @evTarget wholeBrowser (mouseAt 10 10) = surface s) by reflexivity.
  assert (Hnull : getAttribute (target s) "transform" (document w) = VNull) by reflexivity.
  destruct (@X13_click_records_nothing wholeBrowser (mouseAt 10 10) (mouseAt 10 10) 77 s w
              Ht Ht) as (Hnothing & _ & Hclick).
  split; [exact (conj Ht Hnull)|].
  split; [exact (proj1 (Hnothing (or_introl Hnull))) | exact (f_equal (fmap fst) Hclick)].
Defined.

Lemma X14_zIndex_round_trip_witness :
  let s := fst (idleDrag layeredDoc) in
  let w := snd (idleDrag layeredDoc) in
  let down := Draggable.onMouseDown (mouseAt 10 10) s w in
  let up := Draggable.onMouseUp (mouseAt 10 10) 77 (fst down) (snd down) in
  (@evTarget wholeBrowser (mouseAt 10 10) = surface s
   /\ Draggable.nullish (zIndex s) = true
   /\ getStyleProp (target s) "zIndex" (document w) = VStr "3")
  /\ getStyleProp 1 "zIndex" (document (snd down)) = VStr "9999999999999"
  /\ getStyleProp 1 "zIndex" (document (snd up)) = VStr "3".
Proof.
  intros s w down up.
  assert (Ht : @evTarget wholeBrowser (mouseAt 10 10) = surface s) by reflexivity.
  assert (Hz : Draggable.nullish (zIndex s) = true) by reflexivity.
  assert (Hs : getStyleProp (target s) "zIndex" (document w) = VStr "3") by reflexivity.
  destruct (@X14_zIndex_round_trip wholeBrowser (mouseAt 10 10) (mouseAt 10 10)
              (mouseAt 10 10) 77 s w "3" Ht Ht Ht Hz Hs) as ((Hraised & _) & (Hback & _) & _).
  split; [exact (conj Ht (conj Hz Hs))|]. split; [exact Hraised | exact Hback].
Defined.








Lemma X22_extract_translate_witness :
  (plain "3" = true /\ plain "-4" = true)
  /\ @Draggable.extractSVGTranslate wholeBrowser "translate(3,-4)" = [Whole 3; Whole (-4)]
  /\ @Draggable.extractSVGTranslate wholeBrowser "rotate" = [NaN].
Proof.
  assert (Ha : plain "3" = true) by reflexivity.
  assert (Hb : plain "-4" = true) by reflexivity.
  destruct (@X22_extract_translate wholeBrowser "3" "-4" "rotate") as (Hpair & _ & Hnone).
  split; [exact (conj Ha Hb)|]. split; [exact (Hpair Ha Hb)|].
  apply Hnone; apply plain_absent; reflexivity.
Defined.


Lemma X4_redo_then_undo_witness :
  let c := StyleChange 0 (Some 1%nat) "top" (VStr "") (VStr "3px") in
  (connected 1 attachedDoc = true /\ getStyleProp 1 "top" attachedDoc = VStr "")
  /\ (exists d1 d2, @Changes.redo flatTree c attachedDoc = Returned d1
                    /\ @Changes.undo flatTree c d1 = Returned d2
                    /\ sameReads attachedDoc d2)
  /\ @Changes.redo flatTree (AttributeChange 0 (Some 1%nat) "" VNull (VStr "x")) attachedDoc
     = Raised attachedDoc.
Proof.
  intros c.
  assert (Hc : connected 1 attachedDoc = true) by reflexivity.
  assert (Hold : getStyleProp 1 "top" attachedDoc = VStr "") by reflexivity.
  destruct (@X4_redo_then_undo_restores flatTree 1%nat attachedDoc Hc)
    as (Hstyle & _ & Hbad).
  split; [exact (conj Hc Hold)|].
  split; [exact (Hstyle 0 "top"%string (VStr "") (VStr "3px") Hold)|].
  apply Hbad; [reflexivity | discriminate].
Defined.

Lemma X6_batch_session_witness :
  let throws := throwsOnly 13%nat in
  let w := @run flatTree [OpOn "change" 13%nat] (fresh defaults attachedDoc) in
  let args := [(One nudgeA, 0); (Many [nudgeB; retype], 100)] in
  let r := Throwing.endBatch throws 200
             (Throwing.pushArgs throws args (Throwing.beginBatch (lift w))) in
  let later := Throwing.manager (fst (Throwing.push throws (One edit) 300 (fst r))) in
  (concat (items <$> (fst <$> args)) <> [] /\ snd r = true)
  /\ Throwing.batchMode (Throwing.manager (fst r)) = true
  /\ changes (Throwing.manager (fst r)) (Throwing.undoStack (Throwing.manager (fst r)))
     = [BatchChange 200 [nudgeA; nudgeB; retype]]
  /\ changes later (Throwing.undoStack later)
     = [BatchChange 200 [nudgeA; nudgeB; retype; edit]].
Proof.
  intros throws w args r later.
  assert (Hne : concat (items <$> (fst <$> args)) <> []) by discriminate.
  assert (Hthrew : snd r = true) by reflexivity.
  destruct (X6_batch_session throws w args 200) as (_ & _ & Hsome).
  destruct (Hsome Hne) as (Hrec & _ & _ & _ & Hopen).
  destruct (Hopen Hthrew) as (Hmode & _ & Hlater).
  split; [exact (conj Hne Hthrew)|]. split; [exact Hmode|].
  split; [exact Hrec | exact (proj2 (Hlater edit 300))].
Defined.


Lemma X11_configured_size_witness :
  let throws := throwsOnly 13%nat in
  let ops := [OpOn "change" 13%nat; OpPush (One retype) 10; OpBeginBatch;
              OpPush (One nudgeA) 20; OpEndBatch 21; OpUndo] in
  let h := Throwing.manager
             (@Throwing.run throws flatTree ops
                (lift (fresh (mkOptions (Some (-3)) None) attachedDoc))) in
  let h0 := Throwing.manager
              (@Throwing.run throws flatTree ops
                 (lift (fresh (mkOptions (Some 0) None) attachedDoc))) in
  -3 < 0
  /\ (Throwing.undoStack h = [] /\ Throwing.redoStack h = [])
  /\ Throwing.maxSize h0 = 50.
Proof.
  intros throws ops h h0.
  assert (Hneg : -3 < 0) by lia.
  destruct (@X11_configured_size flatTree throws (mkOptions (Some (-3)) None)
              attachedDoc ops) as (_ & Hnone).
  destruct (Hnone (-3) eq_refl Hneg) as (Hu & Hr & _).
  destruct (@X11_configured_size flatTree throws (mkOptions (Some 0) None)
              attachedDoc ops) as (Hzero & _).
  split; [exact Hneg|]. split; [exact (conj Hu Hr)|].
  exact (Hzero (or_intror eq_refl)).
Defined.

Lemma X24_undo_redo_outcomes_witness :
  let throws := throwsOnly 13%nat in
  let g := @Throwing.run throws flatTree
             [OpOn "change" 7%nat; OpPush (One edit) 0; OpOn "change" 13%nat;
              OpOn "change" 8%nat]
             (lift (fresh defaults attachedDoc)) in
  let undone := @Throwing.undo throws flatTree g in
  (Throwing.undoStack (Throwing.manager g) = [] ++ [Throwing.Held edit]
   /\ Throwing.listeners (Throwing.manager g) !! "change"%string
      = Some ([7%nat] ++ 13%nat :: [8%nat]))
  /\ fst undone = false
  /\ Throwing.undoStack (Throwing.manager (snd undone)) = [Throwing.Held edit]
  /\ Throwing.redoStack (Throwing.manager (snd undone)) = [Throwing.Held edit]
  /\ fst <$> Throwing.delivered (snd undone) = [7%nat; 7%nat; 13%nat].
Proof.
  intros throws g undone.
  assert (Hst : Throwing.undoStack (Throwing.manager g) = [] ++ [Throwing.Held edit])
    by reflexivity.
  assert (Hls : Throwing.listeners (Throwing.manager g) !! "change"%string
                = Some ([7%nat] ++ 13%nat :: [8%nat])) by reflexivity.
  destruct (@X24_undo_redo_outcomes flatTree throws g) as (_ & Hundo & _).
  pose proof (Hundo [] (Throwing.Held edit) Hst) as Hcase.
  change (@Changes.undo flatTree (Throwing.resolve (Throwing.manager g) (Throwing.Held edit))
            (Throwing.document g))
    with (Returned (setStyleProp 1 "left" (VStr "0px") (Throwing.document g))) in Hcase.
  cbv zeta iota beta in Hcase. destruct Hcase as [_ Hthrower].
  specialize (Hthrower [7%nat] 13%nat [8%nat] Hls).
  assert (Hbefore : Forall (fun c => throws c
             (Throwing.state
                (Throwing.withStacks (Throwing.manager g) []
                   (Throwing.redoStack (Throwing.manager g) ++ [Throwing.Held edit])))
             = false) [7%nat]) by (repeat constructor).
  specialize (Hthrower Hbefore eq_refl).
  split; [exact (conj Hst Hls)|].
  unfold undone. rewrite Hthrower.
  split; [reflexivity|]. split; [reflexivity|]. split; reflexivity.
Defined.

Lemma X25_bounded_witness :
  let throws := throwsOnly 13%nat in
  let options := mkOptions (Some 2) None in
  let ops := [OpOn "change" 7%nat; OpPush (One nudgeA) 0; OpPush (One retype) 10; OpUndo;
              OpPush (Many [retype; nudgeB]) 20; OpRedo; OpBeginBatch;
              OpPush (One retype) 30; OpEndBatch 31] in
  let h := Throwing.manager (@Throwing.run throws flatTree ops
                               (lift (fresh options attachedDoc))) in
  (optMaxSize options = Some 2 /\ 0 < 2 /\ registersQuiet throws ops
   /\ length retypes = (Z.to_nat 2 + 1)%nat)
  /\ Z.of_nat (length (Throwing.undoStack h) + length (Throwing.redoStack h)) <= 2
  /\ Throwing.undoStack
       (Throwing.manager (Throwing.pushAll throws retypes (lift (fresh options attachedDoc))))
     = [Throwing.Held (TextChange 5 (Some 1%nat) (VStr "b") (VStr "c"));
        Throwing.Held (TextChange 9 (Some 1%nat) (VStr "c") (VStr "d"))].
Proof.
  intros throws options ops h.
  assert (Hopt : optMaxSize options = Some 2) by reflexivity.
  assert (Hpos : 0 < 2) by lia.
  assert (Hops : registersQuiet throws ops).
  { repeat apply Forall_cons_2; try exact I; [intros data; reflexivity | apply Forall_nil_2]. }
  assert (Hlen : length retypes = (Z.to_nat 2 + 1)%nat) by reflexivity.
  destruct (@X25_bounded_while_listeners_return flatTree throws options 2 attachedDoc
              Hopt Hpos) as (Hbound & Hexact).
  destruct (Hexact retypes 1%nat Hlen retypes_nonMergeable) as (Hstack & _).
  split; [exact (conj Hopt (conj Hpos (conj Hops Hlen)))|].
  split; [exact (Hbound ops Hops) | exact Hstack].
Defined.
